(** * Statistics extraction from SWOT reports (hromada_economy.py, swot_processor.py)

    A shallow embedding of the extraction core of the API_EPG client:
    - [HromadaEconomy.process_swot_statistics] and its inner walker
      [find_statistics] (src/hromada_economy.py);
    - [SWOTProcessor.extract_statistics], its inner [find_field] and
      [remove_cadastr_numbers], [save_statistics_to_excel] and
      [process_swot_file] (src/swot_processor.py);
    - [_handle_swot_response], [get_swot_report], [save_swot_to_file] and
      [save_economy_list_to_file] (src/hromada_economy.py);
    - [Config.get_token], [save_token], [get_credentials] and
      [save_credentials] (src/config.py), [VkursiAuth.authorize]
      (src/auth.py).

    Decoded JSON is a tagged tree.  Python strings are lists of Unicode code
    points.  Python [int] is [Z]; Python [float] is idealised as an exact
    rational [Q] (no rounding, no infinities: only finite JSON numbers are
    modelled).  A Python exception is [None] in an [option] result. *)

From Stdlib Require Import ZArith QArith List String Ascii Bool Lia DecimalString Sorting.Sorted.
Import ListNotations.

(* ------------------------------------------------------------------ *)
(** ** Python strings *)

(** A Python [str]: a sequence of Unicode code points. *)
Definition pystr := list N.

(** ASCII literal to [pystr]. *)
Fixpoint of_ascii (s : string) : pystr :=
  match s with
  | EmptyString => []
  | String c s' => N_of_ascii c :: of_ascii s'
  end.

Definition pystr_eqb (a b : pystr) : bool :=
  if list_eq_dec N.eq_dec a b then true else false.

Lemma pystr_eqb_eq a b : pystr_eqb a b = true <-> a = b.
Proof. unfold pystr_eqb; destruct (list_eq_dec N.eq_dec a b); split; congruence. Qed.

(** The simple lower-case mapping of the Unicode Character Database
    (14.0, Python 3.11) as runs [(lo, hi, step, delta)]: every code point
    [lo + k * step <= hi] is mapped to itself plus [delta]; U+0130 and
    U+03A3 are handled apart. *)
Definition run (lo hi step : N) (delta : Z) : N * N * N * Z :=
  (lo, hi, step, delta).

Definition lower_runs : list (N * N * N * Z) := [
  run 0x41 0x5A 1 32; run 0xC0 0xD6 1 32; run 0xD8 0xDE 1 32; run 0x100 0x12E 2 1;
  run 0x132 0x136 2 1; run 0x139 0x147 2 1; run 0x14A 0x176 2 1; run 0x178 0x178 1 (-121);
  run 0x179 0x17D 2 1; run 0x181 0x181 1 210; run 0x182 0x184 2 1; run 0x186 0x186 1 206;
  run 0x187 0x187 1 1; run 0x189 0x18A 1 205; run 0x18B 0x18B 1 1; run 0x18E 0x18E 1 79;
  run 0x18F 0x18F 1 202; run 0x190 0x190 1 203; run 0x191 0x191 1 1; run 0x193 0x193 1 205;
  run 0x194 0x194 1 207; run 0x196 0x196 1 211; run 0x197 0x197 1 209; run 0x198 0x198 1 1;
  run 0x19C 0x19C 1 211; run 0x19D 0x19D 1 213; run 0x19F 0x19F 1 214; run 0x1A0 0x1A4 2 1;
  run 0x1A6 0x1A6 1 218; run 0x1A7 0x1A7 1 1; run 0x1A9 0x1A9 1 218; run 0x1AC 0x1AC 1 1;
  run 0x1AE 0x1AE 1 218; run 0x1AF 0x1AF 1 1; run 0x1B1 0x1B2 1 217; run 0x1B3 0x1B5 2 1;
  run 0x1B7 0x1B7 1 219; run 0x1B8 0x1B8 1 1; run 0x1BC 0x1BC 1 1; run 0x1C4 0x1C4 1 2;
  run 0x1C5 0x1C5 1 1; run 0x1C7 0x1C7 1 2; run 0x1C8 0x1C8 1 1; run 0x1CA 0x1CA 1 2;
  run 0x1CB 0x1DB 2 1; run 0x1DE 0x1EE 2 1; run 0x1F1 0x1F1 1 2; run 0x1F2 0x1F4 2 1;
  run 0x1F6 0x1F6 1 (-97); run 0x1F7 0x1F7 1 (-56); run 0x1F8 0x21E 2 1; run 0x220 0x220 1 (-130);
  run 0x222 0x232 2 1; run 0x23A 0x23A 1 10795; run 0x23B 0x23B 1 1; run 0x23D 0x23D 1 (-163);
  run 0x23E 0x23E 1 10792; run 0x241 0x241 1 1; run 0x243 0x243 1 (-195); run 0x244 0x244 1 69;
  run 0x245 0x245 1 71; run 0x246 0x24E 2 1; run 0x370 0x372 2 1; run 0x376 0x376 1 1;
  run 0x37F 0x37F 1 116; run 0x386 0x386 1 38; run 0x388 0x38A 1 37; run 0x38C 0x38C 1 64;
  run 0x38E 0x38F 1 63; run 0x391 0x3A1 1 32; run 0x3A4 0x3AB 1 32; run 0x3CF 0x3CF 1 8;
  run 0x3D8 0x3EE 2 1; run 0x3F4 0x3F4 1 (-60); run 0x3F7 0x3F7 1 1; run 0x3F9 0x3F9 1 (-7);
  run 0x3FA 0x3FA 1 1; run 0x3FD 0x3FF 1 (-130); run 0x400 0x40F 1 80; run 0x410 0x42F 1 32;
  run 0x460 0x480 2 1; run 0x48A 0x4BE 2 1; run 0x4C0 0x4C0 1 15; run 0x4C1 0x4CD 2 1;
  run 0x4D0 0x52E 2 1; run 0x531 0x556 1 48; run 0x10A0 0x10C5 1 7264; run 0x10C7 0x10C7 1 7264;
  run 0x10CD 0x10CD 1 7264; run 0x13A0 0x13EF 1 38864; run 0x13F0 0x13F5 1 8; run 0x1C90 0x1CBA 1 (-3008);
  run 0x1CBD 0x1CBF 1 (-3008); run 0x1E00 0x1E94 2 1; run 0x1E9E 0x1E9E 1 (-7615); run 0x1EA0 0x1EFE 2 1;
  run 0x1F08 0x1F0F 1 (-8); run 0x1F18 0x1F1D 1 (-8); run 0x1F28 0x1F2F 1 (-8); run 0x1F38 0x1F3F 1 (-8);
  run 0x1F48 0x1F4D 1 (-8); run 0x1F59 0x1F5F 2 (-8); run 0x1F68 0x1F6F 1 (-8); run 0x1F88 0x1F8F 1 (-8);
  run 0x1F98 0x1F9F 1 (-8); run 0x1FA8 0x1FAF 1 (-8); run 0x1FB8 0x1FB9 1 (-8); run 0x1FBA 0x1FBB 1 (-74);
  run 0x1FBC 0x1FBC 1 (-9); run 0x1FC8 0x1FCB 1 (-86); run 0x1FCC 0x1FCC 1 (-9); run 0x1FD8 0x1FD9 1 (-8);
  run 0x1FDA 0x1FDB 1 (-100); run 0x1FE8 0x1FE9 1 (-8); run 0x1FEA 0x1FEB 1 (-112); run 0x1FEC 0x1FEC 1 (-7);
  run 0x1FF8 0x1FF9 1 (-128); run 0x1FFA 0x1FFB 1 (-126); run 0x1FFC 0x1FFC 1 (-9); run 0x2126 0x2126 1 (-7517);
  run 0x212A 0x212A 1 (-8383); run 0x212B 0x212B 1 (-8262); run 0x2132 0x2132 1 28; run 0x2160 0x216F 1 16;
  run 0x2183 0x2183 1 1; run 0x24B6 0x24CF 1 26; run 0x2C00 0x2C2F 1 48; run 0x2C60 0x2C60 1 1;
  run 0x2C62 0x2C62 1 (-10743); run 0x2C63 0x2C63 1 (-3814); run 0x2C64 0x2C64 1 (-10727); run 0x2C67 0x2C6B 2 1;
  run 0x2C6D 0x2C6D 1 (-10780); run 0x2C6E 0x2C6E 1 (-10749); run 0x2C6F 0x2C6F 1 (-10783); run 0x2C70 0x2C70 1 (-10782);
  run 0x2C72 0x2C72 1 1; run 0x2C75 0x2C75 1 1; run 0x2C7E 0x2C7F 1 (-10815); run 0x2C80 0x2CE2 2 1;
  run 0x2CEB 0x2CED 2 1; run 0x2CF2 0x2CF2 1 1; run 0xA640 0xA66C 2 1; run 0xA680 0xA69A 2 1;
  run 0xA722 0xA72E 2 1; run 0xA732 0xA76E 2 1; run 0xA779 0xA77B 2 1; run 0xA77D 0xA77D 1 (-35332);
  run 0xA77E 0xA786 2 1; run 0xA78B 0xA78B 1 1; run 0xA78D 0xA78D 1 (-42280); run 0xA790 0xA792 2 1;
  run 0xA796 0xA7A8 2 1; run 0xA7AA 0xA7AA 1 (-42308); run 0xA7AB 0xA7AB 1 (-42319); run 0xA7AC 0xA7AC 1 (-42315);
  run 0xA7AD 0xA7AD 1 (-42305); run 0xA7AE 0xA7AE 1 (-42308); run 0xA7B0 0xA7B0 1 (-42258); run 0xA7B1 0xA7B1 1 (-42282);
  run 0xA7B2 0xA7B2 1 (-42261); run 0xA7B3 0xA7B3 1 928; run 0xA7B4 0xA7C2 2 1; run 0xA7C4 0xA7C4 1 (-48);
  run 0xA7C5 0xA7C5 1 (-42307); run 0xA7C6 0xA7C6 1 (-35384); run 0xA7C7 0xA7C9 2 1; run 0xA7D0 0xA7D0 1 1;
  run 0xA7D6 0xA7D8 2 1; run 0xA7F5 0xA7F5 1 1; run 0xFF21 0xFF3A 1 32; run 0x10400 0x10427 1 40;
  run 0x104B0 0x104D3 1 40; run 0x10570 0x1057A 1 39; run 0x1057C 0x1058A 1 39; run 0x1058C 0x10592 1 39;
  run 0x10594 0x10595 1 39; run 0x10C80 0x10CB2 1 64; run 0x118A0 0x118BF 1 32; run 0x16E40 0x16E5F 1 32;
  run 0x1E900 0x1E921 1 34].

(** The code points with the property Cased ([_PyUnicode_IsCased]). *)
Definition cased_ranges : list (N * N) := [
  (0x41, 0x5A); (0x61, 0x7A); (0xAA, 0xAA); (0xB5, 0xB5); (0xBA, 0xBA); (0xC0, 0xD6);
  (0xD8, 0xF6); (0xF8, 0x1BA); (0x1BC, 0x1BF); (0x1C4, 0x293); (0x295, 0x2B8); (0x2C0, 0x2C1);
  (0x2E0, 0x2E4); (0x345, 0x345); (0x370, 0x373); (0x376, 0x377); (0x37A, 0x37D); (0x37F, 0x37F);
  (0x386, 0x386); (0x388, 0x38A); (0x38C, 0x38C); (0x38E, 0x3A1); (0x3A3, 0x3F5); (0x3F7, 0x481);
  (0x48A, 0x52F); (0x531, 0x556); (0x560, 0x588); (0x10A0, 0x10C5); (0x10C7, 0x10C7); (0x10CD, 0x10CD);
  (0x10D0, 0x10FA); (0x10FD, 0x10FF); (0x13A0, 0x13F5); (0x13F8, 0x13FD); (0x1C80, 0x1C88); (0x1C90, 0x1CBA);
  (0x1CBD, 0x1CBF); (0x1D00, 0x1DBF); (0x1E00, 0x1F15); (0x1F18, 0x1F1D); (0x1F20, 0x1F45); (0x1F48, 0x1F4D);
  (0x1F50, 0x1F57); (0x1F59, 0x1F59); (0x1F5B, 0x1F5B); (0x1F5D, 0x1F5D); (0x1F5F, 0x1F7D); (0x1F80, 0x1FB4);
  (0x1FB6, 0x1FBC); (0x1FBE, 0x1FBE); (0x1FC2, 0x1FC4); (0x1FC6, 0x1FCC); (0x1FD0, 0x1FD3); (0x1FD6, 0x1FDB);
  (0x1FE0, 0x1FEC); (0x1FF2, 0x1FF4); (0x1FF6, 0x1FFC); (0x2071, 0x2071); (0x207F, 0x207F); (0x2090, 0x209C);
  (0x2102, 0x2102); (0x2107, 0x2107); (0x210A, 0x2113); (0x2115, 0x2115); (0x2119, 0x211D); (0x2124, 0x2124);
  (0x2126, 0x2126); (0x2128, 0x2128); (0x212A, 0x212D); (0x212F, 0x2134); (0x2139, 0x2139); (0x213C, 0x213F);
  (0x2145, 0x2149); (0x214E, 0x214E); (0x2160, 0x217F); (0x2183, 0x2184); (0x24B6, 0x24E9); (0x2C00, 0x2CE4);
  (0x2CEB, 0x2CEE); (0x2CF2, 0x2CF3); (0x2D00, 0x2D25); (0x2D27, 0x2D27); (0x2D2D, 0x2D2D); (0xA640, 0xA66D);
  (0xA680, 0xA69D); (0xA722, 0xA787); (0xA78B, 0xA78E); (0xA790, 0xA7CA); (0xA7D0, 0xA7D1); (0xA7D3, 0xA7D3);
  (0xA7D5, 0xA7D9); (0xA7F5, 0xA7F6); (0xA7F8, 0xA7FA); (0xAB30, 0xAB5A); (0xAB5C, 0xAB68); (0xAB70, 0xABBF);
  (0xFB00, 0xFB06); (0xFB13, 0xFB17); (0xFF21, 0xFF3A); (0xFF41, 0xFF5A); (0x10400, 0x1044F); (0x104B0, 0x104D3);
  (0x104D8, 0x104FB); (0x10570, 0x1057A); (0x1057C, 0x1058A); (0x1058C, 0x10592); (0x10594, 0x10595); (0x10597, 0x105A1);
  (0x105A3, 0x105B1); (0x105B3, 0x105B9); (0x105BB, 0x105BC); (0x10780, 0x10780); (0x10783, 0x10785); (0x10787, 0x107B0);
  (0x107B2, 0x107BA); (0x10C80, 0x10CB2); (0x10CC0, 0x10CF2); (0x118A0, 0x118DF); (0x16E40, 0x16E7F); (0x1D400, 0x1D454);
  (0x1D456, 0x1D49C); (0x1D49E, 0x1D49F); (0x1D4A2, 0x1D4A2); (0x1D4A5, 0x1D4A6); (0x1D4A9, 0x1D4AC); (0x1D4AE, 0x1D4B9);
  (0x1D4BB, 0x1D4BB); (0x1D4BD, 0x1D4C3); (0x1D4C5, 0x1D505); (0x1D507, 0x1D50A); (0x1D50D, 0x1D514); (0x1D516, 0x1D51C);
  (0x1D51E, 0x1D539); (0x1D53B, 0x1D53E); (0x1D540, 0x1D544); (0x1D546, 0x1D546); (0x1D54A, 0x1D550); (0x1D552, 0x1D6A5);
  (0x1D6A8, 0x1D6C0); (0x1D6C2, 0x1D6DA); (0x1D6DC, 0x1D6FA); (0x1D6FC, 0x1D714); (0x1D716, 0x1D734); (0x1D736, 0x1D74E);
  (0x1D750, 0x1D76E); (0x1D770, 0x1D788); (0x1D78A, 0x1D7A8); (0x1D7AA, 0x1D7C2); (0x1D7C4, 0x1D7CB); (0x1DF00, 0x1DF09);
  (0x1DF0B, 0x1DF1E); (0x1E900, 0x1E943); (0x1F130, 0x1F149); (0x1F150, 0x1F169); (0x1F170, 0x1F189)]%N.

(** The code points with the property Case_Ignorable
    ([_PyUnicode_IsCaseIgnorable]). *)
Definition case_ignorable_ranges : list (N * N) := [
  (0x27, 0x27); (0x2E, 0x2E); (0x3A, 0x3A); (0x5E, 0x5E); (0x60, 0x60); (0xA8, 0xA8);
  (0xAD, 0xAD); (0xAF, 0xAF); (0xB4, 0xB4); (0xB7, 0xB8); (0x2B0, 0x36F); (0x374, 0x375);
  (0x37A, 0x37A); (0x384, 0x385); (0x387, 0x387); (0x483, 0x489); (0x559, 0x559); (0x55F, 0x55F);
  (0x591, 0x5BD); (0x5BF, 0x5BF); (0x5C1, 0x5C2); (0x5C4, 0x5C5); (0x5C7, 0x5C7); (0x5F4, 0x5F4);
  (0x600, 0x605); (0x610, 0x61A); (0x61C, 0x61C); (0x640, 0x640); (0x64B, 0x65F); (0x670, 0x670);
  (0x6D6, 0x6DD); (0x6DF, 0x6E8); (0x6EA, 0x6ED); (0x70F, 0x70F); (0x711, 0x711); (0x730, 0x74A);
  (0x7A6, 0x7B0); (0x7EB, 0x7F5); (0x7FA, 0x7FA); (0x7FD, 0x7FD); (0x816, 0x82D); (0x859, 0x85B);
  (0x888, 0x888); (0x890, 0x891); (0x898, 0x89F); (0x8C9, 0x902); (0x93A, 0x93A); (0x93C, 0x93C);
  (0x941, 0x948); (0x94D, 0x94D); (0x951, 0x957); (0x962, 0x963); (0x971, 0x971); (0x981, 0x981);
  (0x9BC, 0x9BC); (0x9C1, 0x9C4); (0x9CD, 0x9CD); (0x9E2, 0x9E3); (0x9FE, 0x9FE); (0xA01, 0xA02);
  (0xA3C, 0xA3C); (0xA41, 0xA42); (0xA47, 0xA48); (0xA4B, 0xA4D); (0xA51, 0xA51); (0xA70, 0xA71);
  (0xA75, 0xA75); (0xA81, 0xA82); (0xABC, 0xABC); (0xAC1, 0xAC5); (0xAC7, 0xAC8); (0xACD, 0xACD);
  (0xAE2, 0xAE3); (0xAFA, 0xAFF); (0xB01, 0xB01); (0xB3C, 0xB3C); (0xB3F, 0xB3F); (0xB41, 0xB44);
  (0xB4D, 0xB4D); (0xB55, 0xB56); (0xB62, 0xB63); (0xB82, 0xB82); (0xBC0, 0xBC0); (0xBCD, 0xBCD);
  (0xC00, 0xC00); (0xC04, 0xC04); (0xC3C, 0xC3C); (0xC3E, 0xC40); (0xC46, 0xC48); (0xC4A, 0xC4D);
  (0xC55, 0xC56); (0xC62, 0xC63); (0xC81, 0xC81); (0xCBC, 0xCBC); (0xCBF, 0xCBF); (0xCC6, 0xCC6);
  (0xCCC, 0xCCD); (0xCE2, 0xCE3); (0xD00, 0xD01); (0xD3B, 0xD3C); (0xD41, 0xD44); (0xD4D, 0xD4D);
  (0xD62, 0xD63); (0xD81, 0xD81); (0xDCA, 0xDCA); (0xDD2, 0xDD4); (0xDD6, 0xDD6); (0xE31, 0xE31);
  (0xE34, 0xE3A); (0xE46, 0xE4E); (0xEB1, 0xEB1); (0xEB4, 0xEBC); (0xEC6, 0xEC6); (0xEC8, 0xECD);
  (0xF18, 0xF19); (0xF35, 0xF35); (0xF37, 0xF37); (0xF39, 0xF39); (0xF71, 0xF7E); (0xF80, 0xF84);
  (0xF86, 0xF87); (0xF8D, 0xF97); (0xF99, 0xFBC); (0xFC6, 0xFC6); (0x102D, 0x1030); (0x1032, 0x1037);
  (0x1039, 0x103A); (0x103D, 0x103E); (0x1058, 0x1059); (0x105E, 0x1060); (0x1071, 0x1074); (0x1082, 0x1082);
  (0x1085, 0x1086); (0x108D, 0x108D); (0x109D, 0x109D); (0x10FC, 0x10FC); (0x135D, 0x135F); (0x1712, 0x1714);
  (0x1732, 0x1733); (0x1752, 0x1753); (0x1772, 0x1773); (0x17B4, 0x17B5); (0x17B7, 0x17BD); (0x17C6, 0x17C6);
  (0x17C9, 0x17D3); (0x17D7, 0x17D7); (0x17DD, 0x17DD); (0x180B, 0x180F); (0x1843, 0x1843); (0x1885, 0x1886);
  (0x18A9, 0x18A9); (0x1920, 0x1922); (0x1927, 0x1928); (0x1932, 0x1932); (0x1939, 0x193B); (0x1A17, 0x1A18);
  (0x1A1B, 0x1A1B); (0x1A56, 0x1A56); (0x1A58, 0x1A5E); (0x1A60, 0x1A60); (0x1A62, 0x1A62); (0x1A65, 0x1A6C);
  (0x1A73, 0x1A7C); (0x1A7F, 0x1A7F); (0x1AA7, 0x1AA7); (0x1AB0, 0x1ACE); (0x1B00, 0x1B03); (0x1B34, 0x1B34);
  (0x1B36, 0x1B3A); (0x1B3C, 0x1B3C); (0x1B42, 0x1B42); (0x1B6B, 0x1B73); (0x1B80, 0x1B81); (0x1BA2, 0x1BA5);
  (0x1BA8, 0x1BA9); (0x1BAB, 0x1BAD); (0x1BE6, 0x1BE6); (0x1BE8, 0x1BE9); (0x1BED, 0x1BED); (0x1BEF, 0x1BF1);
  (0x1C2C, 0x1C33); (0x1C36, 0x1C37); (0x1C78, 0x1C7D); (0x1CD0, 0x1CD2); (0x1CD4, 0x1CE0); (0x1CE2, 0x1CE8);
  (0x1CED, 0x1CED); (0x1CF4, 0x1CF4); (0x1CF8, 0x1CF9); (0x1D2C, 0x1D6A); (0x1D78, 0x1D78); (0x1D9B, 0x1DFF);
  (0x1FBD, 0x1FBD); (0x1FBF, 0x1FC1); (0x1FCD, 0x1FCF); (0x1FDD, 0x1FDF); (0x1FED, 0x1FEF); (0x1FFD, 0x1FFE);
  (0x200B, 0x200F); (0x2018, 0x2019); (0x2024, 0x2024); (0x2027, 0x2027); (0x202A, 0x202E); (0x2060, 0x2064);
  (0x2066, 0x206F); (0x2071, 0x2071); (0x207F, 0x207F); (0x2090, 0x209C); (0x20D0, 0x20F0); (0x2C7C, 0x2C7D);
  (0x2CEF, 0x2CF1); (0x2D6F, 0x2D6F); (0x2D7F, 0x2D7F); (0x2DE0, 0x2DFF); (0x2E2F, 0x2E2F); (0x3005, 0x3005);
  (0x302A, 0x302D); (0x3031, 0x3035); (0x303B, 0x303B); (0x3099, 0x309E); (0x30FC, 0x30FE); (0xA015, 0xA015);
  (0xA4F8, 0xA4FD); (0xA60C, 0xA60C); (0xA66F, 0xA672); (0xA674, 0xA67D); (0xA67F, 0xA67F); (0xA69C, 0xA69F);
  (0xA6F0, 0xA6F1); (0xA700, 0xA721); (0xA770, 0xA770); (0xA788, 0xA78A); (0xA7F2, 0xA7F4); (0xA7F8, 0xA7F9);
  (0xA802, 0xA802); (0xA806, 0xA806); (0xA80B, 0xA80B); (0xA825, 0xA826); (0xA82C, 0xA82C); (0xA8C4, 0xA8C5);
  (0xA8E0, 0xA8F1); (0xA8FF, 0xA8FF); (0xA926, 0xA92D); (0xA947, 0xA951); (0xA980, 0xA982); (0xA9B3, 0xA9B3);
  (0xA9B6, 0xA9B9); (0xA9BC, 0xA9BD); (0xA9CF, 0xA9CF); (0xA9E5, 0xA9E6); (0xAA29, 0xAA2E); (0xAA31, 0xAA32);
  (0xAA35, 0xAA36); (0xAA43, 0xAA43); (0xAA4C, 0xAA4C); (0xAA70, 0xAA70); (0xAA7C, 0xAA7C); (0xAAB0, 0xAAB0);
  (0xAAB2, 0xAAB4); (0xAAB7, 0xAAB8); (0xAABE, 0xAABF); (0xAAC1, 0xAAC1); (0xAADD, 0xAADD); (0xAAEC, 0xAAED);
  (0xAAF3, 0xAAF4); (0xAAF6, 0xAAF6); (0xAB5B, 0xAB5F); (0xAB69, 0xAB6B); (0xABE5, 0xABE5); (0xABE8, 0xABE8);
  (0xABED, 0xABED); (0xFB1E, 0xFB1E); (0xFBB2, 0xFBC2); (0xFE00, 0xFE0F); (0xFE13, 0xFE13); (0xFE20, 0xFE2F);
  (0xFE52, 0xFE52); (0xFE55, 0xFE55); (0xFEFF, 0xFEFF); (0xFF07, 0xFF07); (0xFF0E, 0xFF0E); (0xFF1A, 0xFF1A);
  (0xFF3E, 0xFF3E); (0xFF40, 0xFF40); (0xFF70, 0xFF70); (0xFF9E, 0xFF9F); (0xFFE3, 0xFFE3); (0xFFF9, 0xFFFB);
  (0x101FD, 0x101FD); (0x102E0, 0x102E0); (0x10376, 0x1037A); (0x10780, 0x10785); (0x10787, 0x107B0); (0x107B2, 0x107BA);
  (0x10A01, 0x10A03); (0x10A05, 0x10A06); (0x10A0C, 0x10A0F); (0x10A38, 0x10A3A); (0x10A3F, 0x10A3F); (0x10AE5, 0x10AE6);
  (0x10D24, 0x10D27); (0x10EAB, 0x10EAC); (0x10F46, 0x10F50); (0x10F82, 0x10F85); (0x11001, 0x11001); (0x11038, 0x11046);
  (0x11070, 0x11070); (0x11073, 0x11074); (0x1107F, 0x11081); (0x110B3, 0x110B6); (0x110B9, 0x110BA); (0x110BD, 0x110BD);
  (0x110C2, 0x110C2); (0x110CD, 0x110CD); (0x11100, 0x11102); (0x11127, 0x1112B); (0x1112D, 0x11134); (0x11173, 0x11173);
  (0x11180, 0x11181); (0x111B6, 0x111BE); (0x111C9, 0x111CC); (0x111CF, 0x111CF); (0x1122F, 0x11231); (0x11234, 0x11234);
  (0x11236, 0x11237); (0x1123E, 0x1123E); (0x112DF, 0x112DF); (0x112E3, 0x112EA); (0x11300, 0x11301); (0x1133B, 0x1133C);
  (0x11340, 0x11340); (0x11366, 0x1136C); (0x11370, 0x11374); (0x11438, 0x1143F); (0x11442, 0x11444); (0x11446, 0x11446);
  (0x1145E, 0x1145E); (0x114B3, 0x114B8); (0x114BA, 0x114BA); (0x114BF, 0x114C0); (0x114C2, 0x114C3); (0x115B2, 0x115B5);
  (0x115BC, 0x115BD); (0x115BF, 0x115C0); (0x115DC, 0x115DD); (0x11633, 0x1163A); (0x1163D, 0x1163D); (0x1163F, 0x11640);
  (0x116AB, 0x116AB); (0x116AD, 0x116AD); (0x116B0, 0x116B5); (0x116B7, 0x116B7); (0x1171D, 0x1171F); (0x11722, 0x11725);
  (0x11727, 0x1172B); (0x1182F, 0x11837); (0x11839, 0x1183A); (0x1193B, 0x1193C); (0x1193E, 0x1193E); (0x11943, 0x11943);
  (0x119D4, 0x119D7); (0x119DA, 0x119DB); (0x119E0, 0x119E0); (0x11A01, 0x11A0A); (0x11A33, 0x11A38); (0x11A3B, 0x11A3E);
  (0x11A47, 0x11A47); (0x11A51, 0x11A56); (0x11A59, 0x11A5B); (0x11A8A, 0x11A96); (0x11A98, 0x11A99); (0x11C30, 0x11C36);
  (0x11C38, 0x11C3D); (0x11C3F, 0x11C3F); (0x11C92, 0x11CA7); (0x11CAA, 0x11CB0); (0x11CB2, 0x11CB3); (0x11CB5, 0x11CB6);
  (0x11D31, 0x11D36); (0x11D3A, 0x11D3A); (0x11D3C, 0x11D3D); (0x11D3F, 0x11D45); (0x11D47, 0x11D47); (0x11D90, 0x11D91);
  (0x11D95, 0x11D95); (0x11D97, 0x11D97); (0x11EF3, 0x11EF4); (0x13430, 0x13438); (0x16AF0, 0x16AF4); (0x16B30, 0x16B36);
  (0x16B40, 0x16B43); (0x16F4F, 0x16F4F); (0x16F8F, 0x16F9F); (0x16FE0, 0x16FE1); (0x16FE3, 0x16FE4); (0x1AFF0, 0x1AFF3);
  (0x1AFF5, 0x1AFFB); (0x1AFFD, 0x1AFFE); (0x1BC9D, 0x1BC9E); (0x1BCA0, 0x1BCA3); (0x1CF00, 0x1CF2D); (0x1CF30, 0x1CF46);
  (0x1D167, 0x1D169); (0x1D173, 0x1D182); (0x1D185, 0x1D18B); (0x1D1AA, 0x1D1AD); (0x1D242, 0x1D244); (0x1DA00, 0x1DA36);
  (0x1DA3B, 0x1DA6C); (0x1DA75, 0x1DA75); (0x1DA84, 0x1DA84); (0x1DA9B, 0x1DA9F); (0x1DAA1, 0x1DAAF); (0x1E000, 0x1E006);
  (0x1E008, 0x1E018); (0x1E01B, 0x1E021); (0x1E023, 0x1E024); (0x1E026, 0x1E02A); (0x1E130, 0x1E13D); (0x1E2AE, 0x1E2AE);
  (0x1E2EC, 0x1E2EF); (0x1E8D0, 0x1E8D6); (0x1E944, 0x1E94B); (0x1F3FB, 0x1F3FF); (0xE0001, 0xE0001); (0xE0020, 0xE007F);
  (0xE0100, 0xE01EF)]%N.

Fixpoint lower_simple_go (runs : list (N * N * N * Z)) (c : N) : N :=
  match runs with
  | [] => c
  | (lo, hi, step, delta) :: r =>
      if (lo <=? c)%N && (c <=? hi)%N && (N.modulo (c - lo) step =? 0)%N
      then Z.to_N (Z.of_N c + delta)
      else lower_simple_go r c
  end.

(** [_PyUnicode_ToLowercase]. *)
Definition lower_simple (c : N) : N := lower_simple_go lower_runs c.

Definition in_ranges (rs : list (N * N)) (c : N) : bool :=
  existsb (fun r => (fst r <=? c)%N && (c <=? snd r)%N) rs.

Definition is_cased (c : N) : bool := in_ranges cased_ranges c.
Definition is_case_ignorable (c : N) : bool := in_ranges case_ignorable_ranges c.

(** The first code point of [l] that is not case-ignorable. *)
Fixpoint first_not_ignorable (l : pystr) : option N :=
  match l with
  | [] => None
  | c :: r => if is_case_ignorable c then first_not_ignorable r else Some c
  end.

(** [handle_capital_sigma]: [before] holds the code points preceding the
    sigma, nearest first, [after] those following it.  The final form is
    chosen when a cased letter precedes (case-ignorable ones skipped) and
    none follows. *)
Definition final_sigma (before after : pystr) : bool :=
  match first_not_ignorable before with
  | Some c =>
      is_cased c &&
      match first_not_ignorable after with
      | Some c' => negb (is_cased c')
      | None => true
      end
  | None => false
  end.

(** [lower_ucs4]: U+03A3 by its context, U+0130 to its two-code-point full
    mapping, every other code point by the simple mapping. *)
Definition lower_ucs4 (before : pystr) (c : N) (after : pystr) : pystr :=
  if (c =? 0x3A3)%N then [if final_sigma before after then 0x3C2%N else 0x3C3%N]
  else if (c =? 0x130)%N then [0x69; 0x307]%N
  else [lower_simple c].

(** [do_lower]: [before] is the part of the string already read, reversed. *)
Fixpoint do_lower (before s : pystr) : pystr :=
  match s with
  | [] => []
  | c :: r => lower_ucs4 before c r ++ do_lower (c :: before) r
  end.

(** [str.lower]. *)
Definition lower (s : pystr) : pystr := do_lower [] s.




Fixpoint is_prefix (p s : pystr) : bool :=
  match p, s with
  | [], _ => true
  | a :: p', b :: s' => N.eqb a b && is_prefix p' s'
  | _ :: _, [] => false
  end.

(** Python [sub in s]. *)
Fixpoint contains (sub s : pystr) : bool :=
  is_prefix sub s ||
  match s with
  | [] => false
  | _ :: s' => contains sub s'
  end.

(** [str(i)] for a list index. *)
Definition digits_of_nat (n : nat) : pystr :=
  of_ascii (NilEmpty.string_of_uint (Nat.to_uint n)).

(* ------------------------------------------------------------------ *)
(** ** Decoded JSON values *)

Unset Elimination Schemes.
Inductive json : Type :=
| JNull
| JBool (b : bool)
| JInt (z : Z)
| JFloat (q : Q)
| JStr (s : pystr)
| JArr (l : list json)
| JObj (kvs : list (pystr * json)).
Set Elimination Schemes.

(** Structural induction through the nested lists. *)
Definition json_ind (P : json -> Prop)
  (fnull : P JNull) (fbool : forall b, P (JBool b))
  (fint : forall z, P (JInt z)) (ffloat : forall q, P (JFloat q))
  (fstr : forall s, P (JStr s))
  (farr : forall l, Forall P l -> P (JArr l))
  (fobj : forall kvs, Forall (fun kv => P (snd kv)) kvs -> P (JObj kvs)) :
  forall j, P j :=
  fix F j :=
    match j with
    | JNull => fnull
    | JBool b => fbool b
    | JInt z => fint z
    | JFloat q => ffloat q
    | JStr s => fstr s
    | JArr l => farr l ((fix G l : Forall P l :=
                           match l with
                           | [] => Forall_nil _
                           | x :: l' => Forall_cons x (F x) (G l')
                           end) l)
    | JObj kvs => fobj kvs ((fix G kvs : Forall (fun kv => P (snd kv)) kvs :=
                              match kvs with
                              | [] => Forall_nil _
                              | kv :: r => Forall_cons kv (F (snd kv)) (G r)
                              end) kvs)
    end.

(** Python truthiness ([bool(v)]). *)
Definition truthy (v : json) : bool :=
  match v with
  | JNull => false
  | JBool b => b
  | JInt z => negb (Z.eqb z 0)
  | JFloat q => negb (Qeq_bool q 0)
  | JStr s => negb (Nat.eqb (List.length s) 0)
  | JArr l => negb (Nat.eqb (List.length l) 0)
  | JObj kvs => negb (Nat.eqb (List.length kvs) 0)
  end.

Definition is_none (v : json) : bool :=
  match v with JNull => true | _ => false end.

(** [k in d] for a dict. *)
Definition dict_has (k : pystr) (kvs : list (pystr * json)) : bool :=
  existsb (fun kv => pystr_eqb (fst kv) k) kvs.

(** [d.get(k)] for a dict: [None] (here [JNull]) when the key is missing. *)
Fixpoint dict_get (k : pystr) (kvs : list (pystr * json)) : option json :=
  match kvs with
  | [] => None
  | (k', v) :: r => if pystr_eqb k' k then Some v else dict_get k r
  end.

(** [d.get(k, default)]. *)
Definition dict_get_or (k : pystr) (dflt : json) (kvs : list (pystr * json)) : json :=
  match dict_get k kvs with Some v => v | None => dflt end.

(** [x.get(k, default)] on an arbitrary value: raises [AttributeError]
    unless [x] is a dict. *)
Definition py_get (x : json) (k : pystr) (dflt : json) : option json :=
  match x with
  | JObj kvs => Some (dict_get_or k dflt kvs)
  | _ => None
  end.

(** [len(x)]: defined on str, list and dict, [TypeError] otherwise. *)
Definition py_len (x : json) : option nat :=
  match x with
  | JStr s => Some (List.length s)
  | JArr l => Some (List.length l)
  | JObj kvs => Some (List.length kvs)
  | _ => None
  end.

(** [isinstance(x, (int, float))]: Python's [bool] is a subclass of [int]. *)
Definition is_int_or_float (v : json) : bool :=
  match v with
  | JBool _ | JInt _ | JFloat _ => true
  | _ => false
  end.

(** [int(x)] on an [int]/[float]/[bool]: floats truncate toward zero. *)
Definition py_int (v : json) : Z :=
  match v with
  | JBool b => if b then 1 else 0
  | JInt z => z
  | JFloat q => Z.quot (Qnum q) (Zpos (Qden q))
  | _ => 0
  end.

(** [float(x)] on an [int]/[float]/[bool], exact. *)
Definition py_float (v : json) : Q :=
  match v with
  | JBool b => if b then 1 else 0
  | JInt z => inject_Z z
  | JFloat q => q
  | _ => 0
  end.

(** [list(x)], as used by [list.extend(x)]: a str yields its characters, a
    dict its keys, a list its elements; anything else raises [TypeError]. *)
Definition py_iter (x : json) : option (list json) :=
  match x with
  | JArr l => Some l
  | JStr s => Some (map (fun c => JStr [c]) s)
  | JObj kvs => Some (map (fun kv => JStr (fst kv)) kvs)
  | _ => None
  end.

(* ------------------------------------------------------------------ *)
(** ** [find_field] (swot_processor.py, inside [extract_statistics])

    Python's [None] is [JNull]: [find_field] returns [None] both for a key
    that is missing and for a key whose value is [null].  The [path]
    argument only feeds the recursive calls and is not modelled. *)

Fixpoint find_field (target_key : pystr) (obj : json) : json :=
  match obj with
  | JObj kvs =>
      if dict_has target_key kvs then dict_get_or target_key JNull kvs
      else
        (fix go (kvs : list (pystr * json)) : json :=
           match kvs with
           | [] => JNull
           | (_, value) :: r =>
               let result := find_field target_key value in
               if negb (is_none result) then result else go r
           end) kvs
  | JArr l =>
      (fix go (l : list json) : json :=
         match l with
         | [] => JNull
         | item :: r =>
             let result := find_field target_key item in
             if negb (is_none result) then result else go r
         end) l
  | _ => JNull
  end.

(** The Field Extractor as the spec words it: the value under [target_key]
    in the first object, in pre-order, that has that key ([None] when no
    object has it). *)
Fixpoint first_occurrence (target_key : pystr) (obj : json) : option json :=
  match obj with
  | JObj kvs =>
      if dict_has target_key kvs then dict_get target_key kvs
      else
        (fix go (kvs : list (pystr * json)) : option json :=
           match kvs with
           | [] => None
           | (_, value) :: r =>
               match first_occurrence target_key value with
               | Some v => Some v
               | None => go r
               end
           end) kvs
  | JArr l =>
      (fix go (l : list json) : option json :=
         match l with
         | [] => None
         | item :: r =>
             match first_occurrence target_key item with
             | Some v => Some v
             | None => go r
             end
         end) l
  | _ => None
  end.

(* ------------------------------------------------------------------ *)
(** ** [process_swot_statistics] (hromada_economy.py) *)

(** The [statistics] dict.  [objects.types] stays [{}] throughout and is
    left out. *)
Record stats := mkStats {
  fop_count : Z;
  companies_count : Z;
  total_count : Z;
  kved_list : list json;
  kved_count : Z;
  land_count : Z;
  land_total_area : Q;
  objects_count : Z;
  pp_count : Z;
  pp_total_amount : Q
}.

Definition init_stats : stats :=
  mkStats 0 0 0 [] 0 0 0 0 0 0.

(** The keywords tested against [key_lower] for each category. *)
Definition kw_fop : list pystr := [of_ascii "fop"; [0x444; 0x43E; 0x43F]%N].
Definition kw_company : list pystr :=
  [of_ascii "company"; [0x43A; 0x43E; 0x43C; 0x43F; 0x430; 0x43D; 0x456]%N;
   [0x44E; 0x43E]%N].
Definition kw_kved : list pystr := [of_ascii "kved"; [0x43A; 0x432; 0x435; 0x434]%N].
Definition kw_land : list pystr :=
  [of_ascii "land"; [0x437; 0x435; 0x43C; 0x435; 0x43B; 0x44C]%N;
   [0x434; 0x456; 0x43B; 0x44F; 0x43D; 0x43A]%N].
Definition kw_object : list pystr :=
  [of_ascii "object"; [0x43E; 0x431; 0x27; 0x454; 0x43A; 0x442]%N;
   [0x43E; 0x431; 0x435; 0x43A; 0x442]%N].
Definition kw_procurement : list pystr :=
  [of_ascii "procurement"; [0x437; 0x430; 0x43A; 0x443; 0x43F; 0x456; 0x432; 0x43B]%N;
   [0x442; 0x435; 0x43D; 0x434; 0x435; 0x440]%N].


(** [kw1 in key_lower or kw2 in key_lower or ...]. *)
Definition matches (kws : list pystr) (key_lower : pystr) : bool :=
  existsb (fun kw => contains kw key_lower) kws.

(** [obj.get(k)] when it passes [isinstance(_, (int, float))]. *)
Definition num_field (k : pystr) (kvs : list (pystr * json)) : option json :=
  match dict_get k kvs with
  | Some v => if is_int_or_float v then Some v else None
  | None => None
  end.

Definition add_int (acc : Z) (v : option json) : Z :=
  match v with Some x => acc + py_int x | None => acc end.

Definition add_float (acc : Q) (v : option json) : Q :=
  match v with Some x => acc + py_float x | None => acc end.

(** The KVED step on a dict node: [extend] with [obj["list"]], else with
    [obj["items"]].  The source's [isinstance(obj, list)] test sits inside
    the [isinstance(obj, dict)] branch and never holds. *)
Definition kved_step (kvs : list (pystr * json)) (acc : list json) : option (list json) :=
  if dict_has (of_ascii "list") kvs then
    match py_iter (dict_get_or (of_ascii "list") JNull kvs) with
    | Some l => Some (acc ++ l)
    | None => None
    end
  else if dict_has (of_ascii "items") kvs then
    match py_iter (dict_get_or (of_ascii "items") JNull kvs) with
    | Some l => Some (acc ++ l)
    | None => None
    end
  else Some acc.

(** Everything [find_statistics] does on a dict node before recursing. *)
Definition visit_dict (path : pystr) (kvs : list (pystr * json)) (st : stats)
    : option stats :=
  let key_lower := lower path in
  let count := num_field (of_ascii "count") kvs in
  let kl := if matches kw_kved key_lower then kved_step kvs (kved_list st)
            else Some (kved_list st) in
  match kl with
  | None => None
  | Some kl' =>
    Some {|
      fop_count :=
        if matches kw_fop key_lower then add_int (fop_count st) count
        else fop_count st;
      companies_count :=
        if matches kw_company key_lower then add_int (companies_count st) count
        else companies_count st;
      total_count := total_count st;
      kved_list := kl';
      kved_count := kved_count st;
      land_count :=
        if matches kw_land key_lower then add_int (land_count st) count
        else land_count st;
      land_total_area :=
        if matches kw_land key_lower then
          add_float (add_float (land_total_area st) (num_field (of_ascii "area") kvs))
                    (num_field (of_ascii "total_area") kvs)
        else land_total_area st;
      objects_count :=
        if matches kw_object key_lower then add_int (objects_count st) count
        else objects_count st;
      pp_count :=
        if matches kw_procurement key_lower then add_int (pp_count st) count
        else pp_count st;
      pp_total_amount :=
        if matches kw_procurement key_lower then
          add_float (add_float (pp_total_amount st) (num_field (of_ascii "amount") kvs))
                    (num_field (of_ascii "total_amount") kvs)
        else pp_total_amount st
    |}
  end.

(** [f"{path}.{key}" if path else key] *)
Definition child_path (path key : pystr) : pystr :=
  match path with
  | [] => key
  | _ => path ++ of_ascii "." ++ key
  end.

(** [f"{path}[{i}]"] *)
Definition index_path (path : pystr) (i : nat) : pystr :=
  path ++ of_ascii "[" ++ digits_of_nat i ++ of_ascii "]".

Fixpoint find_statistics (obj : json) (path : pystr) (st : stats) : option stats :=
  match obj with
  | JObj kvs =>
      match visit_dict path kvs st with
      | None => None
      | Some st1 =>
          (fix go (kvs : list (pystr * json)) (st : stats) : option stats :=
             match kvs with
             | [] => Some st
             | (key, value) :: r =>
                 match find_statistics value (child_path path key) st with
                 | None => None
                 | Some st' => go r st'
                 end
             end) kvs st1
      end
  | JArr l =>
      (fix go (l : list json) (i : nat) (st : stats) : option stats :=
         match l with
         | [] => Some st
         | item :: r =>
             match find_statistics item (index_path path i) st with
             | None => None
             | Some st' => go r (S i) st'
             end
         end) l 0%nat st
  | _ => Some st
  end.

Section Process.

(** [str(kved)], the deduplication key.  Python's [str] on decoded JSON
    (with its [repr] of floats) is left abstract: the results below hold
    for every choice of it. *)
Variable py_str : json -> pystr.

(** The [unique_kveds]/[seen] loop: keep an entry when its [str] has not
    been seen yet. *)
Fixpoint dedup_loop (seen : list pystr) (l : list json) : list json :=
  match l with
  | [] => []
  | kved :: r =>
      let kved_str := py_str kved in
      if existsb (pystr_eqb kved_str) seen then dedup_loop seen r
      else kved :: dedup_loop (kved_str :: seen) r
  end.

(** [swot_data.get("data") or raw_response.get("Data") or
    raw_response.get("data")]; [None] when [raw_response] is not a dict and
    its [.get] is reached. *)
Definition select_data (swot_data : list (pystr * json)) : option json :=
  let raw_response := dict_get_or (of_ascii "raw_response") (JObj []) swot_data in
  let d := dict_get_or (of_ascii "data") JNull swot_data in
  if truthy d then Some d
  else match py_get raw_response (of_ascii "Data") JNull with
       | None => None
       | Some d' => if truthy d' then Some d'
                    else py_get raw_response (of_ascii "data") JNull
       end.

(** The statistics after the pass: totals and the KVED deduplication. *)
Definition finish (st : stats) : stats :=
  let st1 := {| fop_count := fop_count st;
                companies_count := companies_count st;
                total_count := fop_count st + companies_count st;
                kved_list := kved_list st;
                kved_count := Z.of_nat (List.length (kved_list st));
                land_count := land_count st;
                land_total_area := land_total_area st;
                objects_count := objects_count st;
                pp_count := pp_count st;
                pp_total_amount := pp_total_amount st |} in
  match kved_list st1 with
  | [] => st1
  | _ =>
      let unique_kveds := dedup_loop [] (kved_list st1) in
      {| fop_count := fop_count st1;
         companies_count := companies_count st1;
         total_count := total_count st1;
         kved_list := unique_kveds;
         kved_count := Z.of_nat (List.length unique_kveds);
         land_count := land_count st1;
         land_total_area := land_total_area st1;
         objects_count := objects_count st1;
         pp_count := pp_count st1;
         pp_total_amount := pp_total_amount st1 |}
  end.

Definition process_swot_statistics (swot_data : list (pystr * json)) : option stats :=
  match select_data swot_data with
  | None => None
  | Some data =>
      if negb (truthy data) then Some init_stats
      else match find_statistics data [] init_stats with
           | None => None
           | Some st => Some (finish st)
           end
  end.

End Process.

(* ------------------------------------------------------------------ *)
(** ** [extract_statistics] (swot_processor.py) *)

(** [remove_cadastr_numbers].  Decoded JSON objects have distinct keys, so
    [cleaned[key] = ...] appends in order. *)
Definition cadastr_numbers : pystr := of_ascii "cadastrNumbers".
Arguments cadastr_numbers : simpl never.

Fixpoint remove_cadastr_numbers (obj : json) : json :=
  match obj with
  | JObj kvs =>
      JObj ((fix go (kvs : list (pystr * json)) : list (pystr * json) :=
               match kvs with
               | [] => []
               | (key, value) :: r =>
                   if negb (pystr_eqb key cadastr_numbers)
                   then (key, remove_cadastr_numbers value) :: go r
                   else go r
               end) kvs)
  | JArr l =>
      JArr ((fix go (l : list json) : list json :=
               match l with
               | [] => []
               | item :: r => remove_cadastr_numbers item :: go r
               end) l)
  | o => o
  end.

(** The [extracted] dict. *)
Record extracted := mkExtracted {
  kved_statistic : json;
  intelligence_statistic : json;
  migration_region_statistic : json;
  cadastr_estate_statistic : json;
  status_stats : json;
  open_close_statistic : json;
  vehicle_statistic : json
}.

Definition extracted_init : extracted :=
  mkExtracted (JArr []) (JArr []) (JObj []) (JObj []) (JObj []) (JObj []) (JObj []).

(** [{k: x.get(k) for k in keys}] written out key by key in the source;
    [AttributeError] unless [x] is a dict. *)
Definition project (x : json) (keys : list pystr) : option json :=
  match x with
  | JObj kvs => Some (JObj (map (fun k => (k, dict_get_or k JNull kvs)) keys))
  | _ => None
  end.

Definition migration_keys : list pystr :=
  map of_ascii ["migrationTotalIn"; "migrationTotalOut"; "migrationTotalFopIn";
                "migrationTotalFopOut"; "migrationTotalCompanyIn";
                "migrationTotalCompanyOut"]%string.

Definition open_close_keys : list pystr :=
  map of_ascii ["companyOpen"; "companyCurrentClose"; "companyPercentLive";
                "fopOpen"; "fopCurrentClose"; "fopPercentLive";
                "totalOpen"; "totalCurrentClose"; "totalPercentLive"]%string.

Definition vehicle_keys : list pystr :=
  map of_ascii ["headerCompanyWithCount"; "headerCompanyWithoutCount";
                "headerVehicleCount"]%string.

(** [swot_data.get("data") or swot_data.get("raw_response", {}).get("Data")
    or swot_data.get("raw_response", {}).get("data") or {}]. *)
Definition extract_data (swot_data : json) : option json :=
  match swot_data with
  | JObj sd =>
      let d := dict_get_or (of_ascii "data") JNull sd in
      if truthy d then Some d
      else
        let raw := dict_get_or (of_ascii "raw_response") (JObj []) sd in
        match py_get raw (of_ascii "Data") JNull with
        | None => None
        | Some d' =>
            if truthy d' then Some d'
            else match py_get raw (of_ascii "data") JNull with
                 | None => None
                 | Some d'' => if truthy d'' then Some d'' else Some (JObj [])
                 end
        end
  | _ => None
  end.

Definition extract_statistics (swot_data : json) : option extracted :=
  match extract_data swot_data with
  | None => None
  | Some data =>
    if negb (truthy data) then Some extracted_init else
    let kved_stat := find_field (of_ascii "kvedStatistic") data in
    let intel_stat := find_field (of_ascii "intelligenceStatistic") data in
    let migration_stat := find_field (of_ascii "migrationRegionStatistic") data in
    let cadastr_stat := find_field (of_ascii "cadastrEstateStatistic") data in
    let status_stats' := find_field (of_ascii "statusStats") data in
    let open_close_stat := find_field (of_ascii "openCloseStatistic") data in
    let vehicle_stat := find_field (of_ascii "vehicleStatistic") data in
    (* [print(f"... {len(kved_stat)} ...")] *)
    let kved_ok := if truthy kved_stat then py_len kved_stat else Some 0%nat in
    let intel_ok := if truthy intel_stat then py_len intel_stat else Some 0%nat in
    let migration := if truthy migration_stat
                     then project migration_stat migration_keys
                     else Some (JObj []) in
    let open_close := if truthy open_close_stat
                      then project open_close_stat open_close_keys
                      else Some (JObj []) in
    let vehicle := if truthy vehicle_stat
                   then project vehicle_stat vehicle_keys
                   else Some (JObj []) in
    match kved_ok, intel_ok, migration, open_close, vehicle with
    | Some _, Some _, Some m, Some oc, Some v =>
        Some {| kved_statistic := if truthy kved_stat then kved_stat else JArr [];
                intelligence_statistic := if truthy intel_stat then intel_stat else JArr [];
                migration_region_statistic := m;
                cadastr_estate_statistic :=
                  if truthy cadastr_stat then remove_cadastr_numbers cadastr_stat
                  else JObj [];
                status_stats := if truthy status_stats' then status_stats' else JObj [];
                open_close_statistic := oc;
                vehicle_statistic := v |}
    | _, _, _, _, _ => None
    end
  end.

(* ------------------------------------------------------------------ *)
(** ** [save_statistics_to_excel] (swot_processor.py)

    The workbook as the list of its sheets, in creation order, each with its
    data rows.  The fixed header row, fonts, fills and column widths are not
    modelled (the width loop swallows its own errors).  A [Label] is one of
    the fixed Ukrainian row captions, named here in transliteration. *)

Notation "'let?' x := a 'in' b" :=
  (match a with Some x => b | None => None end)
  (at level 200, x name, a at level 100, b at level 200).

Inductive sheet_name :=
| SKved            (* "КВЕД" *)
| SIntelligence    (* "Стани реєстрації" *)
| SMigration       (* "Міграція" *)
| SOpenClose       (* "Відкриті_Закриті" *)
| SVehicle         (* "Транспорт" *)
| SCadastrOwner    (* "Кадастр_Власність" *)
| SCadastrPurpose  (* "Кадастр_Призначення" *)
| SStatus.         (* "Статуси" *)

Inductive cell :=
| Label (s : string)
| Value (v : json).

Record sheet := mkSheet { sheet_title : sheet_name; sheet_rows : list (list cell) }.

(** [ws.append(row)]: each value goes through openpyxl's [Cell._bind_value],
    which raises [ValueError] for a value of a type it cannot convert (a
    list or a dict) and, through [check_string], [IllegalCharacterError] for
    a string whose first 32767 characters match
    [[\000-\010]|[\013-\014]|[\016-\037]].  The captions are fixed strings
    and always pass. *)
Definition illegal_char (c : N) : bool :=
  ((c <=? 8) || (c =? 11) || (c =? 12) || ((14 <=? c) && (c <=? 31)))%N.

Definition cell_value_ok (v : json) : bool :=
  match v with
  | JArr _ | JObj _ => false
  | JStr s => negb (existsb illegal_char (firstn 32767 s))
  | _ => true
  end.

Definition append (row : list cell) : option (list cell) :=
  if forallb (fun c => match c with Label _ => true | Value v => cell_value_ok v end) row
  then Some row else None.

Fixpoint map_opt {A B} (f : A -> option B) (l : list A) : option (list B) :=
  match l with
  | [] => Some []
  | x :: r => let? y := f x in let? ys := map_opt f r in Some (y :: ys)
  end.

(** Python's [<] on [str]: code-point lexicographic order. *)
Fixpoint pystr_ltb (a b : pystr) : bool :=
  match a, b with
  | [], [] => false
  | [], _ :: _ => true
  | _ :: _, [] => false
  | x :: a', y :: b' =>
      if (x <? y)%N then true else if (x =? y)%N then pystr_ltb a' b' else false
  end.

Fixpoint insert_sorted (k : pystr) (l : list pystr) : list pystr :=
  match l with
  | [] => [k]
  | h :: t => if pystr_eqb k h then l
              else if pystr_ltb k h then k :: l else h :: insert_sorted k t
  end.

(** [sorted(set(ks))] *)
Definition sorted_set (ks : list pystr) : list pystr := fold_right insert_sorted [] ks.

(** [x.get(k) if x.get(k) is not None else 0] *)
Definition none_to_zero (v : json) : json := if is_none v then JInt 0 else v.

(** [Всього] *)
Definition vsogo : pystr := [0x412; 0x441; 0x44C; 0x43E; 0x433; 0x43E]%N.

Definition kved_sheet (kved : json) : option (list sheet) :=
  if truthy kved then
    let? items := py_iter kved in
    let? rows := map_opt (fun item =>
        let? a := py_get item (of_ascii "kvedId") (JStr []) in
        let? b := py_get item (of_ascii "name") (JStr []) in
        let? c := py_get item (of_ascii "qntRecord") (JInt 0) in
        append [Value a; Value b; Value c]) items in
    Some [mkSheet SKved rows]
  else Some [].

Definition intelligence_sheet (intel : json) : option (list sheet) :=
  if truthy intel then
    let? items := py_iter intel in
    let? rows := map_opt (fun item =>
        let? a := py_get item (of_ascii "state") (JStr []) in
        let? b := py_get item (of_ascii "qntRecord") (JInt 0) in
        append [Value a; Value b]) items in
    Some [mkSheet SIntelligence rows]
  else Some [].

(** Two-column sheets: the caption, then [stat.get(k, 0)]. *)
Definition migration_labels : list string :=
  ["migration_total_in"; "migration_total_out"; "fop_migration_in";
   "fop_migration_out"; "companies_migration_in"; "companies_migration_out"]%string.

Definition migration_sheet (m : json) : option (list sheet) :=
  if truthy m then
    let? rows := map_opt (fun lk =>
        let? v := py_get m (snd lk) (JInt 0) in append [Label (fst lk); Value v])
      (combine migration_labels migration_keys) in
    Some [mkSheet SMigration rows]
  else Some [].

(** Two-column sheets with [None] replaced by [0]. *)
Definition open_close_labels : list string :=
  ["companies_open"; "companies_closed"; "companies_percent_alive";
   "fop_open"; "fop_closed"; "fop_percent_alive";
   "total_open"; "total_closed"; "total_percent_alive"]%string.

Definition vehicle_labels : list string :=
  ["companies_with_vehicles"; "companies_without_vehicles"; "vehicles_total"]%string.

Definition zeroed_sheet (name : sheet_name) (labels : list string) (keys : list pystr)
    (x : json) : option (list sheet) :=
  if truthy x then
    let? rows := map_opt (fun lk =>
        let? v := py_get x (snd lk) JNull in append [Label (fst lk); Value (none_to_zero v)])
      (combine labels keys) in
    Some [mkSheet name rows]
  else Some [].

(** [byOwnerForm] / [byPurpose] sheets of the cadastre. *)
Definition cadastr_sheet (name : sheet_name) (part : json) : option (list sheet) :=
  if truthy part then
    let? total := py_get part (of_ascii "totalStat") (JObj []) in
    let? total_rows :=
      if truthy total then
        let? a := py_get total (of_ascii "name") (JStr vsogo) in
        let? b := py_get total (of_ascii "count") (JInt 0) in
        let? c := py_get total (of_ascii "area") (JInt 0) in
        let? d := py_get total (of_ascii "ngoPrice") (JInt 0) in
        let? r := append [Value a; Value b; Value c; Value d] in Some [r]
      else Some [] in
    let? stat_list := py_get part (of_ascii "statistic") (JArr []) in
    let? items := py_iter stat_list in
    let? rows := map_opt (fun item =>
        let? a := py_get item (of_ascii "name") (JStr []) in
        let? b := py_get item (of_ascii "count") (JInt 0) in
        let? c := py_get item (of_ascii "area") (JInt 0) in
        let? d := py_get item (of_ascii "ngoPrice") (JInt 0) in
        append [Value a; Value b; Value c; Value (if truthy d then d else JInt 0)]) items in
    Some [mkSheet name (total_rows ++ rows)]
  else Some [].

Definition dict_keys (x : json) : option (list pystr) :=
  match x with JObj kvs => Some (map fst kvs) | _ => None end.

Definition status_sheet (ss : json) : option (list sheet) :=
  if truthy ss then
    let? land_stat := py_get ss (of_ascii "landStat") (JObj []) in
    let? object_stat := py_get ss (of_ascii "objectStat") (JObj []) in
    let? lk := dict_keys land_stat in
    let? ok := dict_keys object_stat in
    let? rows := map_opt (fun key =>
        let? a := py_get land_stat key (JInt 0) in
        let? b := py_get object_stat key (JInt 0) in
        append [Value (JStr key); Value a; Value b]) (sorted_set (lk ++ ok)) in
    Some [mkSheet SStatus rows]
  else Some [].

(** The body of the [try] block; [None] when it raises. *)
Definition build_sheets (statistics : extracted) : option (list sheet) :=
  let? s1 := kved_sheet (kved_statistic statistics) in
  let? s2 := intelligence_sheet (intelligence_statistic statistics) in
  let? s3 := migration_sheet (migration_region_statistic statistics) in
  let? s4 := zeroed_sheet SOpenClose open_close_labels open_close_keys
               (open_close_statistic statistics) in
  let? s5 := zeroed_sheet SVehicle vehicle_labels vehicle_keys
               (vehicle_statistic statistics) in
  let cadastr_stat := cadastr_estate_statistic statistics in
  let? by_owner := py_get cadastr_stat (of_ascii "byOwnerForm") (JObj []) in
  let? s6 := cadastr_sheet SCadastrOwner by_owner in
  let? by_purpose := py_get cadastr_stat (of_ascii "byPurpose") (JObj []) in
  let? s7 := cadastr_sheet SCadastrPurpose by_purpose in
  let? s8 := status_sheet (status_stats statistics) in
  Some (s1 ++ s2 ++ s3 ++ s4 ++ s5 ++ s6 ++ s7 ++ s8).

(* ------------------------------------------------------------------ *)
(** ** [process_swot_file] (swot_processor.py)

    The file system and the clock are the environment: what [load_swot_file]
    returned, the path [save_extracted_statistics] wrote (or [None] when
    its [try] failed), whether [openpyxl] imported, and whether [wb.save]
    succeeded and at which path.  Printed lines are kept as tags. *)

Inductive msg :=
| MsgLoadFailed          (* printed by [load_swot_file] *)
| MsgJsonSaved
| MsgJsonSaveFailed
| MsgOpenpyxlMissing     (* "Попередження: openpyxl не встановлено. ..." *)
| MsgInstallOpenpyxl     (* "Встановіть: pip install openpyxl" *)
| MsgExcelSaved
| MsgExcelFailed.

Record env := mkEnv {
  env_loaded : option json;
  env_json_written : option pystr;
  env_openpyxl : bool;
  env_xlsx_saved : bool;
  env_xlsx_path : pystr
}.

Inductive outcome :=
| Returned (r : option pystr) (log : list msg)
| Raised.

Definition save_extracted_statistics (e : env) (statistics : extracted)
    : option pystr * list msg :=
  match env_json_written e with
  | Some p => (Some p, [MsgJsonSaved])
  | None => (None, [MsgJsonSaveFailed])
  end.

Definition save_statistics_to_excel (e : env) (statistics : extracted)
    : option pystr * list msg :=
  if negb (env_openpyxl e) then (None, [MsgOpenpyxlMissing; MsgInstallOpenpyxl])
  else match build_sheets statistics with
       | Some _ =>
           if env_xlsx_saved e then (Some (env_xlsx_path e), [MsgExcelSaved])
           else (None, [MsgExcelFailed])
       | None => (None, [MsgExcelFailed])
       end.

(** [json_file if json_file else excel_file] *)
Definition path_or (a b : option pystr) : option pystr :=
  match a with
  | Some (_ :: _) => a
  | _ => b
  end.

Definition process_swot_file (e : env) : outcome :=
  match env_loaded e with
  | None => Returned None [MsgLoadFailed]
  | Some swot_data =>
      if negb (truthy swot_data) then Returned None []
      else match extract_statistics swot_data with
           | None => Raised
           | Some statistics =>
               let (json_file, log1) := save_extracted_statistics e statistics in
               let (excel_file, log2) := save_statistics_to_excel e statistics in
               Returned (path_or json_file excel_file) (log1 ++ log2)
           end
  end.

(* ------------------------------------------------------------------ *)
(** ** Specification-side definitions *)



Section FirstOccurrences.
Variable py_str : json -> pystr.

(** Deduplication as the spec words it: an entry is kept exactly when no
    earlier entry (in [before] or earlier in the list) has the same
    canonical string. *)
Fixpoint keep_first (before : list json) (l : list json) : list json :=
  match l with
  | [] => []
  | x :: r =>
      (if existsb (pystr_eqb (py_str x)) (map py_str before) then [] else [x])
        ++ keep_first (before ++ [x]) r
  end.
End FirstOccurrences.

(** Some object at some depth carries key [k]. *)
Fixpoint has_key_deep (k : pystr) (v : json) : bool :=
  match v with
  | JObj kvs =>
      (fix go (kvs : list (pystr * json)) : bool :=
         match kvs with
         | [] => false
         | (key, value) :: r => pystr_eqb key k || has_key_deep k value || go r
         end) kvs
  | JArr l =>
      (fix go (l : list json) : bool :=
         match l with
         | [] => false
         | item :: r => has_key_deep k item || go r
         end) l
  | _ => false
  end.

(** [x.get(k, {})] seen from outside, [{}] when [x] is not a dict. *)
Definition sub_dict (x : json) (k : pystr) : json :=
  match x with JObj kvs => dict_get_or k (JObj []) kvs | _ => JObj [] end.

Definition when_ (b : bool) (n : sheet_name) : list sheet_name :=
  if b then [n] else [].

(** An empty or null value: [None], [[]] or [{}]. *)
Definition empty_or_null (v : json) : bool :=
  match v with
  | JNull | JArr [] | JObj [] => true
  | _ => false
  end.

(** A concrete [str] for evaluating examples: Python's [str] on [None],
    booleans, ints, lists and dicts; strings are quoted without escaping and
    a float is printed as its exact fraction (not Python's [repr]). *)
Fixpoint join (sep : pystr) (l : list pystr) : pystr :=
  match l with
  | [] => []
  | [x] => x
  | x :: r => x ++ sep ++ join sep r
  end.

Definition str_of_Z (z : Z) : pystr := of_ascii (NilEmpty.string_of_int (Z.to_int z)).

Definition quote (s : pystr) : pystr := of_ascii "'" ++ s ++ of_ascii "'".

Fixpoint py_str_example (v : json) : pystr :=
  match v with
  | JNull => of_ascii "None"
  | JBool true => of_ascii "True"
  | JBool false => of_ascii "False"
  | JInt z => str_of_Z z
  | JFloat q => str_of_Z (Qnum q) ++ of_ascii "/" ++ str_of_Z (Zpos (Qden q))
  | JStr s => quote s
  | JArr l => of_ascii "[" ++ join (of_ascii ", ") (map py_str_example l) ++ of_ascii "]"
  | JObj kvs =>
      of_ascii "{" ++
      join (of_ascii ", ")
        ((fix go (kvs : list (pystr * json)) : list pystr :=
            match kvs with
            | [] => []
            | (k, v) :: r => (quote k ++ of_ascii ": " ++ py_str_example v) :: go r
            end) kvs) ++ of_ascii "}"
  end.

(* ------------------------------------------------------------------ *)
(** ** Literals with non-ASCII text *)

(** UTF-8 literal to [pystr] (one-, two- and three-byte sequences), for
    the Ukrainian messages of the source. *)
Fixpoint of_utf8 (s : string) : pystr :=
  match s with
  | EmptyString => []
  | String a s1 =>
      let b := N_of_ascii a in
      if (b <? 0x80)%N then b :: of_utf8 s1
      else match s1 with
           | EmptyString => []
           | String a2 s2 =>
               let b2 := N.land (N_of_ascii a2) 0x3F in
               if (b <? 0xE0)%N then (N.land b 0x1F * 64 + b2)%N :: of_utf8 s2
               else match s2 with
                    | EmptyString => []
                    | String a3 s3 =>
                        (N.land b 0x0F * 4096 + b2 * 64 + N.land (N_of_ascii a3) 0x3F)%N
                          :: of_utf8 s3
                    end
           end
  end.

(** [a or b] on Python values. *)
Definition py_or (a b : json) : json := if truthy a then a else b.

(* ------------------------------------------------------------------ *)
(** ** [_handle_swot_response] and [get_swot_report] (hromada_economy.py)

    A response is its status code and its body as [response.json()]
    parses it: [None] when that raises [ValueError]. *)

Definition msg_forbidden : pystr := of_utf8 "Не вистачає прав на операцію".
Definition msg_bad_request : pystr := of_utf8 "Помилка запиту".
Definition msg_empty_param : pystr := of_utf8 "Вхідний параметр порожній.".
Arguments msg_forbidden : simpl never.
Arguments msg_bad_request : simpl never.
Arguments msg_empty_param : simpl never.

(** The four-key dict of the 403 and 400 branches (and of the empty
    [register_id] guard). *)
Definition error_response (status : Z) (error_msg : json) : json :=
  JObj [(of_ascii "status", JInt status); (of_ascii "data", JNull);
        (of_ascii "errorMessage", error_msg); (of_ascii "success", JBool false)].

(** [Some JNull] is a returned [None]; [None] is an exception escaping the
    method: [response_data.keys()] raises [AttributeError] (not caught by
    [except ValueError]) when the body is not a JSON object. *)
Definition handle_swot_response (status_code : Z) (body : option json) : option json :=
  match body with
  | None => Some JNull
  | Some (JObj response_data) =>
      if Z.eqb status_code 403 then
        Some (error_response status_code
                (dict_get_or (of_ascii "ErrorMessage") (JStr msg_forbidden) response_data))
      else if Z.eqb status_code 200 then
        let data := py_or (dict_get_or (of_ascii "Data") JNull response_data)
                          (dict_get_or (of_ascii "data") JNull response_data) in
        let error_msg := py_or (dict_get_or (of_ascii "ErrorMessage") JNull response_data)
                               (dict_get_or (of_ascii "errorMessage") JNull response_data) in
        Some (JObj [(of_ascii "status", JInt status_code); (of_ascii "data", data);
                    (of_ascii "errorMessage", if truthy error_msg then error_msg else JNull);
                    (of_ascii "success", JBool (negb (is_none data)));
                    (of_ascii "raw_response", JObj response_data)])
      else if Z.eqb status_code 400 then
        Some (error_response status_code
                (dict_get_or (of_ascii "ErrorMessage") (JStr msg_bad_request) response_data))
      else Some JNull
  | Some _ => None
  end.

(** [str.isspace] on one code point: the characters [str.strip()] removes. *)
Definition py_isspace (c : N) : bool :=
  ((9 <=? c) && (c <=? 13))%N || ((0x1C <=? c) && (c <=? 0x20))%N ||
  (c =? 0x85)%N || (c =? 0xA0)%N || (c =? 0x1680)%N ||
  ((0x2000 <=? c) && (c <=? 0x200A))%N ||
  (c =? 0x2028)%N || (c =? 0x2029)%N || (c =? 0x202F)%N ||
  (c =? 0x205F)%N || (c =? 0x3000)%N.

Fixpoint lstrip (s : pystr) : pystr :=
  match s with
  | [] => []
  | c :: r => if py_isspace c then lstrip r else s
  end.

(** [str.strip()] *)
Definition strip (s : pystr) : pystr := rev (lstrip (rev (lstrip s))).

(** [f"{self.base_url}/api/1.0/hromada/getswot/{register_id.strip()}"] *)
Definition swot_endpoint (register_id : pystr) : pystr :=
  of_ascii "https://vkursi-api.azurewebsites.net/api/1.0/hromada/getswot/" ++ strip register_id.

(** The [HromadaEconomyAPI] object and its world: [self.token], what
    [self.auth.authorize()] does ([None]: it raises), and [requests.get]
    on an endpoint ([None]: a [RequestException]). *)
Record swot_api := mkSwotApi {
  api_token : json;
  api_authorize : option json;
  api_get : pystr -> option (Z * option json)
}.

(** The result and the new [self.token]. *)
Definition get_swot_report (a : swot_api) (register_id : pystr) : option json * json :=
  if negb (truthy (JStr register_id)) || negb (truthy (JStr (strip register_id))) then
    (Some (error_response 400 (JStr msg_empty_param)), api_token a)
  else
    let endpoint := swot_endpoint register_id in
    let token := if truthy (api_token a) then Some (api_token a) else api_authorize a in
    match token with
    | None => (None, api_token a)
    | Some t =>
        if negb (truthy t) then (Some JNull, t)
        else match api_get a endpoint with
             | None => (Some JNull, t)
             | Some (status, body) => (handle_swot_response status body, t)
             end
    end.

(* ------------------------------------------------------------------ *)
(** ** [save_swot_to_file] and [save_economy_list_to_file]
    (hromada_economy.py)

    The clock gives the strings the four [datetime.now()] calls format:
    the file-name stamp ([%Y-%m-%d_%H-%M-%S]), [isoformat()], the
    [date_created] stamp and the one inside [description].  [io_ok] says
    whether [mkdir], [open] and [json.dump] succeed.  The result is the
    file name under [output_dir] and the document written. *)

Record clock := mkClock {
  clk_stamp : pystr;
  clk_iso : pystr;
  clk_created : pystr;
  clk_descr : pystr
}.

Definition swot_descr_1 : pystr := of_utf8 "SWOT звіт громади (registerId: ".
Definition swot_descr_2 : pystr := of_utf8 "). Файл створено ".
Definition econ_descr_1 : pystr := of_utf8 "Список громад (GetEconomyList). Файл створено ".
Definition econ_descr_2 : pystr := of_utf8 ". Кількість записів: ".
Arguments swot_descr_1 : simpl never.
Arguments swot_descr_2 : simpl never.
Arguments econ_descr_1 : simpl never.
Arguments econ_descr_2 : simpl never.

Section Save.

(** [str(x)], as in [Process]. *)
Variable py_str : json -> pystr.
(** The [statistics] dict of [process_swot_statistics] as [json.dump]
    writes it. *)
Variable stats_json : stats -> json.

Definition save_swot_to_file (c : clock) (io_ok : bool) (swot_data : json)
    (register_id : pystr) : option (pystr * json) :=
  if negb (truthy swot_data) then None else
  let filename := of_ascii "hromada_swot_" ++ register_id ++ of_ascii "_" ++
                  clk_stamp c ++ of_ascii ".json" in
  match swot_data with
  | JObj sd =>
      match process_swot_statistics py_str sd with
      | None => None
      | Some processed_statistics =>
          let doc := JObj [
            (of_ascii "metadata", JObj [
               (of_ascii "created_at", JStr (clk_iso c));
               (of_ascii "date_created", JStr (clk_created c));
               (of_ascii "register_id", JStr register_id);
               (of_ascii "description",
                  JStr (swot_descr_1 ++ register_id ++ swot_descr_2 ++ clk_descr c));
               (of_ascii "status_code", dict_get_or (of_ascii "status") JNull sd);
               (of_ascii "success", dict_get_or (of_ascii "success") (JBool false) sd)]);
            (of_ascii "statistics", stats_json processed_statistics);
            (of_ascii "data", dict_get_or (of_ascii "data") JNull sd);
            (of_ascii "error_message", dict_get_or (of_ascii "errorMessage") JNull sd);
            (of_ascii "response_info", JObj [
               (of_ascii "status", dict_get_or (of_ascii "status") JNull sd);
               (of_ascii "success", dict_get_or (of_ascii "success") (JBool false) sd)]);
            (of_ascii "raw_response", dict_get_or (of_ascii "raw_response") JNull sd)] in
          if io_ok then Some (filename, doc) else None
      end
  | _ => None
  end.

(** [data_list[:5]], iterated: a str slice yields its characters; any
    other value raises ([TypeError], or [KeyError] for a dict). *)
Definition py_slice5 (x : json) : option (list json) :=
  match x with
  | JArr l => Some (firstn 5 l)
  | JStr s => Some (map (fun c => JStr [c]) (firstn 5 s))
  | _ => None
  end.

(** The [hromada_names] loop: [item.get("name")] raises unless [item] is
    a dict. *)
Fixpoint collect_names (items : list json) (acc : list pystr) : option (list pystr) :=
  match items with
  | [] => Some acc
  | item :: r =>
      let? name := py_get item (of_ascii "name") JNull in
      collect_names r (if truthy name then acc ++ [py_str name] else acc)
  end.

Definition economy_suffix (hromada_names : list pystr) (n : nat) : pystr :=
  let s := match hromada_names with
           | [] => of_ascii "list"
           | _ => join (of_ascii "_") (firstn 2 hromada_names)
           end in
  if (2 <? List.length hromada_names)%nat
  then s ++ of_ascii "_and_" ++ digits_of_nat n ++ of_ascii "_more"
  else s.

Definition economy_filename (hromada_names : list pystr) (n : nat) (stamp : pystr) : pystr :=
  let filename := of_ascii "hromada_economy_" ++ economy_suffix hromada_names n ++
                  of_ascii "_" ++ stamp ++ of_ascii ".json" in
  if (200 <? List.length filename)%nat
  then of_ascii "hromada_economy_list_" ++ stamp ++ of_ascii ".json"
  else filename.

Definition save_economy_list_to_file (c : clock) (io_ok : bool) (economy_data : json)
    : option (pystr * json) :=
  if negb (truthy economy_data) then None else
  match economy_data with
  | JObj kvs =>
      let data_list := dict_get_or (of_ascii "data") (JArr []) kvs in
      let? hromada_names :=
        if truthy data_list then
          let? items := py_slice5 data_list in collect_names items []
        else Some [] in
      let? n := py_len data_list in
      let filename := economy_filename hromada_names n (clk_stamp c) in
      let doc := JObj [
        (of_ascii "metadata", JObj [
           (of_ascii "created_at", JStr (clk_iso c));
           (of_ascii "date_created", JStr (clk_created c));
           (of_ascii "description",
              JStr (econ_descr_1 ++ clk_descr c ++ econ_descr_2 ++ digits_of_nat n));
           (of_ascii "total_records", JInt (Z.of_nat n))]);
        (of_ascii "data", dict_get_or (of_ascii "data") (JArr []) kvs);
        (of_ascii "response_info",
           JObj (filter (fun kv => negb (pystr_eqb (fst kv) (of_ascii "data"))) kvs))] in
      if io_ok then Some (filename, doc) else None
  | _ => None
  end.

End Save.

(* ------------------------------------------------------------------ *)
(** ** [Config] (config.py) and [VkursiAuth.authorize] (auth.py)

    The [.env] file is its text, decoded from UTF-8 (a POSIX system: text
    mode writes ["\n"] as it is); [os.environ] holds the three variables.
    [io_ok] says whether the file can be opened for reading and for writing;
    when it cannot, nothing changes. *)

Record config_state := mkConfig {
  cfg_file : option pystr;
  cfg_token : option pystr;
  cfg_email : option pystr;
  cfg_password : option pystr
}.

Definition newline : N := 10%N.
Definition carriage_return : N := 13%N.

(** Universal newlines of a file read in text mode: ["\r\n"] and a lone
    ["\r"] are read as ["\n"]; [after_cr] says the previous character was
    a ["\r"]. *)
Fixpoint translate_go (after_cr : bool) (s : pystr) : pystr :=
  match s with
  | [] => []
  | c :: r =>
      if (c =? carriage_return)%N then newline :: translate_go true r
      else if after_cr && (c =? newline)%N then translate_go false r
      else c :: translate_go false r
  end.

Definition translate_newlines (s : pystr) : pystr := translate_go false s.

(** Splitting after each ["\n"]: each line keeps its newline; a last line
    without one is kept as it is. *)
Fixpoint split_lines (s : pystr) : list pystr :=
  match s with
  | [] => []
  | c :: r =>
      if (c =? newline)%N then [c] :: split_lines r
      else match split_lines r with
           | [] => [[c]]
           | l :: ls => (c :: l) :: ls
           end
  end.

(** [f.readlines()] on the file opened with [open(path, 'r')]. *)
Definition readlines (s : pystr) : list pystr := split_lines (translate_newlines s).

(** The text of [lines] once written. *)
Definition writelines (lines : list pystr) : pystr := List.concat lines.

(** [str.encode("utf-8")] raises [UnicodeEncodeError] on a surrogate code
    point. *)
Definition utf8_encodable (s : pystr) : bool :=
  forallb (fun c => negb ((0xD800 <=? c) && (c <=? 0xDFFF)))%N s.

(** [f.writelines(lines)] on a file opened with [open(path, 'w')]: the file
    is truncated, then the lines are encoded and written one by one, so it
    keeps the lines before the first one that does not encode, where the
    call raises. *)
Fixpoint written_lines (lines : list pystr) : list pystr :=
  match lines with
  | [] => []
  | l :: r => if utf8_encodable l then l :: written_lines r else []
  end.

(** [os.environ[KEY] = value] raises [ValueError] for a value holding a NUL
    character. *)
Definition has_nul (s : pystr) : bool := existsb (N.eqb 0) s.

Definition token_env_key : pystr := of_ascii "VKURSI_API_TOKEN".
Definition email_env_key : pystr := of_ascii "VKURSI_EMAIL".
Definition password_env_key : pystr := of_ascii "VKURSI_PASSWORD".
Arguments token_env_key : simpl never.
Arguments email_env_key : simpl never.
Arguments password_env_key : simpl never.

(** [f"{KEY}={value}\n"] *)
Definition env_line (key value : pystr) : pystr := key ++ of_ascii "=" ++ value ++ [newline].

(** [os.getenv(key, "")] *)
Definition getenv (v : option pystr) : pystr := match v with Some s => s | None => [] end.

Definition config_get_token (cs : config_state) : pystr := getenv (cfg_token cs).

Definition get_credentials (cs : config_state) : pystr * pystr :=
  (getenv (cfg_email cs), getenv (cfg_password cs)).

(** The loop of [save_token]: the first line starting with [KEY=] is
    replaced, then [break]. *)
Fixpoint set_token_line (line : pystr) (env_content : list pystr) : list pystr * bool :=
  match env_content with
  | [] => ([], false)
  | l :: r =>
      if is_prefix (token_env_key ++ of_ascii "=") l then (line :: r, true)
      else let (r', found) := set_token_line line r in (l :: r', found)
  end.

Section Auth.

(** [f"{token}"]: [str] of the token. *)
Variable py_str : json -> pystr.

(** [save_token]: the file is rewritten before [os.environ[...] = token],
    which raises [TypeError] unless the token is a str and [ValueError] if
    it holds a NUL character; every exception is caught: [False]. *)
Definition save_token (io_ok : bool) (cs : config_state) (token : json) : bool * config_state :=
  if negb io_ok then (false, cs) else
  let env_content := match cfg_file cs with Some s => readlines s | None => [] end in
  let line := env_line token_env_key (py_str token) in
  let (lines, token_found) := set_token_line line env_content in
  let env_content' := if token_found then lines else lines ++ [line] in
  let cs' := mkConfig (Some (writelines (written_lines env_content'))) (cfg_token cs)
                      (cfg_email cs) (cfg_password cs) in
  if negb (forallb utf8_encodable env_content') then (false, cs') else
  match token with
  | JStr t =>
      if has_nul t then (false, cs')
      else (true, mkConfig (cfg_file cs') (Some t) (cfg_email cs') (cfg_password cs'))
  | _ => (false, cs')
  end.

(** [email or env_email] with [email : Optional[str]] *)
Definition str_or (x : option pystr) (d : pystr) : pystr :=
  match x with
  | Some ((_ :: _) as s) => s
  | _ => d
  end.

(** [requests.post] with the credentials: [None] for a
    [RequestException], else the status and the parsed body ([None]: the
    body is not JSON, a [JSONDecodeError]).  The result: [Some JNull] for a
    returned [None], [None] for an escaping exception ([AttributeError]
    when the body is not a JSON object). *)
Definition authorize (io_ok : bool) (post : pystr -> pystr -> option (Z * option json))
    (cs : config_state) (email password : option pystr) : option json * config_state :=
  let '(email, password) :=
    match email, password with
    | Some e, Some p => (e, p)
    | _, _ => let (env_email, env_password) := get_credentials cs in
              (str_or email env_email, str_or password env_password)
    end in
  if negb (truthy (JStr email)) || negb (truthy (JStr password)) then (Some JNull, cs)
  else match post email password with
       | None => (Some JNull, cs)
       | Some (status, body) =>
           if Z.eqb status 200 then
             match body with
             | None => (Some JNull, cs)
             | Some (JObj response_data) =>
                 let token := py_or (dict_get_or (of_ascii "Token") JNull response_data)
                                    (dict_get_or (of_ascii "token") JNull response_data) in
                 if truthy token then (Some token, snd (save_token io_ok cs token))
                 else (Some JNull, cs)
             | Some _ => (None, cs)
             end
           else (Some JNull, cs)
       end.

End Auth.

(** The loop of [save_credentials]: every line starting with [EMAIL=] or
    [PASSWORD=] is replaced (no [break]). *)
Fixpoint set_credential_lines (email password : pystr) (env_content : list pystr)
    : list pystr * bool * bool :=
  match env_content with
  | [] => ([], false, false)
  | l :: r =>
      let '(r', email_found, password_found) := set_credential_lines email password r in
      if is_prefix (email_env_key ++ of_ascii "=") l
      then (env_line email_env_key email :: r', true, password_found)
      else if is_prefix (password_env_key ++ of_ascii "=") l
      then (env_line password_env_key password :: r', email_found, true)
      else (l :: r', email_found, password_found)
  end.

(** [Config.save_credentials]: the lines are written (up to the first one
    that does not encode to UTF-8, where [write] raises), then
    [os.environ] takes the email and the password in turn; a NUL in either
    makes that assignment raise [ValueError], caught by the [except]. *)
Definition save_credentials (io_ok : bool) (cs : config_state) (email password : pystr)
    : bool * config_state :=
  if negb io_ok then (false, cs) else
  let env_content := match cfg_file cs with Some s => readlines s | None => [] end in
  let '(lines, email_found, password_found) := set_credential_lines email password env_content in
  let lines := if email_found then lines else lines ++ [env_line email_env_key email] in
  let lines := if password_found then lines else lines ++ [env_line password_env_key password] in
  let cs' := mkConfig (Some (writelines (written_lines lines))) (cfg_token cs)
                      (cfg_email cs) (cfg_password cs) in
  if negb (forallb utf8_encodable lines) then (false, cs')
  else if has_nul email then (false, cs')
  else if has_nul password
  then (false, mkConfig (cfg_file cs') (cfg_token cs') (Some email) (cfg_password cs'))
  else (true, mkConfig (cfg_file cs') (cfg_token cs') (Some email) (Some password)).

(* ------------------------------------------------------------------ *)
(** ** Shapes of the written documents and of the [.env] lines *)

(** The dict [save_swot_to_file] writes for the response dict [sd] and the
    statistics [st]. *)
Definition swot_doc (c : clock) (register_id : pystr) (st : json) (sd : list (pystr * json)) : json :=
  JObj [
    (of_ascii "metadata", JObj [
       (of_ascii "created_at", JStr (clk_iso c));
       (of_ascii "date_created", JStr (clk_created c));
       (of_ascii "register_id", JStr register_id);
       (of_ascii "description",
          JStr (swot_descr_1 ++ register_id ++ swot_descr_2 ++ clk_descr c));
       (of_ascii "status_code", dict_get_or (of_ascii "status") JNull sd);
       (of_ascii "success", dict_get_or (of_ascii "success") (JBool false) sd)]);
    (of_ascii "statistics", st);
    (of_ascii "data", dict_get_or (of_ascii "data") JNull sd);
    (of_ascii "error_message", dict_get_or (of_ascii "errorMessage") JNull sd);
    (of_ascii "response_info", JObj [
       (of_ascii "status", dict_get_or (of_ascii "status") JNull sd);
       (of_ascii "success", dict_get_or (of_ascii "success") (JBool false) sd)]);
    (of_ascii "raw_response", dict_get_or (of_ascii "raw_response") JNull sd)].

(** The dict [save_economy_list_to_file] writes for the response dict [kvs]
    with [len(data) = n]. *)
Definition economy_doc (c : clock) (n : nat) (kvs : list (pystr * json)) : json :=
  JObj [
    (of_ascii "metadata", JObj [
       (of_ascii "created_at", JStr (clk_iso c));
       (of_ascii "date_created", JStr (clk_created c));
       (of_ascii "description",
          JStr (econ_descr_1 ++ clk_descr c ++ econ_descr_2 ++ digits_of_nat n));
       (of_ascii "total_records", JInt (Z.of_nat n))]);
    (of_ascii "data", dict_get_or (of_ascii "data") (JArr []) kvs);
    (of_ascii "response_info",
       JObj (filter (fun kv => negb (pystr_eqb (fst kv) (of_ascii "data"))) kvs))].

(** A line [save_credentials] keeps as it is. *)
Definition other_line (l : pystr) : bool :=
  negb (is_prefix (email_env_key ++ of_ascii "=") l) &&
  negb (is_prefix (password_env_key ++ of_ascii "=") l).

(* ================================================================== *)
(** * Lemmas *)


















Lemma existsb_pystr_eqb_In a l : existsb (pystr_eqb a) l = true <-> In a l.
Proof.
  rewrite existsb_exists. split.
  - intros [y [Hy E]]. apply pystr_eqb_eq in E. subst. exact Hy.
  - intros H. exists a. split; [exact H | apply pystr_eqb_eq; reflexivity].
Qed.

Section Dedup.
Variable py_str : json -> pystr.

(** The [seen]-set loop computes the first occurrences, as long as [seen]
    holds exactly the strings of the entries already passed. *)
Lemma dedup_loop_keep_first :
  forall l seen before,
    (forall s, In s seen <-> In s (map py_str before)) ->
    dedup_loop py_str seen l = keep_first py_str before l.
Proof.
  induction l as [|x r IH]; intros seen before Hs; [reflexivity|].
  simpl.
  assert (Eb : existsb (pystr_eqb (py_str x)) seen =
               existsb (pystr_eqb (py_str x)) (map py_str before)).
  { destruct (existsb (pystr_eqb (py_str x)) seen) eqn:E1;
    destruct (existsb (pystr_eqb (py_str x)) (map py_str before)) eqn:E2; auto.
    - apply existsb_pystr_eqb_In, Hs in E1. apply existsb_pystr_eqb_In in E1. congruence.
    - apply existsb_pystr_eqb_In, Hs in E2. apply existsb_pystr_eqb_In in E2. congruence. }
  rewrite <- Eb. destruct (existsb (pystr_eqb (py_str x)) seen) eqn:E.
  - simpl. apply IH. intros s. rewrite map_app, in_app_iff, <- Hs. simpl.
    apply existsb_pystr_eqb_In in E. split; [tauto|].
    intros [H|[H|[]]]; [exact H | subst; exact E].
  - simpl. f_equal. apply IH. intros s. rewrite map_app, in_app_iff, <- Hs. simpl.
    tauto.
Qed.

Lemma keep_first_nodup :
  forall l before,
    NoDup (map py_str (keep_first py_str before l)) /\
    (forall y, In y (keep_first py_str before l) -> ~ In (py_str y) (map py_str before)).
Proof.
  induction l as [|x r IH]; intros before; simpl.
  - split; [constructor | intros _ []].
  - destruct (IH (before ++ [x])) as [Hnd Hout].
    destruct (existsb (pystr_eqb (py_str x)) (map py_str before)) eqn:E; simpl.
    + split; [exact Hnd|].
      intros y Hy Hin. apply (Hout y Hy). rewrite map_app, in_app_iff. left; exact Hin.
    + split.
      * constructor; [|exact Hnd].
        intros Hin. apply in_map_iff in Hin as [y [Ey Hy]].
        apply (Hout y Hy). rewrite map_app, in_app_iff, Ey. right; left; reflexivity.
      * intros y [<-|Hy] Hin.
        -- apply existsb_pystr_eqb_In in Hin. congruence.
        -- apply (Hout y Hy). rewrite map_app, in_app_iff. left; exact Hin.
Qed.

Lemma finish_kved st :
  kved_list (finish py_str st) = keep_first py_str [] (kved_list st) /\
  kved_count (finish py_str st) = Z.of_nat (List.length (kved_list (finish py_str st))).
Proof.
  unfold finish. cbn -[dedup_loop keep_first].
  destruct (kved_list st) as [|k r]; cbn -[dedup_loop keep_first].
  - split; reflexivity.
  - split; [|reflexivity].
    apply dedup_loop_keep_first. intros s; simpl; tauto.
Qed.

End Dedup.


Lemma remove_cadastr_numbers_no_key :
  forall v, has_key_deep cadastr_numbers (remove_cadastr_numbers v) = false.
Proof.
  induction v as [| | | | | l IHl | kvs IHkvs] using json_ind; simpl; try reflexivity.
  - induction IHl as [|x r Hx Hr IH]; simpl; [reflexivity|]. rewrite Hx. exact IH.
  - induction IHkvs as [|[key value] r Hx Hr IH]; simpl in *; [reflexivity|].
    destruct (pystr_eqb key cadastr_numbers) eqn:E; simpl.
    + exact IH.
    + rewrite E, Hx. exact IH.
Qed.

Lemma remove_cadastr_numbers_id :
  forall v, has_key_deep cadastr_numbers v = false -> remove_cadastr_numbers v = v.
Proof.
  induction v as [| | | | | l IHl | kvs IHkvs] using json_ind; simpl; intros H;
    try reflexivity.
  - f_equal. induction IHl as [|x r Hx Hr IH]; simpl in *; [reflexivity|].
    apply orb_false_iff in H as [H1 H2]. rewrite (Hx H1), (IH H2). reflexivity.
  - f_equal. induction IHkvs as [|[key value] r Hx Hr IH]; simpl in *; [reflexivity|].
    apply orb_false_iff in H as [H1 H3]. apply orb_false_iff in H1 as [H1 H2].
    rewrite H1. simpl. rewrite (Hx H2), (IH H3). reflexivity.
Qed.

Lemma remove_cadastr_numbers_obj kvs :
  match remove_cadastr_numbers (JObj kvs) with
  | JObj kvs' =>
      map fst kvs' = filter (fun k => negb (pystr_eqb k cadastr_numbers)) (map fst kvs) /\
      dict_get cadastr_numbers kvs' = None /\
      (forall k, k <> cadastr_numbers ->
         dict_get k kvs' = option_map remove_cadastr_numbers (dict_get k kvs))
  | _ => False
  end.
Proof.
  simpl. induction kvs as [|[key value] r IH]; simpl.
  - repeat split; auto.
  - destruct IH as [IH1 [IH2 IH3]].
    destruct (pystr_eqb key cadastr_numbers) eqn:E; simpl.
    + apply pystr_eqb_eq in E. subst key. repeat split; auto.
      intros k Hk. rewrite IH3 by exact Hk.
      destruct (pystr_eqb cadastr_numbers k) eqn:E'; [|reflexivity].
      apply pystr_eqb_eq in E'. congruence.
    + rewrite IH1. repeat split; auto.
      * rewrite E. simpl. exact IH2.
      * intros k Hk. destruct (pystr_eqb key k) eqn:E'; [reflexivity|]. apply IH3, Hk.
Qed.

(** Peel the [let?] matches of a successful run in hypothesis [H]. *)
Ltac peel H :=
  repeat match type of H with
         | context [match ?e with Some _ => _ | None => _ end] =>
             let E := fresh "E" in
             destruct e eqn:E; [|discriminate H]
         end.

Lemma map_opt_in {A B} (f : A -> option B) l ys :
  map_opt f l = Some ys -> forall y, In y ys -> exists x, In x l /\ f x = Some y.
Proof.
  revert ys; induction l as [|x r IH]; intros ys H y Hy; simpl in H.
  - injection H as <-. destruct Hy.
  - peel H. injection H as <-. destruct Hy as [<-|Hy].
    + exists x. split; [left; reflexivity | exact E].
    + destruct (IH _ eq_refl y Hy) as [x' [Hx' Ex']]. exists x'. split; [right; exact Hx' | exact Ex'].
Qed.

Ltac sheet_titles :=
  match goal with
  | |- _ = Some ?s -> map sheet_title ?s = when_ (truthy ?x) _ =>
      destruct (truthy x); intros H; [peel H|]; injection H as <-; reflexivity
  end.

Lemma kved_sheet_titles x s : kved_sheet x = Some s -> map sheet_title s = when_ (truthy x) SKved.
Proof. unfold kved_sheet. sheet_titles. Qed.

Lemma intelligence_sheet_titles x s :
  intelligence_sheet x = Some s -> map sheet_title s = when_ (truthy x) SIntelligence.
Proof. unfold intelligence_sheet. sheet_titles. Qed.

Lemma migration_sheet_titles x s :
  migration_sheet x = Some s -> map sheet_title s = when_ (truthy x) SMigration.
Proof. unfold migration_sheet. sheet_titles. Qed.

Lemma zeroed_sheet_titles n ls ks x s :
  zeroed_sheet n ls ks x = Some s -> map sheet_title s = when_ (truthy x) n.
Proof. unfold zeroed_sheet. sheet_titles. Qed.

Lemma cadastr_sheet_titles n x s :
  cadastr_sheet n x = Some s -> map sheet_title s = when_ (truthy x) n.
Proof. unfold cadastr_sheet. sheet_titles. Qed.

Lemma status_sheet_titles x s :
  status_sheet x = Some s -> map sheet_title s = when_ (truthy x) SStatus.
Proof. unfold status_sheet. sheet_titles. Qed.

Lemma py_get_sub_dict x k v : py_get x k (JObj []) = Some v -> v = sub_dict x k.
Proof. destruct x; simpl; congruence. Qed.

Lemma map_opt_map {A B} (f : A -> option B) (g : A -> B) l ys :
  (forall a y, f a = Some y -> y = g a) -> map_opt f l = Some ys -> ys = map g l.
Proof.
  intros Hf. revert ys; induction l as [|x r IH]; intros ys H; simpl in H.
  - injection H as <-. reflexivity.
  - peel H. injection H as <-. simpl. rewrite (Hf _ _ E), (IH _ eq_refl). reflexivity.
Qed.

(** The open/close and vehicle sheets: one row per caption, holding the
    field's value, or [0] where the field is [None] or missing. *)
Lemma zeroed_sheet_rows n ls ks x s :
  combine ls ks <> [] ->
  zeroed_sheet n ls ks x = Some s ->
  forall sh, In sh s ->
  exists kvs, x = JObj kvs /\
    sheet_rows sh =
      map (fun lk => [Label (fst lk);
                      Value (let v := dict_get_or (snd lk) JNull kvs in
                             if is_none v then JInt 0 else v)]) (combine ls ks).
Proof.
  intros Hne. unfold zeroed_sheet. destruct (truthy x); intros H; [|injection H as <-; intros _ []].
  peel H. injection H as <-. intros sh [<-|[]]. cbn [sheet_rows].
  destruct x as [| | | | | |kvs];
    try (destruct (combine ls ks) as [|lk r]; [contradiction|discriminate E]).
  exists kvs. split; [reflexivity|].
  refine (map_opt_map _ _ _ _ _ E). intros lk y E'.
  simpl in E'. unfold append in E'. destruct (forallb _ _); [|discriminate E'].
  injection E' as <-. reflexivity.
Qed.

Lemma in_titles_when sh s b n n' :
  map sheet_title s = when_ b n -> In sh s -> sheet_title sh = n' -> n = n'.
Proof.
  intros Ht Hin Hn. apply (in_map sheet_title) in Hin. rewrite Ht, Hn in Hin.
  destruct b; simpl in Hin; intuition.
Qed.

Lemma build_sheets_titles st sheets :
  build_sheets st = Some sheets ->
  map sheet_title sheets =
    when_ (truthy (kved_statistic st)) SKved ++
    when_ (truthy (intelligence_statistic st)) SIntelligence ++
    when_ (truthy (migration_region_statistic st)) SMigration ++
    when_ (truthy (open_close_statistic st)) SOpenClose ++
    when_ (truthy (vehicle_statistic st)) SVehicle ++
    when_ (truthy (sub_dict (cadastr_estate_statistic st) (of_ascii "byOwnerForm")))
      SCadastrOwner ++
    when_ (truthy (sub_dict (cadastr_estate_statistic st) (of_ascii "byPurpose")))
      SCadastrPurpose ++
    when_ (truthy (status_stats st)) SStatus.
Proof.
  unfold build_sheets. intros H. peel H. injection H as <-.
  repeat match goal with
         | E : py_get _ _ (JObj []) = Some _ |- _ => apply py_get_sub_dict in E; subst
         end.
  rewrite !map_app.
  repeat match goal with
         | E : kved_sheet _ = Some _ |- _ => rewrite (kved_sheet_titles _ _ E); clear E
         | E : intelligence_sheet _ = Some _ |- _ =>
             rewrite (intelligence_sheet_titles _ _ E); clear E
         | E : migration_sheet _ = Some _ |- _ => rewrite (migration_sheet_titles _ _ E); clear E
         | E : zeroed_sheet _ _ _ _ = Some _ |- _ =>
             rewrite (zeroed_sheet_titles _ _ _ _ _ E); clear E
         | E : cadastr_sheet _ _ = Some _ |- _ => rewrite (cadastr_sheet_titles _ _ _ E); clear E
         | E : status_sheet _ = Some _ |- _ => rewrite (status_sheet_titles _ _ E); clear E
         end.
  reflexivity.
Qed.

Lemma build_sheets_zeroed st sheets sh :
  build_sheets st = Some sheets -> In sh sheets ->
  (sheet_title sh = SOpenClose ->
   exists s, zeroed_sheet SOpenClose open_close_labels open_close_keys
               (open_close_statistic st) = Some s /\ In sh s) /\
  (sheet_title sh = SVehicle ->
   exists s, zeroed_sheet SVehicle vehicle_labels vehicle_keys
               (vehicle_statistic st) = Some s /\ In sh s).
Proof.
  unfold build_sheets. intros H Hin. peel H. injection H as <-.
  repeat match goal with
         | E : kved_sheet _ = Some _ |- _ => apply kved_sheet_titles in E
         | E : intelligence_sheet _ = Some _ |- _ => apply intelligence_sheet_titles in E
         | E : migration_sheet _ = Some _ |- _ => apply migration_sheet_titles in E
         | E : cadastr_sheet _ _ = Some _ |- _ => apply cadastr_sheet_titles in E
         | E : status_sheet _ = Some _ |- _ => apply status_sheet_titles in E
         | E : zeroed_sheet _ _ _ _ = Some _ |- _ =>
             let T := fresh "T" in
             pose proof (zeroed_sheet_titles _ _ _ _ _ E) as T; revert E
         end.
  intros. rewrite !in_app_iff in Hin.
  split; intros Ht;
  repeat match type of Hin with
         | _ \/ _ => destruct Hin as [Hin|Hin]
         end;
  first [ eexists; split; [reflexivity|eassumption]
        | exfalso;
          match goal with
          | Ht' : map sheet_title ?s = when_ _ _, Hs : In sh ?s |- _ =>
              pose proof (in_titles_when _ _ _ _ _ Ht' Hs Ht); discriminate
          end ].
Qed.

Lemma empty_or_null_falsy v : empty_or_null v = true -> truthy v = false.
Proof. destruct v as [| | | | |[|]|[|]]; simpl; congruence. Qed.

Lemma process_cases py_str sd st :
  process_swot_statistics py_str sd = Some st ->
  st = init_stats \/
  exists data st0, select_data sd = Some data /\
                   find_statistics data [] init_stats = Some st0 /\ st = finish py_str st0.
Proof.
  unfold process_swot_statistics. destruct (select_data sd) as [data|]; [|discriminate].
  destruct (negb (truthy data)).
  - intros H; injection H as <-. left; reflexivity.
  - destruct (find_statistics data [] init_stats) as [st0|] eqn:E; [|discriminate].
    intros H; injection H as <-. right. exists data, st0. auto.
Qed.

(* ================================================================== *)
(** * Claims *)




(** C2 (KVED collection), code defect: an array node under a "kved" key is
    never collected (the [isinstance(obj, list)] test sits inside the dict
    branch), while a dict node with a [list] array is. *)
Theorem kved_array_node_dropped :
  option_map kved_list
    (find_statistics
       (JObj [(of_ascii "kved", JArr [JObj [(of_ascii "code", JStr (of_ascii "01.11"))]])])
       [] init_stats) = Some [] /\
  option_map kved_list
    (find_statistics
       (JObj [(of_ascii "kved",
               JObj [(of_ascii "list", JArr [JObj [(of_ascii "code", JStr (of_ascii "01.11"))]])])])
       [] init_stats) = Some [JObj [(of_ascii "code", JStr (of_ascii "01.11"))]].
Proof. vm_compute. split; reflexivity. Qed.

(** C3 (Field Extractor), code defect: a [null] under the key in a nested
    object is taken for "not found" and the search moves on, so a later
    occurrence is returned instead of the first one. *)
Theorem find_field_skips_null_occurrence :
  find_field (of_ascii "k")
    (JObj [(of_ascii "a", JObj [(of_ascii "k", JNull)]);
           (of_ascii "b", JObj [(of_ascii "k", JInt 1)])]) = JInt 1 /\
  first_occurrence (of_ascii "k")
    (JObj [(of_ascii "a", JObj [(of_ascii "k", JNull)]);
           (of_ascii "b", JObj [(of_ascii "k", JInt 1)])]) = Some JNull.
Proof. vm_compute. split; reflexivity. Qed.

(** C4 (numeric fields only), code defect: [isinstance(True, (int, float))]
    holds in Python, so a boolean [count] is added as 1; a string [count]
    is not added. *)
Theorem bool_count_added :
  option_map fop_count
    (find_statistics (JObj [(of_ascii "fop", JObj [(of_ascii "count", JBool true)])])
       [] init_stats) = Some 1%Z /\
  option_map fop_count
    (find_statistics (JObj [(of_ascii "fop", JObj [(of_ascii "count", JStr (of_ascii "3"))])])
       [] init_stats) = Some 0%Z.
Proof. vm_compute. split; reflexivity. Qed.

(** C5 (FopCompanies totals): whenever [process_swot_statistics] returns,
    [total_count = fop_count + companies_count]; for the document
    {"a":{"fop":{"count":3}},"b":{"companyX":{"count":2}}} (as the response's
    ["data"]) the result is 3, 2 and 5, whatever [str] is. *)
Theorem fop_companies_total :
  (forall py_str sd st,
     process_swot_statistics py_str sd = Some st ->
     total_count st = (fop_count st + companies_count st)%Z) /\
  (forall py_str,
     option_map (fun st => (fop_count st, companies_count st, total_count st))
       (process_swot_statistics py_str
          [(of_ascii "data",
            JObj [(of_ascii "a", JObj [(of_ascii "fop", JObj [(of_ascii "count", JInt 3)])]);
                  (of_ascii "b", JObj [(of_ascii "companyX",
                                        JObj [(of_ascii "count", JInt 2)])])])])
     = Some (3, 2, 5)%Z).
Proof.
  split.
  - intros py_str sd st H. apply process_cases in H as [->|[data [st0 [_ [_ ->]]]]].
    + reflexivity.
    + unfold finish. destruct (kved_list st0); reflexivity.
  - intros py_str. reflexivity.
Qed.

Lemma fop_companies_total_witness :
  exists st,
    process_swot_statistics py_str_example
      [(of_ascii "data", JObj [(of_ascii "fop", JObj [(of_ascii "count", JInt 4)])])]
    = Some st /\ total_count st = (fop_count st + companies_count st)%Z.
Proof.
  eexists. split.
  - vm_compute. reflexivity.
  - apply (proj1 fop_companies_total py_str_example
             [(of_ascii "data", JObj [(of_ascii "fop", JObj [(of_ascii "count", JInt 4)])])]).
    vm_compute. reflexivity.
Defined.

(** C6 (KVED deduplication): for every [str] and every response for which
    [process_swot_statistics] returns, no two KVED entries have the same
    [str]; the list is [keep_first] of the collected entries (an entry is
    kept exactly when no earlier one has its [str], in collection order);
    and [kved_count] is its length. *)
Theorem kved_dedup :
  forall py_str sd st,
    process_swot_statistics py_str sd = Some st ->
    NoDup (map py_str (kved_list st)) /\
    kved_count st = Z.of_nat (List.length (kved_list st)) /\
    exists raw, kved_list st = keep_first py_str [] raw /\
      (raw = [] \/
       exists data st0, select_data sd = Some data /\
         find_statistics data [] init_stats = Some st0 /\ raw = kved_list st0).
Proof.
  intros py_str sd st H. apply process_cases in H as [->|[data [st0 [Hd [Hf ->]]]]].
  - split; [constructor|]. split; [reflexivity|]. exists []. auto.
  - destruct (finish_kved py_str st0) as [Hl Hc]. rewrite Hl in Hc |- *.
    split; [apply (keep_first_nodup py_str (kved_list st0) [])|].
    split; [exact Hc|].
    exists (kved_list st0). split; [reflexivity|]. right. exists data, st0. auto.
Qed.

Lemma kved_dedup_witness :
  exists st,
    process_swot_statistics py_str_example
      [(of_ascii "data",
        JObj [(of_ascii "kved", JObj [(of_ascii "list", JArr [JInt 1; JInt 2; JInt 1])])])]
    = Some st /\ NoDup (map py_str_example (kved_list st)) /\ kved_list st = [JInt 1; JInt 2].
Proof.
  eexists. split; [vm_compute; reflexivity|]. split.
  - apply (kved_dedup py_str_example
             [(of_ascii "data",
               JObj [(of_ascii "kved",
                      JObj [(of_ascii "list", JArr [JInt 1; JInt 2; JInt 1])])])]).
    vm_compute. reflexivity.
  - reflexivity.
Defined.

Lemma extract_statistics_unfold sd ex data :
  extract_statistics sd = Some ex -> extract_data sd = Some data -> truthy data = true ->
  cadastr_estate_statistic ex =
    (if truthy (find_field (of_ascii "cadastrEstateStatistic") data)
     then remove_cadastr_numbers (find_field (of_ascii "cadastrEstateStatistic") data)
     else JObj []).
Proof.
  unfold extract_statistics. intros H Hd Ht. rewrite Hd, Ht in H. cbv zeta in H.
  simpl negb in H. cbv iota beta in H. peel H. injection H as <-. reflexivity.
Qed.

(** C7 (cadastre stripping): the extracted [cadastr_estate_statistic] is
    [remove_cadastr_numbers] of the located value; its result carries no
    [cadastrNumbers] key at any depth; it is the identity on values without
    one; on a dict it keeps every other key, in order, with its value
    stripped in turn; on a list it strips each element; and a
    [cadastrNumbers] three levels down is removed with its siblings kept. *)
Theorem cadastr_numbers_stripped :
  (forall sd ex data,
     extract_statistics sd = Some ex -> extract_data sd = Some data -> truthy data = true ->
     truthy (find_field (of_ascii "cadastrEstateStatistic") data) = true ->
     cadastr_estate_statistic ex =
       remove_cadastr_numbers (find_field (of_ascii "cadastrEstateStatistic") data)) /\
  (forall v, has_key_deep cadastr_numbers (remove_cadastr_numbers v) = false) /\
  (forall v, has_key_deep cadastr_numbers v = false -> remove_cadastr_numbers v = v) /\
  (forall kvs,
     match remove_cadastr_numbers (JObj kvs) with
     | JObj kvs' =>
         map fst kvs' = filter (fun k => negb (pystr_eqb k cadastr_numbers)) (map fst kvs) /\
         dict_get cadastr_numbers kvs' = None /\
         (forall k, k <> cadastr_numbers ->
            dict_get k kvs' = option_map remove_cadastr_numbers (dict_get k kvs))
     | _ => False
     end) /\
  (forall l, remove_cadastr_numbers (JArr l) = JArr (map remove_cadastr_numbers l)) /\
  option_map cadastr_estate_statistic
    (extract_statistics
       (JObj [(of_ascii "data",
         JObj [(of_ascii "x", JObj [(of_ascii "cadastrEstateStatistic",
           JObj [(of_ascii "byOwnerForm",
                  JObj [(of_ascii "totalStat",
                         JObj [(of_ascii "count", JInt 5);
                               (of_ascii "cadastrNumbers", JArr [JStr (of_ascii "1")])]);
                        (of_ascii "cadastrNumbers", JArr [JStr (of_ascii "2")]);
                        (of_ascii "statistic",
                         JArr [JObj [(of_ascii "name", JStr (of_ascii "a"));
                                     (of_ascii "cadastrNumbers", JArr [])]])]);
                 (of_ascii "cadastrNumbers", JArr [JStr (of_ascii "3")])])])])]))
  = Some (JObj [(of_ascii "byOwnerForm",
                 JObj [(of_ascii "totalStat", JObj [(of_ascii "count", JInt 5)]);
                       (of_ascii "statistic",
                        JArr [JObj [(of_ascii "name", JStr (of_ascii "a"))]])])]).
Proof.
  split.
  { intros sd ex data H Hd Ht Hc. rewrite (extract_statistics_unfold _ _ _ H Hd Ht), Hc.
    reflexivity. }
  split; [exact remove_cadastr_numbers_no_key|].
  split; [exact remove_cadastr_numbers_id|].
  split; [exact remove_cadastr_numbers_obj|].
  split.
  - intros l. reflexivity.
  - vm_compute. reflexivity.
Qed.

Lemma cadastr_numbers_stripped_witness :
  remove_cadastr_numbers (JObj [(of_ascii "n", JInt 1)]) = JObj [(of_ascii "n", JInt 1)].
Proof.
  apply (proj1 (proj2 (proj2 cadastr_numbers_stripped))). vm_compute. reflexivity.
Defined.

(** C8 (tabular rendering), refuted as stated: an [openCloseStatistic]
    without any of the nine retained fields is projected to nine [None]s,
    and that category still gets its sheet (of zeros). *)
Lemma open_close_all_null_gets_sheet :
  exists ex sheets,
    extract_statistics
      (JObj [(of_ascii "data",
              JObj [(of_ascii "openCloseStatistic",
                     JObj [(of_ascii "list", JArr [JInt 1])])])]) = Some ex /\
    open_close_statistic ex = JObj (map (fun k => (k, JNull)) open_close_keys) /\
    build_sheets ex = Some sheets /\
    map sheet_title sheets = [SOpenClose].
Proof.
  eexists. eexists. split; [vm_compute; reflexivity|].
  split; [vm_compute; reflexivity|].
  split; [vm_compute; reflexivity|].
  vm_compute. reflexivity.
Qed.

(** C8 (tabular rendering), as amended: when the workbook is built, the
    sheets come in the fixed order KVED, registration states, migration,
    open/close, vehicles, cadastre by owner form, cadastre by purpose,
    statuses; a sheet is created exactly when its category's value is truthy
    (a non-empty list or dict; for the two cadastre sheets, the
    [byOwnerForm] / [byPurpose] sub-dict), so an open/close or vehicle
    projection whose fields are all null still gets one; and the open/close
    and vehicle sheets hold one row per field, its caption and its value,
    with [0] where the value is [None]. *)
Theorem excel_sheets_by_truthiness :
  forall st sheets,
    build_sheets st = Some sheets ->
    map sheet_title sheets =
      when_ (truthy (kved_statistic st)) SKved ++
      when_ (truthy (intelligence_statistic st)) SIntelligence ++
      when_ (truthy (migration_region_statistic st)) SMigration ++
      when_ (truthy (open_close_statistic st)) SOpenClose ++
      when_ (truthy (vehicle_statistic st)) SVehicle ++
      when_ (truthy (sub_dict (cadastr_estate_statistic st) (of_ascii "byOwnerForm")))
        SCadastrOwner ++
      when_ (truthy (sub_dict (cadastr_estate_statistic st) (of_ascii "byPurpose")))
        SCadastrPurpose ++
      when_ (truthy (status_stats st)) SStatus /\
    (forall sh, In sh sheets -> sheet_title sh = SOpenClose ->
     exists kvs, open_close_statistic st = JObj kvs /\
       sheet_rows sh =
         map (fun lk => [Label (fst lk);
                         Value (let v := dict_get_or (snd lk) JNull kvs in
                                if is_none v then JInt 0 else v)])
           (combine open_close_labels open_close_keys)) /\
    (forall sh, In sh sheets -> sheet_title sh = SVehicle ->
     exists kvs, vehicle_statistic st = JObj kvs /\
       sheet_rows sh =
         map (fun lk => [Label (fst lk);
                         Value (let v := dict_get_or (snd lk) JNull kvs in
                                if is_none v then JInt 0 else v)])
           (combine vehicle_labels vehicle_keys)).
Proof.
  intros st sheets H. split; [exact (build_sheets_titles _ _ H)|].
  split; intros sh Hin Ht.
  - destruct (proj1 (build_sheets_zeroed _ _ _ H Hin) Ht) as [s [Hs Hs']].
    refine (zeroed_sheet_rows _ _ _ _ _ _ Hs sh Hs'). unfold open_close_labels, open_close_keys; discriminate.
  - destruct (proj2 (build_sheets_zeroed _ _ _ H Hin) Ht) as [s [Hs Hs']].
    refine (zeroed_sheet_rows _ _ _ _ _ _ Hs sh Hs'). unfold vehicle_labels, vehicle_keys; discriminate.
Qed.

Lemma excel_sheets_by_truthiness_witness :
  build_sheets
    (mkExtracted (JArr []) (JArr []) (JObj []) (JObj []) (JObj []) (JObj [])
       (JObj [(of_ascii "headerVehicleCount", JNull)])) =
    Some [mkSheet SVehicle [[Label "companies_with_vehicles"; Value (JInt 0)];
                            [Label "companies_without_vehicles"; Value (JInt 0)];
                            [Label "vehicles_total"; Value (JInt 0)]]] /\
  exists kvs,
    vehicle_statistic
      (mkExtracted (JArr []) (JArr []) (JObj []) (JObj []) (JObj []) (JObj [])
         (JObj [(of_ascii "headerVehicleCount", JNull)])) = JObj kvs /\
    [[Label "companies_with_vehicles"; Value (JInt 0)];
     [Label "companies_without_vehicles"; Value (JInt 0)];
     [Label "vehicles_total"; Value (JInt 0)]] =
      map (fun lk => [Label (fst lk);
                      Value (let v := dict_get_or (snd lk) JNull kvs in
                             if is_none v then JInt 0 else v)])
        (combine vehicle_labels vehicle_keys).
Proof.
  split; [vm_compute; reflexivity|].
  apply (proj2 (proj2 (excel_sheets_by_truthiness
    (mkExtracted (JArr []) (JArr []) (JObj []) (JObj []) (JObj []) (JObj [])
       (JObj [(of_ascii "headerVehicleCount", JNull)]))
    [mkSheet SVehicle [[Label "companies_with_vehicles"; Value (JInt 0)];
                       [Label "companies_without_vehicles"; Value (JInt 0)];
                       [Label "vehicles_total"; Value (JInt 0)]]]
    ltac:(vm_compute; reflexivity)))
    (mkSheet SVehicle [[Label "companies_with_vehicles"; Value (JInt 0)];
                       [Label "companies_without_vehicles"; Value (JInt 0)];
                       [Label "vehicles_total"; Value (JInt 0)]])
    (or_introl eq_refl) eq_refl).
Defined.

(** C9 (tabular rendering unavailable): without [openpyxl], once the input
    file is loaded and extracted and the JSON file is written, processing
    returns the JSON path, the log carries the degradation notice, and the
    tabular step returns [None] without raising. *)
Theorem excel_unavailable_json_only :
  forall e doc ex p,
    env_openpyxl e = false ->
    env_loaded e = Some doc -> truthy doc = true ->
    extract_statistics doc = Some ex ->
    env_json_written e = Some p -> p <> [] ->
    process_swot_file e = Returned (Some p) [MsgJsonSaved; MsgOpenpyxlMissing; MsgInstallOpenpyxl] /\
    save_statistics_to_excel e ex = (None, [MsgOpenpyxlMissing; MsgInstallOpenpyxl]).
Proof.
  intros e doc ex p Hx Hl Ht He Hj Hp.
  assert (Hs : save_statistics_to_excel e ex = (None, [MsgOpenpyxlMissing; MsgInstallOpenpyxl])).
  { unfold save_statistics_to_excel. rewrite Hx. reflexivity. }
  split; [|exact Hs].
  unfold process_swot_file. rewrite Hl, Ht, He. simpl negb. cbv iota.
  unfold save_extracted_statistics. rewrite Hj, Hs.
  destruct p as [|c p']; [contradiction|reflexivity].
Qed.

Lemma excel_unavailable_json_only_witness :
  process_swot_file
    (mkEnv (Some (JObj [(of_ascii "data", JObj [(of_ascii "statusStats", JInt 1)])]))
           (Some (of_ascii "output/s.json")) false false [])
  = Returned (Some (of_ascii "output/s.json"))
             [MsgJsonSaved; MsgOpenpyxlMissing; MsgInstallOpenpyxl].
Proof.
  apply (proj1 (excel_unavailable_json_only
    (mkEnv (Some (JObj [(of_ascii "data", JObj [(of_ascii "statusStats", JInt 1)])]))
           (Some (of_ascii "output/s.json")) false false [])
    (JObj [(of_ascii "data", JObj [(of_ascii "statusStats", JInt 1)])])
    (mkExtracted (JArr []) (JArr []) (JObj []) (JObj []) (JInt 1) (JObj []) (JObj []))
    (of_ascii "output/s.json")
    eq_refl eq_refl ltac:(vm_compute; reflexivity) ltac:(vm_compute; reflexivity)
    eq_refl ltac:(discriminate))).
Defined.

(** C10 (found but empty): when the located value of a named substructure
    is [None], [[]] or [{}], its category keeps the initial default ([[]] for
    the two lists, [{}] for the others). *)
Theorem empty_substructure_keeps_default :
  forall sd ex data,
    extract_statistics sd = Some ex -> extract_data sd = Some data ->
    (empty_or_null (find_field (of_ascii "kvedStatistic") data) = true ->
       kved_statistic ex = JArr []) /\
    (empty_or_null (find_field (of_ascii "intelligenceStatistic") data) = true ->
       intelligence_statistic ex = JArr []) /\
    (empty_or_null (find_field (of_ascii "migrationRegionStatistic") data) = true ->
       migration_region_statistic ex = JObj []) /\
    (empty_or_null (find_field (of_ascii "cadastrEstateStatistic") data) = true ->
       cadastr_estate_statistic ex = JObj []) /\
    (empty_or_null (find_field (of_ascii "statusStats") data) = true ->
       status_stats ex = JObj []) /\
    (empty_or_null (find_field (of_ascii "openCloseStatistic") data) = true ->
       open_close_statistic ex = JObj []) /\
    (empty_or_null (find_field (of_ascii "vehicleStatistic") data) = true ->
       vehicle_statistic ex = JObj []).
Proof.
  intros sd ex data H Hd. unfold extract_statistics in H. rewrite Hd in H.
  destruct (truthy data) eqn:Ht.
  - simpl negb in H. cbv zeta iota beta in H. peel H. injection H as <-.
    repeat split; intros He; apply empty_or_null_falsy in He;
      cbn [kved_statistic intelligence_statistic migration_region_statistic
           cadastr_estate_statistic status_stats open_close_statistic vehicle_statistic];
      first
        [ match goal with
          | |- context [truthy ?X] =>
              assert (He' : truthy X = false) by exact He; rewrite He'; reflexivity
          end
        | match goal with
          | E : (if truthy ?X then _ else _) = Some _ |- _ =>
              assert (He' : truthy X = false) by exact He;
              rewrite He' in E; injection E as <-; reflexivity
          end ].
  - simpl negb in H. injection H as <-. repeat split.
Qed.

Lemma empty_substructure_keeps_default_witness :
  extract_statistics
    (JObj [(of_ascii "data", JObj [(of_ascii "vehicleStatistic", JObj []);
                                   (of_ascii "statusStats", JInt 2)])])
  = Some (mkExtracted (JArr []) (JArr []) (JObj []) (JObj []) (JInt 2) (JObj []) (JObj [])) /\
  vehicle_statistic
    (mkExtracted (JArr []) (JArr []) (JObj []) (JObj []) (JInt 2) (JObj []) (JObj []))
  = JObj [].
Proof.
  split; [vm_compute; reflexivity|].
  apply (empty_substructure_keeps_default
    (JObj [(of_ascii "data", JObj [(of_ascii "vehicleStatistic", JObj []);
                                   (of_ascii "statusStats", JInt 2)])])
    (mkExtracted (JArr []) (JArr []) (JObj []) (JObj []) (JInt 2) (JObj []) (JObj []))
    (JObj [(of_ascii "vehicleStatistic", JObj []); (of_ascii "statusStats", JInt 2)])
    ltac:(vm_compute; reflexivity) ltac:(vm_compute; reflexivity)).
  vm_compute. reflexivity.
Defined.

(* ================================================================== *)
(** * Further properties of the code *)

Lemma dict_has_get k kvs :
  dict_has k kvs = true -> dict_get k kvs = Some (dict_get_or k JNull kvs).
Proof.
  unfold dict_get_or, dict_has. induction kvs as [|[k' v] r IH]; simpl; [discriminate|].
  destruct (pystr_eqb k' k); simpl; auto.
Qed.

Lemma find_field_first_occ k :
  forall x,
    (first_occurrence k x = None -> find_field k x = JNull) /\
    (forall v, first_occurrence k x = Some v -> v <> JNull -> find_field k x = v).
Proof.
  induction x as [| | | | | l IHl | kvs IHkvs] using json_ind; simpl;
    try (split; [reflexivity | discriminate]).
  - induction IHl as [|x r [Hn Hs] Hr IH]; simpl; [split; [reflexivity | discriminate]|].
    destruct (first_occurrence k x) as [v|] eqn:E.
    + split; [discriminate|]. intros v' [= <-] Hv. rewrite (Hs v eq_refl Hv).
      destruct v; simpl; congruence.
    + rewrite (Hn eq_refl). simpl. exact IH.
  - destruct (dict_has k kvs) eqn:Hd.
    + rewrite (dict_has_get _ _ Hd). split; [discriminate|]. congruence.
    + clear Hd. induction IHkvs as [|[key x] r [Hn Hs] Hr IH]; simpl in *;
        [split; [reflexivity | discriminate]|].
      destruct (first_occurrence k x) as [v|] eqn:E.
      * split; [discriminate|]. intros v' [= <-] Hv. rewrite (Hs v eq_refl Hv).
        destruct v; simpl; congruence.
      * rewrite (Hn eq_refl). simpl. exact IH.
Qed.

(** [find_field] (swot_processor.py) returns the value at the first
    pre-order occurrence of the key ([JNull] when there is none), provided
    that value is not [null]. *)
Theorem find_field_first_non_null k x :
  first_occurrence k x <> Some JNull ->
  find_field k x = match first_occurrence k x with Some v => v | None => JNull end.
Proof.
  intros H. destruct (find_field_first_occ k x) as [Hn Hs].
  destruct (first_occurrence k x) as [v|] eqn:E; [|auto].
  apply Hs; congruence.
Qed.

(** [remove_cadastr_numbers] is idempotent: a second pass changes
    nothing. *)
Theorem remove_cadastr_numbers_idempotent :
  forall x, remove_cadastr_numbers (remove_cadastr_numbers x) = remove_cadastr_numbers x.
Proof.
  induction x as [| | | | | l IHl | kvs IHkvs] using json_ind; try reflexivity.
  - simpl. f_equal. induction IHl as [|x r Hx Hr IH]; simpl; [reflexivity|].
    rewrite Hx. f_equal. exact IH.
  - simpl. f_equal. induction IHkvs as [|[key x] r Hx Hr IH]; simpl in *; [reflexivity|].
    destruct (pystr_eqb key cadastr_numbers) eqn:E; simpl; [exact IH|].
    rewrite E, Hx. simpl. f_equal. exact IH.
Qed.



Lemma pystr_ltb_irrefl a : pystr_ltb a a = false.
Proof.
  induction a as [|x a IH]; simpl; [reflexivity|].
  rewrite N.ltb_irrefl, N.eqb_refl. exact IH.
Qed.

Lemma pystr_ltb_trans a b c :
  pystr_ltb a b = true -> pystr_ltb b c = true -> pystr_ltb a c = true.
Proof.
  revert b c; induction a as [|x a IH]; intros [|y b] [|z c]; simpl; try congruence.
  destruct (N.ltb_spec x y), (N.eqb_spec x y), (N.ltb_spec y z), (N.eqb_spec y z);
    destruct (N.ltb_spec x z), (N.eqb_spec x z); subst; try lia; try congruence; eauto.
Qed.

Lemma pystr_ltb_total a b : a <> b -> pystr_ltb a b = false -> pystr_ltb b a = true.
Proof.
  revert b; induction a as [|x a IH]; intros [|y b]; simpl; try congruence.
  intros Hne.
  destruct (N.ltb_spec x y), (N.eqb_spec x y), (N.ltb_spec y x), (N.eqb_spec y x);
    subst; try lia; try congruence.
  apply IH. congruence.
Qed.

Lemma insert_sorted_In k l y : In y (insert_sorted k l) <-> y = k \/ In y l.
Proof.
  induction l as [|h t IH]; simpl; [intuition (subst; auto)|].
  destruct (pystr_eqb k h) eqn:E.
  - apply pystr_eqb_eq in E; subst. simpl. intuition (subst; auto).
  - destruct (pystr_ltb k h); simpl; [intuition (subst; auto)|].
    rewrite IH. intuition (subst; auto).
Qed.

Lemma insert_sorted_sorted k l :
  StronglySorted (fun a b => pystr_ltb a b = true) l ->
  StronglySorted (fun a b => pystr_ltb a b = true) (insert_sorted k l).
Proof.
  induction 1 as [|h t Ht IH Hh]; simpl.
  - repeat constructor.
  - destruct (pystr_eqb k h) eqn:E; [constructor; assumption|].
    destruct (pystr_ltb k h) eqn:L.
    + constructor; [constructor; assumption|].
      constructor; [exact L|]. eapply Forall_impl; [|exact Hh].
      intros a Ha. eapply pystr_ltb_trans; eassumption.
    + constructor; [exact IH|]. apply Forall_forall. intros y Hy.
      apply insert_sorted_In in Hy as [->|Hy].
      * apply pystr_ltb_total; [|exact L]. intros <-.
        rewrite (proj2 (pystr_eqb_eq k k) eq_refl) in E. discriminate.
      * rewrite Forall_forall in Hh. auto.
Qed.

Lemma sorted_set_In ks y : In y (sorted_set ks) <-> In y ks.
Proof.
  unfold sorted_set. induction ks as [|k r IH]; simpl; [intuition (subst; auto)|].
  rewrite insert_sorted_In, IH. intuition (subst; auto).
Qed.

Lemma sorted_set_sorted ks :
  StronglySorted (fun a b => pystr_ltb a b = true) (sorted_set ks).
Proof.
  unfold sorted_set. induction ks as [|k r IH]; simpl; [constructor|].
  apply insert_sorted_sorted, IH.
Qed.

Lemma strongly_sorted_nodup l :
  StronglySorted (fun a b => pystr_ltb a b = true) l -> NoDup l.
Proof.
  induction 1 as [|h t Ht IH Hh]; constructor; [|exact IH].
  intros Hin. rewrite Forall_forall in Hh. specialize (Hh h Hin).
  rewrite pystr_ltb_irrefl in Hh. discriminate.
Qed.


Lemma status_rows_first_cell X Y keys rows :
  map_opt (fun key =>
      let? a := py_get X key (JInt 0) in
      let? b := py_get Y key (JInt 0) in
      append [Value (JStr key); Value a; Value b]) keys = Some rows ->
  map (hd (Label "")) rows = map (fun k => Value (JStr k)) keys.
Proof.
  revert rows; induction keys as [|k r IH]; intros rows H; simpl in H.
  - injection H as <-. reflexivity.
  - peel H. injection H as <-.
    match goal with
    | E : (let? a := _ in _) = Some _ |- _ =>
        peel E; unfold append in E; destruct (forallb _ _); [injection E as <-|discriminate E]
    end.
    simpl. f_equal. apply (IH _ eq_refl).
Qed.

(** The status sheet of [save_statistics_to_excel] has one row per key of
    [landStat] or [objectStat], each key once, in ascending code-point
    order. *)
Theorem status_sheet_rows_sorted ss sh :
  status_sheet ss = Some [sh] ->
  exists land object keys,
    sub_dict ss (of_ascii "landStat") = JObj land /\
    sub_dict ss (of_ascii "objectStat") = JObj object /\
    map (hd (Label "")) (sheet_rows sh) = map (fun k => Value (JStr k)) keys /\
    NoDup keys /\ StronglySorted (fun a b => pystr_ltb a b = true) keys /\
    (forall k, In k keys <-> In k (map fst land ++ map fst object)).
Proof.
  unfold status_sheet. intros H.
  destruct (truthy ss); [|discriminate].
  peel H. injection H as <-.
  destruct ss as [| | | | | |kvs]; try discriminate.
  match goal with
  | E1 : dict_keys ?j = Some _, E2 : dict_keys ?j0 = Some _ |- _ =>
      destruct j as [| | | | | |land]; try discriminate E1;
      destruct j0 as [| | | | | |object]; try discriminate E2;
      cbn in E1, E2; injection E1 as <-; injection E2 as <-
  end.
  exists land, object, (sorted_set (map fst land ++ map fst object)).
  split; [injection E as E; exact E|]. split; [injection E0 as E0; exact E0|].
  split; [eapply status_rows_first_cell; eassumption|].
  split; [apply strongly_sorted_nodup, sorted_set_sorted|].
  split; [apply sorted_set_sorted|]. intros k. apply sorted_set_In.
Qed.


Lemma truthy_not_none v : truthy v = true -> is_none v = false.
Proof. destruct v; simpl; congruence. Qed.

(** [_handle_swot_response] on a JSON-object body returns [None] exactly
    for a status other than 200, 400 and 403; otherwise its dict carries
    the status code, and ["success"] is true exactly when ["data"] is not
    [None]. *)
Theorem swot_response_success_iff_data st rd :
  match handle_swot_response st (Some (JObj rd)) with
  | Some JNull => st <> 200 /\ st <> 400 /\ st <> 403
  | Some (JObj kvs) =>
      (st = 200 \/ st = 400 \/ st = 403) /\
      dict_get (of_ascii "status") kvs = Some (JInt st) /\
      dict_get (of_ascii "success") kvs =
        Some (JBool (negb (is_none (dict_get_or (of_ascii "data") JNull kvs))))
  | _ => False
  end%Z.
Proof.
  unfold handle_swot_response.
  destruct (Z.eqb_spec st 403); [subst; simpl; auto|].
  destruct (Z.eqb_spec st 200); [subst; simpl; auto|].
  destruct (Z.eqb_spec st 400); [subst; simpl; auto|].
  auto.
Qed.

(** A 200 response is reported successful exactly when its ["Data"] is
    truthy or its ["data"] is not [null]. *)
Theorem swot_ok_success_iff rd :
  exists kvs,
    handle_swot_response 200 (Some (JObj rd)) = Some (JObj kvs) /\
    dict_get (of_ascii "success") kvs =
      Some (JBool (truthy (dict_get_or (of_ascii "Data") JNull rd) ||
                   negb (is_none (dict_get_or (of_ascii "data") JNull rd)))).
Proof.
  eexists. split; [reflexivity|].
  set (D := dict_get_or (of_ascii "Data") JNull rd).
  set (d := dict_get_or (of_ascii "data") JNull rd).
  simpl. unfold py_or.
  destruct (truthy D) eqn:T; simpl.
  - rewrite (truthy_not_none _ T). reflexivity.
  - reflexivity.
Qed.

Lemma forallb_rev {A} (f : A -> bool) l : forallb f (rev l) = forallb f l.
Proof.
  induction l as [|x r IH]; simpl; [reflexivity|].
  rewrite forallb_app, IH. simpl. rewrite andb_true_r, andb_comm. reflexivity.
Qed.

Lemma lstrip_app s t :
  lstrip (s ++ t) = if forallb py_isspace s then lstrip t else lstrip s ++ t.
Proof.
  induction s as [|c r IH]; simpl; [reflexivity|].
  destruct (py_isspace c); simpl; [exact IH | reflexivity].
Qed.

Lemma lstrip_spaces w : forallb py_isspace w = true -> lstrip w = [].
Proof.
  intros H. rewrite <- (app_nil_r w), lstrip_app, H. reflexivity.
Qed.

Lemma strip_pad w1 s w2 :
  forallb py_isspace w1 = true -> forallb py_isspace w2 = true ->
  strip (w1 ++ s ++ w2) = strip s.
Proof.
  intros H1 H2. unfold strip.
  rewrite lstrip_app, H1, lstrip_app.
  destruct (forallb py_isspace s) eqn:Hs.
  - rewrite (lstrip_spaces w2 H2), (lstrip_spaces s Hs). reflexivity.
  - rewrite rev_app_distr, lstrip_app, forallb_rev, H2. reflexivity.
Qed.

Lemma blank_guard s :
  negb (truthy (JStr s)) || negb (truthy (JStr (strip s))) = negb (truthy (JStr (strip s))).
Proof. destruct s as [|c r]; reflexivity. Qed.

(** A blank [register_id] (empty after [strip()]) gives the fixed 400 dict,
    whatever the token and the network; the token is left as it was. *)
Theorem get_swot_report_blank_id a rid :
  truthy (JStr (strip rid)) = false ->
  get_swot_report a rid = (Some (error_response 400 (JStr msg_empty_param)), api_token a).
Proof.
  intros H. unfold get_swot_report. rewrite blank_guard, H. reflexivity.
Qed.

(** Whitespace around the [register_id] changes nothing in
    [get_swot_report]: result, endpoint and token are those of the stripped
    id. *)
Theorem get_swot_report_ignores_padding a w1 rid w2 :
  forallb py_isspace w1 = true -> forallb py_isspace w2 = true ->
  get_swot_report a (w1 ++ rid ++ w2) = get_swot_report a rid.
Proof.
  intros H1 H2. unfold get_swot_report, swot_endpoint.
  rewrite !blank_guard, (strip_pad _ _ _ H1 H2). reflexivity.
Qed.

(** A response body that is JSON but not an object (a list, a string, a
    number, ...) makes [get_swot_report] raise instead of returning
    [None]. *)
Theorem get_swot_report_non_object_body_raises a rid st b :
  truthy (JStr (strip rid)) = true -> truthy (api_token a) = true ->
  api_get a (swot_endpoint rid) = Some (st, Some b) ->
  (forall kvs, b <> JObj kvs) ->
  fst (get_swot_report a rid) = None.
Proof.
  intros Hr Ht Hg Hb. unfold get_swot_report.
  rewrite blank_guard, Hr, Ht. simpl negb. cbv iota beta. rewrite Ht, Hg.
  destruct b as [| | | | | |kvs]; try reflexivity.
  exfalso. exact (Hb kvs eq_refl).
Qed.

Lemma error_response_default_stats py_str st err :
  match error_response st err with
  | JObj kvs => process_swot_statistics py_str kvs = Some init_stats
  | _ => False
  end.
Proof. reflexivity. Qed.

Lemma select_data_shape a b c e rd :
  select_data [(of_ascii "status", a); (of_ascii "data", b); (of_ascii "errorMessage", c);
               (of_ascii "success", e); (of_ascii "raw_response", JObj rd)] =
  if truthy b then Some b
  else if truthy (dict_get_or (of_ascii "Data") JNull rd)
       then Some (dict_get_or (of_ascii "Data") JNull rd)
       else Some (dict_get_or (of_ascii "data") JNull rd).
Proof. reflexivity. Qed.

Lemma ok_response_select rd kvs :
  handle_swot_response 200 (Some (JObj rd)) = Some (JObj kvs) ->
  select_data kvs = Some (py_or (dict_get_or (of_ascii "Data") JNull rd)
                                (dict_get_or (of_ascii "data") JNull rd)).
Proof.
  intros H. unfold handle_swot_response in H.
  change (Z.eqb 200 403) with false in H. change (Z.eqb 200 200) with true in H.
  cbv iota beta zeta in H.
  apply (f_equal (fun o => match o with Some (JObj l) => l | _ => [] end)) in H.
  cbv beta iota in H. subst kvs. rewrite select_data_shape. unfold py_or.
  destruct (truthy (dict_get_or (of_ascii "Data") JNull rd)) eqn:T;
    [cbv iota beta; rewrite T; reflexivity|].
  destruct (truthy (dict_get_or (of_ascii "data") JNull rd)); reflexivity.
Qed.

(** For a 200 response, [process_swot_statistics] reads its data from
    ["Data"] when that is truthy, else from ["data"]. *)
Theorem ok_response_statistics_source rd :
  exists kvs,
    handle_swot_response 200 (Some (JObj rd)) = Some (JObj kvs) /\
    select_data kvs = Some (py_or (dict_get_or (of_ascii "Data") JNull rd)
                                  (dict_get_or (of_ascii "data") JNull rd)).
Proof.
  eexists. split; [reflexivity|]. apply ok_response_select. reflexivity.
Qed.

(** A report from [_handle_swot_response] whose ["success"] is [False]
    yields the default statistics (all counts zero). *)
Theorem unsuccessful_response_default_stats py_str st rd kvs :
  handle_swot_response st (Some (JObj rd)) = Some (JObj kvs) ->
  dict_get (of_ascii "success") kvs = Some (JBool false) ->
  process_swot_statistics py_str kvs = Some init_stats.
Proof.
  intros H Hs. destruct (Z.eqb_spec st 200) as [->|N200].
  - unfold process_swot_statistics. rewrite (ok_response_select _ _ H).
    simpl in H. injection H as <-. simpl in Hs. injection Hs as Hs.
    destruct (py_or _ _); try discriminate Hs. reflexivity.
  - unfold handle_swot_response in H. apply Z.eqb_neq in N200. rewrite N200 in H.
    destruct (Z.eqb st 403).
    { injection H as <-. exact (error_response_default_stats py_str _ _). }
    destruct (Z.eqb st 400); [|discriminate].
    injection H as <-. exact (error_response_default_stats py_str _ _).
Qed.



Lemma save_swot_doc py_str stats_json c io x rid fname doc :
  save_swot_to_file py_str stats_json c io x rid = Some (fname, doc) ->
  exists sd s, x = JObj sd /\ process_swot_statistics py_str sd = Some s /\
    doc = swot_doc c rid (stats_json s) sd.
Proof.
  intros H. unfold save_swot_to_file in H.
  destruct (negb (truthy x)); [discriminate|]. cbv zeta in H.
  destruct x as [| | | | | |sd]; try discriminate.
  destruct (process_swot_statistics py_str sd) as [s|] eqn:P; [|discriminate].
  destruct io; [|discriminate].
  apply (f_equal (fun o => match o with Some (_, d) => d | None => JNull end)) in H.
  cbv beta iota in H. subst doc. exists sd, s. split; [reflexivity|split; [exact P|reflexivity]].
Qed.

Lemma extract_data_swot_doc c rid st sd :
  extract_data (swot_doc c rid st sd) =
  let d := dict_get_or (of_ascii "data") JNull sd in
  if truthy d then Some d else
  let raw := dict_get_or (of_ascii "raw_response") JNull sd in
  match py_get raw (of_ascii "Data") JNull with
  | None => None
  | Some d' =>
      if truthy d' then Some d'
      else match py_get raw (of_ascii "data") JNull with
           | None => None
           | Some d'' => if truthy d'' then Some d'' else Some (JObj [])
           end
  end.
Proof. reflexivity. Qed.

Lemma extract_statistics_error_doc c rid st s err :
  extract_statistics (swot_doc c rid st
    match error_response s err with JObj l => l | _ => [] end) = None.
Proof. unfold extract_statistics. rewrite extract_data_swot_doc. reflexivity. Qed.

Lemma get_swot_report_dict a rid kvs :
  fst (get_swot_report a rid) = Some (JObj kvs) ->
  (exists s err, JObj kvs = error_response s err) \/
  (exists rd, handle_swot_response 200 (Some (JObj rd)) = Some (JObj kvs)).
Proof.
  intros Hg. unfold get_swot_report in Hg.
  destruct (_ || _).
  { left. cbn [fst] in Hg. apply (f_equal (fun o => match o with Some j => j | None => JNull end)) in Hg.
    cbv beta iota in Hg. do 2 eexists. symmetry. exact Hg. }
  destruct (if truthy (api_token a) then Some (api_token a) else api_authorize a)
    as [t|]; [|discriminate].
  destruct (negb (truthy t)); [discriminate|].
  destruct (api_get a (swot_endpoint rid)) as [[st body]|]; [|discriminate].
  simpl in Hg. 
  destruct body as [[| | | | | |rd]|]; try discriminate.
  unfold handle_swot_response in Hg.
  destruct (Z.eqb st 403).
  { left. apply (f_equal (fun o => match o with Some j => j | None => JNull end)) in Hg.
    cbv beta iota in Hg. do 2 eexists. symmetry. exact Hg. }
  destruct (Z.eqb_spec st 200) as [->|].
  { right. exists rd. exact Hg. }
  destruct (Z.eqb st 400); [|discriminate].
  left. apply (f_equal (fun o => match o with Some j => j | None => JNull end)) in Hg.
  cbv beta iota in Hg. do 2 eexists. symmetry. exact Hg.
Qed.

Lemma ok_response_status rd kvs :
  handle_swot_response 200 (Some (JObj rd)) = Some (JObj kvs) ->
  dict_get (of_ascii "status") kvs = Some (JInt 200).
Proof.
  intros H. unfold handle_swot_response in H.
  change (Z.eqb 200 403) with false in H. change (Z.eqb 200 200) with true in H.
  cbv iota beta zeta in H.
  apply (f_equal (fun o => match o with Some (JObj l) => l | _ => [] end)) in H.
  cbv beta iota in H. subst kvs. reflexivity.
Qed.

(** A report of [get_swot_report] whose status is not 200, once written by
    [save_swot_to_file], makes [extract_statistics] raise when the saved
    file is processed, so [process_swot_file] raises. *)
Theorem saved_failed_report_breaks_processing py_str stats_json c io a rid rid' kvs fname doc e :
  fst (get_swot_report a rid) = Some (JObj kvs) ->
  dict_get (of_ascii "status") kvs <> Some (JInt 200) ->
  save_swot_to_file py_str stats_json c io (JObj kvs) rid' = Some (fname, doc) ->
  env_loaded e = Some doc ->
  extract_statistics doc = None /\ process_swot_file e = Raised.
Proof.
  intros Hg Hst Hs He.
  destruct (save_swot_doc _ _ _ _ _ _ _ _ Hs) as (sd & s & Hx & _ & ->).
  injection Hx as <-.
  assert (Hx : extract_statistics (swot_doc c rid' (stats_json s) kvs) = None).
  { destruct (get_swot_report_dict _ _ _ Hg) as [(st & err & Herr)|(rd & Hok)].
    - apply (f_equal (fun j => match j with JObj l => l | _ => [] end)) in Herr.
      cbv beta iota in Herr. rewrite Herr. apply extract_statistics_error_doc.
    - exfalso. apply Hst. exact (ok_response_status _ _ Hok). }
  split; [exact Hx|].
  unfold process_swot_file. rewrite He. cbv zeta. 
  change (truthy (swot_doc c rid' (stats_json s) kvs)) with true. cbv iota beta.
  rewrite Hx. reflexivity.
Qed.

Lemma extract_saved_ok c rid st E b D d rd :
  dict_get_or (of_ascii "Data") JNull rd = D -> dict_get_or (of_ascii "data") JNull rd = d ->
  extract_data (swot_doc c rid st
    [(of_ascii "status", JInt 200); (of_ascii "data", py_or D d);
     (of_ascii "errorMessage", E); (of_ascii "success", JBool b);
     (of_ascii "raw_response", JObj rd)]) =
  Some (if truthy (py_or D d) then py_or D d else JObj []).
Proof.
  intros HD Hd. rewrite extract_data_swot_doc. cbv zeta.
  change (dict_get_or (of_ascii "data") JNull
    [(of_ascii "status", JInt 200); (of_ascii "data", py_or D d);
     (of_ascii "errorMessage", E); (of_ascii "success", JBool b);
     (of_ascii "raw_response", JObj rd)]) with (py_or D d).
  change (dict_get_or (of_ascii "raw_response") JNull
    [(of_ascii "status", JInt 200); (of_ascii "data", py_or D d);
     (of_ascii "errorMessage", E); (of_ascii "success", JBool b);
     (of_ascii "raw_response", JObj rd)]) with (JObj rd).
  change (py_get (JObj rd) (of_ascii "Data") JNull) with (Some (dict_get_or (of_ascii "Data") JNull rd)).
  change (py_get (JObj rd) (of_ascii "data") JNull) with (Some (dict_get_or (of_ascii "data") JNull rd)).
  rewrite HD, Hd. unfold py_or.
  destruct (truthy D) eqn:TD; [rewrite TD; reflexivity|].
  destruct (truthy d); reflexivity.
Qed.

(** For a saved 200 report, the data the processor extracts from the file
    is the ["Data"]-or-["data"] value of the response ([{}] when that is
    falsy). *)
Theorem saved_ok_report_same_data py_str stats_json c io rd kvs rid fname doc :
  handle_swot_response 200 (Some (JObj rd)) = Some (JObj kvs) ->
  save_swot_to_file py_str stats_json c io (JObj kvs) rid = Some (fname, doc) ->
  let v := py_or (dict_get_or (of_ascii "Data") JNull rd) (dict_get_or (of_ascii "data") JNull rd) in
  extract_data doc = Some (if truthy v then v else JObj []).
Proof.
  intros Hh Hs.
  destruct (save_swot_doc _ _ _ _ _ _ _ _ Hs) as (sd & s & Hx & _ & ->).
  injection Hx as <-.
  unfold handle_swot_response in Hh.
  change (Z.eqb 200 403) with false in Hh. change (Z.eqb 200 200) with true in Hh.
  cbv iota beta zeta in Hh.
  apply (f_equal (fun o => match o with Some (JObj l) => l | _ => [] end)) in Hh.
  cbv beta iota in Hh. subst kvs. cbv zeta.
  apply extract_saved_ok; reflexivity.
Qed.



Lemma save_economy_doc py_str c io x fname doc :
  save_economy_list_to_file py_str c io x = Some (fname, doc) ->
  exists kvs names n, x = JObj kvs /\
    py_len (dict_get_or (of_ascii "data") (JArr []) kvs) = Some n /\
    fname = economy_filename names n (clk_stamp c) /\ doc = economy_doc c n kvs.
Proof.
  intros H. unfold save_economy_list_to_file in H.
  destruct (negb (truthy x)); [discriminate|].
  destruct x as [| | | | | |kvs]; try discriminate.
  cbv zeta in H.
  destruct (if truthy _ then _ else _) as [names|]; [|discriminate].
  destruct (py_len (dict_get_or (of_ascii "data") (JArr []) kvs)) as [n|] eqn:L; [|discriminate].
  destruct io; [|discriminate].
  injection H as <- <-. exists kvs, names, n. auto.
Qed.

Lemma economy_filename_shape names n stamp :
  exists mid, economy_filename names n stamp =
    of_ascii "hromada_economy_" ++ mid ++ of_ascii "_" ++ stamp ++ of_ascii ".json".
Proof.
  unfold economy_filename.
  destruct (200 <? _)%nat.
  - exists (of_ascii "list"). reflexivity.
  - eexists. reflexivity.
Qed.

Lemma economy_filename_length names n stamp :
  (List.length stamp <= 174)%nat -> (List.length (economy_filename names n stamp) <= 200)%nat.
Proof.
  intros Hs. unfold economy_filename.
  destruct (Nat.ltb_spec 200 (List.length (of_ascii "hromada_economy_" ++ economy_suffix names n ++
                  of_ascii "_" ++ stamp ++ of_ascii ".json"))) as [_|Hle].
  - rewrite !length_app. simpl. lia.
  - exact Hle.
Qed.

(** The economy file name is ["hromada_economy_" + middle + "_" + stamp +
    ".json"], and at most 200 characters long whenever the time stamp is at
    most 174 characters long. *)
Theorem economy_file_name_bounded py_str c io x fname doc :
  save_economy_list_to_file py_str c io x = Some (fname, doc) ->
  (exists mid, fname = of_ascii "hromada_economy_" ++ mid ++ of_ascii "_" ++
                       clk_stamp c ++ of_ascii ".json") /\
  ((List.length (clk_stamp c) <= 174)%nat -> (List.length fname <= 200)%nat).
Proof.
  intros H. destruct (save_economy_doc _ _ _ _ _ _ H) as (kvs & names & n & _ & _ & -> & _).
  split; [apply economy_filename_shape|apply economy_filename_length].
Qed.

Lemma dict_get_filter_key k k0 kvs :
  dict_get k (filter (fun kv => negb (pystr_eqb (fst kv) k0)) kvs) =
  if pystr_eqb k k0 then None else dict_get k kvs.
Proof.
  induction kvs as [|[k' v] r IH]; simpl.
  - destruct (pystr_eqb k k0); reflexivity.
  - destruct (pystr_eqb k' k0) eqn:E0; simpl.
    + rewrite IH. destruct (pystr_eqb k k0) eqn:E; [reflexivity|].
      apply pystr_eqb_eq in E0. subst k'.
      destruct (pystr_eqb k0 k) eqn:E'; [|reflexivity].
      apply pystr_eqb_eq in E'. subst.
      rewrite (proj2 (pystr_eqb_eq k k) eq_refl) in E. discriminate.
    + rewrite IH. destruct (pystr_eqb k' k) eqn:E; [|reflexivity].
      apply pystr_eqb_eq in E. subst k'. rewrite E0. reflexivity.
Qed.

(** The saved economy document holds the input's ["data"], the number of
    records [len(data)], and in ["response_info"] every top-level field of
    the input except ["data"]. *)
Theorem economy_doc_fields py_str c io x fname doc :
  save_economy_list_to_file py_str c io x = Some (fname, doc) ->
  exists kvs n, x = JObj kvs /\
    py_len (dict_get_or (of_ascii "data") (JArr []) kvs) = Some n /\
    py_get doc (of_ascii "data") JNull = Some (dict_get_or (of_ascii "data") (JArr []) kvs) /\
    (exists meta, py_get doc (of_ascii "metadata") JNull = Some (JObj meta) /\
       dict_get (of_ascii "total_records") meta = Some (JInt (Z.of_nat n))) /\
    (exists info, py_get doc (of_ascii "response_info") JNull = Some (JObj info) /\
       forall k, dict_get k info =
                 if pystr_eqb k (of_ascii "data") then None else dict_get k kvs).
Proof.
  intros H. destruct (save_economy_doc _ _ _ _ _ _ H) as (kvs & names & n & -> & L & _ & ->).
  exists kvs, n. split; [reflexivity|]. split; [exact L|]. split; [reflexivity|].
  split.
  - eexists. split; reflexivity.
  - eexists. split; [reflexivity|]. intros k. apply dict_get_filter_key.
Qed.

(** An economy response whose ["data"] has no [len] (a number, a boolean,
    [null]) makes [save_economy_list_to_file] fail: no file is written. *)
Theorem economy_data_without_length_not_saved py_str c io kvs :
  py_len (dict_get_or (of_ascii "data") (JArr []) kvs) = None ->
  save_economy_list_to_file py_str c io (JObj kvs) = None.
Proof.
  intros L. unfold save_economy_list_to_file.
  destruct (negb (truthy (JObj kvs))); [reflexivity|]. cbv zeta iota.
  destruct (if truthy _ then _ else _); [|reflexivity]. cbv iota beta.
  rewrite L. reflexivity.
Qed.


Lemma split_lines_nil s : split_lines s = [] -> s = [].
Proof.
  destruct s as [|c r]; [reflexivity|]. simpl.
  destruct (c =? newline)%N; [discriminate|]. destruct (split_lines r); discriminate.
Qed.

Lemma writelines_split_lines s : writelines (split_lines s) = s.
Proof.
  unfold writelines. induction s as [|c r IH]; [reflexivity|]. simpl.
  destruct (N.eqb_spec c newline) as [->|_]; [simpl; rewrite IH; reflexivity|].
  destruct (split_lines r) as [|l ls] eqn:E; simpl in *; rewrite <- IH; reflexivity.
Qed.

(** Writing back the lines read gives the text with its line ends
    translated. *)
Lemma writelines_readlines s : writelines (readlines s) = translate_newlines s.
Proof. apply writelines_split_lines. Qed.

(** Text without ["\r"] is read as it is. *)
Lemma translate_no_cr s : ~ In carriage_return s -> translate_go false s = s.
Proof.
  induction s as [|c r IH]; intros H; [reflexivity|]. simpl.
  destruct (N.eqb_spec c carriage_return) as [->|_]; [exfalso; apply H; left; reflexivity|].
  rewrite IH by (intros Hi; apply H; right; exact Hi). reflexivity.
Qed.

Lemma readlines_no_cr s : ~ In carriage_return s -> readlines s = split_lines s.
Proof. intros H. unfold readlines, translate_newlines. rewrite translate_no_cr by exact H. reflexivity. Qed.

Lemma translate_forallb (p : N -> bool) b s :
  p newline = true -> forallb p s = true -> forallb p (translate_go b s) = true.
Proof.
  intros Hn. revert b; induction s as [|c r IH]; intros b H; [reflexivity|].
  cbn [forallb] in H. apply andb_true_iff in H as [H1 H2]. cbn [translate_go].
  destruct (c =? carriage_return)%N; [cbn [forallb]; rewrite Hn, IH by exact H2; reflexivity|].
  destruct (b && (c =? newline))%N; [apply IH, H2|].
  cbn [forallb]. rewrite H1, IH by exact H2. reflexivity.
Qed.

Lemma forallb_concat {A} (p : A -> bool) ls :
  forallb p (List.concat ls) = forallb (forallb p) ls.
Proof. induction ls as [|l r IH]; [reflexivity|]. simpl. rewrite forallb_app, IH. reflexivity. Qed.

(** A file decoded from UTF-8 holds no surrogate, nor do its lines. *)
Lemma readlines_encodable s :
  utf8_encodable s = true -> forallb utf8_encodable (readlines s) = true.
Proof.
  intros H.
  replace (forallb utf8_encodable (readlines s)) with (utf8_encodable (writelines (readlines s)))
    by (unfold writelines, utf8_encodable; rewrite forallb_concat; reflexivity).
  rewrite writelines_readlines. apply translate_forallb; [reflexivity|exact H].
Qed.

Lemma written_lines_all ls : forallb utf8_encodable ls = true -> written_lines ls = ls.
Proof.
  induction ls as [|l r IH]; intros H; [reflexivity|].
  cbn [forallb] in H. apply andb_true_iff in H as [H1 H2]. simpl. rewrite H1, IH by exact H2.
  reflexivity.
Qed.

Lemma env_line_encodable key v :
  utf8_encodable key = true -> utf8_encodable v = true -> utf8_encodable (env_line key v) = true.
Proof.
  intros Hk Hv. unfold utf8_encodable, env_line in *. rewrite !forallb_app, Hk, Hv. reflexivity.
Qed.

Lemma token_key_encodable : utf8_encodable token_env_key = true.
Proof. vm_compute. reflexivity. Qed.

Lemma email_key_encodable : utf8_encodable email_env_key = true.
Proof. vm_compute. reflexivity. Qed.

Lemma password_key_encodable : utf8_encodable password_env_key = true.
Proof. vm_compute. reflexivity. Qed.

Lemma has_nul_false t : ~ In 0%N t -> has_nul t = false.
Proof.
  intros H. unfold has_nul. apply not_true_iff_false. intros E.
  apply existsb_exists in E as [c [Hc Ec]]. apply N.eqb_eq in Ec. subst c. exact (H Hc).
Qed.

(** Text that ends in a newline is split into whole lines. *)
Lemma split_lines_app_complete s t :
  (s = [] \/ last s 0%N = newline) -> split_lines (s ++ t) = split_lines s ++ split_lines t.
Proof.
  induction s as [|c r IH]; intros H; [reflexivity|].
  simpl app. simpl split_lines.
  destruct (N.eqb_spec c newline) as [Ec|Ec].
  - destruct r as [|c' r'].
    + reflexivity.
    + rewrite IH; [reflexivity|]. right. destruct H as [H|H]; [discriminate|exact H].
  - destruct r as [|c' r'].
    + destruct H as [H|H]; [discriminate|]. simpl in H. congruence.
    + assert (Hr : last (c' :: r') 0%N = newline).
      { destruct H as [H|H]; [discriminate|exact H]. }
      rewrite (IH (or_intror Hr)).
      destruct (split_lines (c' :: r')) as [|l ls] eqn:E.
      * apply split_lines_nil in E. discriminate.
      * reflexivity.
Qed.

Lemma split_lines_app_partial x t :
  ~ In newline x ->
  split_lines (x ++ t) =
  match split_lines t with
  | [] => match x with [] => [] | _ => [x] end
  | l :: ls => (x ++ l) :: ls
  end.
Proof.
  induction x as [|c r IH]; intros H.
  - simpl. destruct (split_lines t); reflexivity.
  - simpl app. simpl split_lines.
    destruct (N.eqb_spec c newline) as [->|_]; [exfalso; apply H; left; reflexivity|].
    rewrite IH by (intros Hi; apply H; right; exact Hi).
    destruct (split_lines t) as [|l ls].
    + destruct r; reflexivity.
    + reflexivity.
Qed.

Lemma split_lines_line x : ~ In newline x -> split_lines (x ++ [newline]) = [x ++ [newline]].
Proof.
  intros H. rewrite split_lines_app_partial by exact H. reflexivity.
Qed.

Lemma split_lines_partial x : x <> [] -> ~ In newline x -> split_lines x = [x].
Proof.
  intros Hx H. rewrite <- (app_nil_r x), split_lines_app_partial by exact H.
  destruct x; [congruence|]. rewrite app_nil_r. reflexivity.
Qed.

Lemma env_line_no_newline key v :
  ~ In newline key -> ~ In newline v ->
  ~ In newline (key ++ of_ascii "=").
Proof.
  intros Hk _ Hi. apply in_app_or in Hi. destruct Hi as [Hi|Hi]; [exact (Hk Hi)|].
  simpl in Hi. destruct Hi as [Hi|[]]. discriminate.
Qed.

Lemma split_lines_env_line key v :
  ~ In newline key -> ~ In newline v -> split_lines (env_line key v) = [env_line key v].
Proof.
  intros Hk Hv. unfold env_line. rewrite !app_assoc. apply split_lines_line.
  intros Hi. apply in_app_or in Hi. destruct Hi as [Hi|Hi].
  - exact (env_line_no_newline key v Hk Hv Hi).
  - exact (Hv Hi).
Qed.

Lemma token_key_no_newline : ~ In newline token_env_key.
Proof. unfold token_env_key. simpl. intuition discriminate. Qed.

Lemma env_line_no_cr key v :
  ~ In carriage_return key -> ~ In carriage_return v -> ~ In carriage_return (env_line key v).
Proof.
  intros Hk Hv Hi. unfold env_line in Hi. rewrite !in_app_iff in Hi.
  destruct Hi as [Hi|[[Hi|[]]|[Hi|[Hi|[]]]]]; [exact (Hk Hi)|discriminate|exact (Hv Hi)|discriminate].
Qed.

Lemma token_key_no_cr : ~ In carriage_return token_env_key.
Proof. unfold token_env_key. simpl. intuition discriminate. Qed.

Lemma set_token_line_absent line ls :
  forallb (fun l => negb (is_prefix (token_env_key ++ of_ascii "=") l)) ls = true ->
  set_token_line line ls = (ls, false).
Proof.
  induction ls as [|l r IH]; [reflexivity|].
  intros H. cbn [forallb] in H. apply andb_true_iff in H as [H1 H2]. cbn [set_token_line].
  destruct (is_prefix (token_env_key ++ of_ascii "=") l); [discriminate|].
  rewrite IH by exact H2. reflexivity.
Qed.

Lemma set_token_line_first line pre l post :
  forallb (fun l => negb (is_prefix (token_env_key ++ of_ascii "=") l)) pre = true ->
  is_prefix (token_env_key ++ of_ascii "=") l = true ->
  set_token_line line (pre ++ l :: post) = (pre ++ line :: post, true).
Proof.
  intros Hpre Hl. induction pre as [|p r IH]; cbn [app set_token_line].
  - rewrite Hl. reflexivity.
  - cbn [forallb] in Hpre. apply andb_true_iff in Hpre as [H1 H2].
    destruct (is_prefix (token_env_key ++ of_ascii "=") p); [discriminate|].
    rewrite IH by exact H2. reflexivity.
Qed.

Lemma set_token_line_forallb (p : pystr -> bool) line ls :
  forallb p ls = true -> p line = true ->
  forallb p (let (lines, found) := set_token_line line ls in
             if found then lines else lines ++ [line]) = true.
Proof.
  intros H Hl.
  assert (G : forallb p (fst (set_token_line line ls)) = true).
  { induction ls as [|l r IH]; [reflexivity|].
    cbn [forallb] in H. apply andb_true_iff in H as [H1 H2]. cbn [set_token_line].
    destruct (is_prefix _ l); cbn [fst forallb]; [rewrite Hl, H2; reflexivity|].
    destruct (set_token_line line r) as [r' f]. cbn [fst forallb] in *.
    rewrite H1, IH by exact H2. reflexivity. }
  destruct (set_token_line line ls) as [lines found]. cbn [fst] in G.
  destruct found; [exact G|]. rewrite forallb_app, G. simpl. rewrite Hl. reflexivity.
Qed.

(** Whatever the token, the file [save_token] leaves when it has no token
    line and its text encodes: the text read, then the token line. *)
Lemma save_token_absent_file py_str cs s tok :
  cfg_file cs = Some s ->
  forallb (fun l => negb (is_prefix (token_env_key ++ of_ascii "=") l)) (readlines s) = true ->
  utf8_encodable s = true -> utf8_encodable (py_str tok) = true ->
  cfg_file (snd (save_token py_str true cs tok)) =
    Some (translate_newlines s ++ env_line token_env_key (py_str tok)).
Proof.
  intros Hf Hn He Ht. unfold save_token. rewrite Hf. simpl negb. cbv iota zeta.
  rewrite set_token_line_absent by exact Hn. cbv iota.
  assert (Hl : forallb utf8_encodable (readlines s ++ [env_line token_env_key (py_str tok)]) = true).
  { rewrite forallb_app, readlines_encodable by exact He. cbn [forallb].
    rewrite env_line_encodable by (exact token_key_encodable || exact Ht). reflexivity. }
  rewrite written_lines_all by exact Hl.
  unfold writelines. rewrite concat_app. fold (writelines (readlines s)).
  rewrite writelines_readlines. simpl. rewrite app_nil_r.
  destruct (negb _); [reflexivity|]. destruct tok; try reflexivity.
  destruct (has_nul _); reflexivity.
Qed.

Lemma save_token_absent py_str cs s t :
  cfg_file cs = Some s ->
  forallb (fun l => negb (is_prefix (token_env_key ++ of_ascii "=") l)) (readlines s) = true ->
  utf8_encodable s = true -> utf8_encodable (py_str (JStr t)) = true -> ~ In 0%N t ->
  save_token py_str true cs (JStr t) =
    (true, mkConfig (Some (translate_newlines s ++ env_line token_env_key (py_str (JStr t))))
                    (Some t) (cfg_email cs) (cfg_password cs)).
Proof.
  intros Hf Hn He Ht Hz. pose proof (save_token_absent_file py_str cs s (JStr t) Hf Hn He Ht) as F.
  unfold save_token in *. rewrite Hf in *. simpl negb in *. cbv iota zeta in *.
  rewrite set_token_line_absent in * by exact Hn. cbv iota in *.
  assert (Hl : forallb utf8_encodable (readlines s ++ [env_line token_env_key (py_str (JStr t))]) = true).
  { rewrite forallb_app, readlines_encodable by exact He. cbn [forallb].
    rewrite env_line_encodable by (exact token_key_encodable || exact Ht). reflexivity. }
  rewrite Hl in *. simpl negb in *. cbv iota in *. rewrite has_nul_false in * by exact Hz.
  cbn [snd cfg_file] in F. rewrite <- F. reflexivity.
Qed.

(** When the [.env] file (its text free of surrogates, as any text decoded
    from UTF-8) has no [VKURSI_API_TOKEN=] line, [save_token] of a str token
    without NUL or surrogate succeeds: it writes back the text read (line
    ends translated to ["\n"]) followed by the token line, and sets the
    token. *)
Theorem save_token_appends_when_missing py_str cs s t :
  cfg_file cs = Some s ->
  forallb (fun l => negb (is_prefix (token_env_key ++ of_ascii "=") l)) (readlines s) = true ->
  utf8_encodable s = true -> utf8_encodable (py_str (JStr t)) = true -> ~ In 0%N t ->
  save_token py_str true cs (JStr t) =
    (true, mkConfig (Some (translate_newlines s ++ env_line token_env_key (py_str (JStr t))))
                    (Some t) (cfg_email cs) (cfg_password cs)).
Proof. exact (save_token_absent py_str cs s t). Qed.

(** When the [.env] file, with ["\n"] line ends only, has no token line and
    does not end in a newline, the appended token line is glued to its last
    line: re-reading the file gives no separate token line. *)
Theorem save_token_glues_unterminated_line py_str cs u x t :
  cfg_file cs = Some (u ++ x) ->
  (u = [] \/ last u 0%N = newline) -> x <> [] -> ~ In newline x ->
  ~ In carriage_return (u ++ x) ->
  ~ In newline (py_str (JStr t)) -> ~ In carriage_return (py_str (JStr t)) ->
  utf8_encodable (u ++ x) = true -> utf8_encodable (py_str (JStr t)) = true ->
  forallb (fun l => negb (is_prefix (token_env_key ++ of_ascii "=") l)) (readlines (u ++ x)) = true ->
  let line := env_line token_env_key (py_str (JStr t)) in
  cfg_file (snd (save_token py_str true cs (JStr t))) = Some (u ++ x ++ line) /\
  readlines (u ++ x) = readlines u ++ [x] /\
  readlines (u ++ x ++ line) = readlines u ++ [x ++ line].
Proof.
  intros Hf Hu Hx Hnx Hcr Ht Htr He Hte Hn line.
  assert (Hcl : ~ In carriage_return line) by exact (env_line_no_cr _ _ token_key_no_cr Htr).
  rewrite (save_token_absent_file py_str cs (u ++ x) (JStr t) Hf Hn He Hte).
  unfold translate_newlines. rewrite translate_no_cr by exact Hcr.
  split; [rewrite app_assoc; reflexivity|].
  rewrite (readlines_no_cr u) by (intros Hi; apply Hcr, in_or_app; left; exact Hi).
  rewrite (readlines_no_cr (u ++ x)) by exact Hcr.
  rewrite readlines_no_cr
    by (rewrite app_assoc; intros Hi; apply in_app_or in Hi as [Hi|Hi]; [exact (Hcr Hi)|exact (Hcl Hi)]).
  rewrite !split_lines_app_complete by exact Hu.
  split; [rewrite (split_lines_partial x) by assumption; reflexivity|].
  rewrite split_lines_app_partial by exact Hnx.
  unfold line. rewrite split_lines_env_line by (exact token_key_no_newline || exact Ht).
  reflexivity.
Qed.

(** [save_token] replaces the first [VKURSI_API_TOKEN=] line of the file
    and leaves every other line, later token lines included, as it was, when
    the file text and the token line encode to UTF-8 (a surrogate stops the
    writing at its line). *)
Theorem save_token_replaces_first_line py_str cs s pre l post tok :
  cfg_file cs = Some s ->
  readlines s = pre ++ l :: post ->
  forallb (fun l => negb (is_prefix (token_env_key ++ of_ascii "=") l)) pre = true ->
  is_prefix (token_env_key ++ of_ascii "=") l = true ->
  utf8_encodable s = true -> utf8_encodable (py_str tok) = true ->
  cfg_file (snd (save_token py_str true cs tok)) =
    Some (writelines (pre ++ env_line token_env_key (py_str tok) :: post)).
Proof.
  intros Hf Hr Hpre Hl He Ht.
  assert (Hall : forallb utf8_encodable (pre ++ env_line token_env_key (py_str tok) :: post) = true).
  { pose proof (readlines_encodable s He) as E. rewrite Hr, !forallb_app in E.
    apply andb_true_iff in E as [E1 E2]. cbn [forallb] in E2. apply andb_true_iff in E2 as [_ E2].
    rewrite forallb_app, E1. cbn [forallb].
    rewrite env_line_encodable by (exact token_key_encodable || exact Ht). rewrite E2. reflexivity. }
  unfold save_token. rewrite Hf, Hr. simpl negb. cbv iota zeta.
  rewrite set_token_line_first by assumption. cbv iota.
  rewrite written_lines_all by exact Hall.
  destruct (negb _); [reflexivity|]. destruct tok; try reflexivity.
  destruct (has_nul _); reflexivity.
Qed.


Lemma is_prefix_refl_app p t : is_prefix p (p ++ t) = true.
Proof. induction p as [|a p IH]; simpl; [reflexivity|]. rewrite N.eqb_refl, IH. reflexivity. Qed.

Lemma env_line_prefix key v : is_prefix (key ++ of_ascii "=") (env_line key v) = true.
Proof. unfold env_line. rewrite app_assoc. apply is_prefix_refl_app. Qed.

Lemma email_line_not_password e :
  is_prefix (password_env_key ++ of_ascii "=") (env_line email_env_key e) = false.
Proof. reflexivity. Qed.

Lemma password_line_not_email p :
  is_prefix (email_env_key ++ of_ascii "=") (env_line password_env_key p) = false.
Proof. reflexivity. Qed.


Lemma other_email_line e : other_line (env_line email_env_key e) = false.
Proof. unfold other_line. rewrite env_line_prefix. reflexivity. Qed.

Lemma other_password_line p : other_line (env_line password_env_key p) = false.
Proof. unfold other_line. rewrite env_line_prefix, andb_false_r. reflexivity. Qed.

Lemma set_credential_lines_spec e p ls :
  let '(r, ef, pf) := set_credential_lines e p ls in
  (forall l, In l r -> is_prefix (email_env_key ++ of_ascii "=") l = true ->
             l = env_line email_env_key e) /\
  (forall l, In l r -> is_prefix (password_env_key ++ of_ascii "=") l = true ->
             l = env_line password_env_key p) /\
  filter other_line r = filter other_line ls /\
  (ef = true -> In (env_line email_env_key e) r) /\
  (pf = true -> In (env_line password_env_key p) r).
Proof.
  induction ls as [|l ls IH]; cbn [set_credential_lines].
  - repeat split; intros; try contradiction; discriminate.
  - destruct (set_credential_lines e p ls) as [[r ef] pf].
    destruct IH as (IHe & IHp & IHf & IHef & IHpf).
    destruct (is_prefix (email_env_key ++ of_ascii "=") l) eqn:El.
    + repeat split.
      * intros x [<-|Hx] Hp; [reflexivity|exact (IHe x Hx Hp)].
      * intros x [<-|Hx] Hp; [rewrite email_line_not_password in Hp; discriminate|exact (IHp x Hx Hp)].
      * cbn [filter]. rewrite other_email_line.
        replace (other_line l) with false by (unfold other_line; rewrite El; reflexivity).
        exact IHf.
      * intros _. left. reflexivity.
      * intros H. right. exact (IHpf H).
    + destruct (is_prefix (password_env_key ++ of_ascii "=") l) eqn:Pl.
      * repeat split.
        -- intros x [<-|Hx] Hp; [rewrite password_line_not_email in Hp; discriminate|exact (IHe x Hx Hp)].
        -- intros x [<-|Hx] Hp; [reflexivity|exact (IHp x Hx Hp)].
        -- cbn [filter]. rewrite other_password_line.
           replace (other_line l) with false
             by (unfold other_line; rewrite Pl, andb_false_r; reflexivity).
           exact IHf.
        -- intros H. right. exact (IHef H).
        -- intros _. left. reflexivity.
      * repeat split.
        -- intros x [<-|Hx] Hp; [rewrite El in Hp; discriminate|exact (IHe x Hx Hp)].
        -- intros x [<-|Hx] Hp; [rewrite Pl in Hp; discriminate|exact (IHp x Hx Hp)].
        -- cbn [filter]. destruct (other_line l); rewrite IHf; reflexivity.
        -- intros H. right. exact (IHef H).
        -- intros H. right. exact (IHpf H).
Qed.

Lemma set_credential_lines_forallb (q : pystr -> bool) e p ls :
  forallb q ls = true -> q (env_line email_env_key e) = true ->
  q (env_line password_env_key p) = true ->
  forallb q (fst (fst (set_credential_lines e p ls))) = true.
Proof.
  intros H He Hp. induction ls as [|l r IH]; [reflexivity|].
  cbn [forallb] in H. apply andb_true_iff in H as [H1 H2]. specialize (IH H2).
  cbn [set_credential_lines]. destruct (set_credential_lines e p r) as [[r' ef] pf].
  cbn [fst] in IH.
  destruct (is_prefix _ l); [|destruct (is_prefix _ l)]; cbn [fst forallb];
    rewrite ?He, ?Hp, ?H1, IH; reflexivity.
Qed.

(** When the [.env] text, the email and the password encode to UTF-8 and
    neither the email nor the password holds a NUL, [save_credentials]
    succeeds and sets both variables; the lines it writes hold the email
    and the password lines, every [VKURSI_EMAIL=] or [VKURSI_PASSWORD=]
    line is the new one, and the other lines are those read from the old
    file, in the same order. *)
Theorem save_credentials_lines cs email password :
  (forall s, cfg_file cs = Some s -> utf8_encodable s = true) ->
  utf8_encodable email = true -> utf8_encodable password = true ->
  ~ In 0%N email -> ~ In 0%N password ->
  let env_content := match cfg_file cs with Some s => readlines s | None => [] end in
  exists lines,
    save_credentials true cs email password =
      (true, mkConfig (Some (writelines lines)) (cfg_token cs) (Some email) (Some password)) /\
    In (env_line email_env_key email) lines /\
    In (env_line password_env_key password) lines /\
    (forall l, In l lines -> is_prefix (email_env_key ++ of_ascii "=") l = true ->
               l = env_line email_env_key email) /\
    (forall l, In l lines -> is_prefix (password_env_key ++ of_ascii "=") l = true ->
               l = env_line password_env_key password) /\
    filter other_line lines = filter other_line env_content.
Proof.
  intros Hfile Hee Hpe Hne Hnp env_content. unfold save_credentials. simpl negb. cbv iota zeta.
  fold env_content.
  assert (Hk : forallb utf8_encodable env_content = true).
  { unfold env_content. destruct (cfg_file cs) as [s|] eqn:F; [|reflexivity].
    apply readlines_encodable, Hfile. reflexivity. }
  pose proof (env_line_encodable _ _ email_key_encodable Hee) as Ee.
  pose proof (env_line_encodable _ _ password_key_encodable Hpe) as Ep.
  pose proof (set_credential_lines_forallb utf8_encodable email password env_content Hk Ee Ep)
    as Hkr.
  pose proof (set_credential_lines_spec email password env_content) as Hs.
  destruct (set_credential_lines email password env_content) as [[r ef] pf].
  cbn [fst] in Hkr. cbv beta iota zeta.
  destruct Hs as (He & Hp & Hf & Hef & Hpf).
  set (r1 := if ef then r else r ++ [env_line email_env_key email]).
  assert (Hk1 : forallb utf8_encodable r1 = true).
  { unfold r1. destruct ef; [exact Hkr|]. rewrite forallb_app, Hkr. cbn [forallb].
    rewrite Ee. reflexivity. }
  assert (H1 : (forall l, In l r1 -> is_prefix (email_env_key ++ of_ascii "=") l = true ->
                 l = env_line email_env_key email) /\
               (forall l, In l r1 -> is_prefix (password_env_key ++ of_ascii "=") l = true ->
                 l = env_line password_env_key password) /\
               filter other_line r1 = filter other_line env_content /\
               In (env_line email_env_key email) r1 /\
               (pf = true -> In (env_line password_env_key password) r1)).
  { unfold r1. destruct ef.
    - repeat split; auto.
    - repeat split.
      + intros x Hx Hq. apply in_app_or in Hx. destruct Hx as [Hx|[<-|[]]]; auto.
      + intros x Hx Hq. apply in_app_or in Hx. destruct Hx as [Hx|[<-|[]]]; auto.
        all: rewrite email_line_not_password in Hq; discriminate.
      + rewrite filter_app, Hf. cbn [filter]. rewrite other_email_line. apply app_nil_r.
      + apply in_or_app. right. left. reflexivity.
      + intros H. apply in_or_app. left. auto. }
  clearbody r1. destruct H1 as (He1 & Hp1 & Hf1 & Hi1 & Hpf1).
  assert (Hk2 : forallb utf8_encodable
                  (if pf then r1 else r1 ++ [env_line password_env_key password]) = true).
  { destruct pf; [exact Hk1|]. rewrite forallb_app, Hk1. cbn [forallb]. rewrite Ep. reflexivity. }
  rewrite Hk2, (has_nul_false _ Hne), (has_nul_false _ Hnp), (written_lines_all _ Hk2).
  cbv iota beta. eexists. split; [reflexivity|].
  destruct pf.
  - repeat split; auto.
  - repeat split.
    + apply in_or_app. left. exact Hi1.
    + apply in_or_app. right. left. reflexivity.
    + intros x Hx Hq. apply in_app_or in Hx. destruct Hx as [Hx|[<-|[]]]; auto.
      all: rewrite password_line_not_email in Hq; discriminate.
    + intros x Hx Hq. apply in_app_or in Hx. destruct Hx as [Hx|[<-|[]]]; auto.
    + rewrite filter_app, Hf1. cbn [filter]. rewrite other_password_line. apply app_nil_r.
Qed.


(** When [authorize] returns a str token without NUL, the [.env] text and
    the token line encode to UTF-8, and the file can be written,
    [Config.get_token] afterwards returns that token, which is non-empty,
    and the [.env] file exists. *)
Theorem authorize_token_round_trip py_str post cs email password t cs' :
  (forall s, cfg_file cs = Some s -> utf8_encodable s = true) ->
  utf8_encodable (py_str (JStr t)) = true -> ~ In 0%N t ->
  authorize py_str true post cs email password = (Some (JStr t), cs') ->
  config_get_token cs' = t /\ t <> [] /\
  (exists s, cfg_file cs' = Some s).
Proof.
  intros Hfile Hte Hz H. unfold authorize in H.
  destruct (match email, password with
            | Some e, Some p => (e, p)
            | _, _ => _ end) as [e p].
  destruct (_ || _); [discriminate|].
  destruct (post e p) as [[st body]|]; [|discriminate].
  destruct (Z.eqb st 200); [|discriminate].
  destruct body as [[| | | | | |rd]|]; try discriminate.
  cbv zeta in H.
  destruct (truthy (py_or _ _)) eqn:T; [|discriminate].
  pose proof (f_equal fst H) as H1. pose proof (f_equal snd H) as H2.
  cbn [fst snd] in H1, H2.
  apply (f_equal (fun o => match o with Some j => j | None => JNull end)) in H1.
  cbv beta iota in H1. rewrite H1 in H2. subst cs'.
  assert (Hk : forallb utf8_encodable
                 (match cfg_file cs with Some s => readlines s | None => [] end) = true).
  { destruct (cfg_file cs) as [s|]; [|reflexivity].
    apply readlines_encodable, Hfile. reflexivity. }
  pose proof (set_token_line_forallb utf8_encodable (env_line token_env_key (py_str (JStr t)))
                _ Hk (env_line_encodable _ _ token_key_encodable Hte)) as G.
  unfold save_token. simpl negb. cbv iota zeta.
  destruct (set_token_line _ _) as [lines found]. cbv iota in G.
  rewrite G, (has_nul_false _ Hz). simpl.
  split; [reflexivity|]. split; [|eexists; reflexivity].
  intros E. rewrite E in H1. rewrite H1 in T. discriminate.
Qed.

(** Without a stored token, a login answered 200 with a JSON body that is
    not an object makes [get_swot_report] raise (the [AttributeError] of
    [authorize] is not caught). *)
Theorem authorize_error_escapes_get_swot_report py_str io post cs tok get rid b :
  truthy tok = false -> truthy (JStr (strip rid)) = true ->
  getenv (cfg_email cs) <> [] -> getenv (cfg_password cs) <> [] ->
  post (getenv (cfg_email cs)) (getenv (cfg_password cs)) = Some (200%Z, Some b) ->
  (forall kvs, b <> JObj kvs) ->
  fst (get_swot_report (mkSwotApi tok (fst (authorize py_str io post cs None None)) get) rid) = None.
Proof.
  intros Htok Hrid He Hp Hpost Hb.
  assert (Ha : fst (authorize py_str io post cs None None) = None).
  { unfold authorize. cbv iota zeta. unfold get_credentials. cbv iota beta.
    unfold str_or.
    destruct (getenv (cfg_email cs)) as [|c1 r1] eqn:E1; [congruence|].
    destruct (getenv (cfg_password cs)) as [|c2 r2] eqn:E2; [congruence|].
    simpl orb. cbv iota. rewrite Hpost. simpl Z.eqb. cbv iota.
    destruct b; try reflexivity. exfalso. eapply Hb. reflexivity. }
  unfold get_swot_report. cbn [api_token api_authorize api_get].
  destruct (negb (truthy (JStr rid)) || negb (truthy (JStr (strip rid)))) eqn:G.
  - exfalso. rewrite Hrid, orb_false_r in G. destruct rid; [discriminate|].
    simpl in Hrid. discriminate.
  - rewrite Htok, Ha. reflexivity.
Qed.

(** ** Instances of the properties above *)

Lemma find_field_first_non_null_witness :
  first_occurrence (of_ascii "k")
    (JObj [(of_ascii "a", JObj [(of_ascii "k", JInt 1)]); (of_ascii "k", JInt 2)]) <> Some JNull /\
  find_field (of_ascii "k")
    (JObj [(of_ascii "a", JObj [(of_ascii "k", JInt 1)]); (of_ascii "k", JInt 2)]) = JInt 2.
Proof.
  split; [vm_compute; discriminate|].
  apply (find_field_first_non_null (of_ascii "k")
    (JObj [(of_ascii "a", JObj [(of_ascii "k", JInt 1)]); (of_ascii "k", JInt 2)])).
  vm_compute. discriminate.
Defined.

Lemma status_sheet_rows_sorted_witness :
  exists sh,
    status_sheet (JObj [(of_ascii "landStat", JObj [(of_ascii "b", JInt 1); (of_ascii "a", JInt 3)]);
                        (of_ascii "objectStat", JObj [(of_ascii "a", JInt 2)])]) = Some [sh] /\
    exists land object keys,
      sub_dict (JObj [(of_ascii "landStat", JObj [(of_ascii "b", JInt 1); (of_ascii "a", JInt 3)]);
                      (of_ascii "objectStat", JObj [(of_ascii "a", JInt 2)])])
               (of_ascii "landStat") = JObj land /\
      sub_dict (JObj [(of_ascii "landStat", JObj [(of_ascii "b", JInt 1); (of_ascii "a", JInt 3)]);
                      (of_ascii "objectStat", JObj [(of_ascii "a", JInt 2)])])
               (of_ascii "objectStat") = JObj object /\
      map (hd (Label "")) (sheet_rows sh) = map (fun k => Value (JStr k)) keys /\
      NoDup keys /\ StronglySorted (fun a b => pystr_ltb a b = true) keys /\
      (forall k, In k keys <-> In k (map fst land ++ map fst object)).
Proof.
  eexists. split; [reflexivity|].
  apply status_sheet_rows_sorted. reflexivity.
Defined.

Lemma get_swot_report_blank_id_witness :
  truthy (JStr (strip (of_ascii "  "))) = false /\
  get_swot_report (mkSwotApi JNull None (fun _ => None)) (of_ascii "  ") =
    (Some (error_response 400 (JStr msg_empty_param)), JNull).
Proof.
  split; [reflexivity|].
  apply (get_swot_report_blank_id (mkSwotApi JNull None (fun _ => None)) (of_ascii "  ")).
  reflexivity.
Defined.

Lemma get_swot_report_ignores_padding_witness :
  forallb py_isspace (of_ascii " ") = true /\ forallb py_isspace [10%N] = true /\
  get_swot_report (mkSwotApi (JStr (of_ascii "t")) None (fun _ => Some (403%Z, Some (JObj []))))
    (of_ascii " " ++ of_ascii "UA123" ++ [10%N]) =
  get_swot_report (mkSwotApi (JStr (of_ascii "t")) None (fun _ => Some (403%Z, Some (JObj []))))
    (of_ascii "UA123").
Proof.
  split; [reflexivity|]. split; [reflexivity|].
  apply get_swot_report_ignores_padding; reflexivity.
Defined.

Lemma get_swot_report_non_object_body_raises_witness :
  truthy (JStr (strip (of_ascii "UA123"))) = true /\
  truthy (api_token (mkSwotApi (JStr (of_ascii "t")) None (fun _ => Some (200%Z, Some (JArr []))))) = true /\
  api_get (mkSwotApi (JStr (of_ascii "t")) None (fun _ => Some (200%Z, Some (JArr []))))
    (swot_endpoint (of_ascii "UA123")) = Some (200%Z, Some (JArr [])) /\
  (forall kvs, JArr [] <> JObj kvs) /\
  fst (get_swot_report (mkSwotApi (JStr (of_ascii "t")) None (fun _ => Some (200%Z, Some (JArr []))))
         (of_ascii "UA123")) = None.
Proof.
  split; [reflexivity|]. split; [reflexivity|]. split; [reflexivity|].
  split; [intros kvs H; discriminate H|].
  apply (get_swot_report_non_object_body_raises _ _ 200%Z (JArr [])).
  - reflexivity.
  - reflexivity.
  - reflexivity.
  - intros kvs H; discriminate H.
Defined.

Lemma unsuccessful_response_default_stats_witness :
  exists kvs,
    handle_swot_response 200 (Some (JObj [(of_ascii "Data", JNull)])) = Some (JObj kvs) /\
    dict_get (of_ascii "success") kvs = Some (JBool false) /\
    process_swot_statistics py_str_example kvs = Some init_stats.
Proof.
  eexists. split; [reflexivity|]. split; [reflexivity|].
  apply (unsuccessful_response_default_stats py_str_example 200 [(of_ascii "Data", JNull)]);
    reflexivity.
Defined.

Lemma saved_failed_report_breaks_processing_witness :
  exists kvs fname doc,
    fst (get_swot_report (mkSwotApi (JStr (of_ascii "t")) None
                            (fun _ => Some (403%Z, Some (JObj []))))
                         (of_ascii "UA123")) = Some (JObj kvs) /\
    dict_get (of_ascii "status") kvs <> Some (JInt 200) /\
    save_swot_to_file py_str_example (fun _ => JObj [])
      (mkClock (of_ascii "2024-01-01_00-00-00") (of_ascii "2024-01-01T00:00:00")
               (of_ascii "2024-01-01 00:00:00") (of_ascii "01.01.2024 00:00:00"))
      true (JObj kvs) (of_ascii "UA123") = Some (fname, doc) /\
    env_loaded (mkEnv (Some doc) None false false []) = Some doc /\
    extract_statistics doc = None /\
    process_swot_file (mkEnv (Some doc) None false false []) = Raised.
Proof.
  do 3 eexists. split; [reflexivity|]. split; [vm_compute; discriminate|].
  split; [reflexivity|]. split; [reflexivity|].
  eapply (saved_failed_report_breaks_processing py_str_example (fun _ => JObj [])
    (mkClock (of_ascii "2024-01-01_00-00-00") (of_ascii "2024-01-01T00:00:00")
             (of_ascii "2024-01-01 00:00:00") (of_ascii "01.01.2024 00:00:00"))
    true (mkSwotApi (JStr (of_ascii "t")) None (fun _ => Some (403%Z, Some (JObj []))))
    (of_ascii "UA123") (of_ascii "UA123")).
  - reflexivity.
  - vm_compute. discriminate.
  - reflexivity.
  - reflexivity.
Defined.

Lemma saved_ok_report_same_data_witness :
  exists kvs fname doc,
    handle_swot_response 200 (Some (JObj [(of_ascii "data", JObj [(of_ascii "x", JInt 1)])])) =
      Some (JObj kvs) /\
    save_swot_to_file py_str_example (fun _ => JObj [])
      (mkClock (of_ascii "2024-01-01_00-00-00") (of_ascii "2024-01-01T00:00:00")
               (of_ascii "2024-01-01 00:00:00") (of_ascii "01.01.2024 00:00:00"))
      true (JObj kvs) (of_ascii "UA123") = Some (fname, doc) /\
    extract_data doc = Some (JObj [(of_ascii "x", JInt 1)]).
Proof.
  do 3 eexists. split; [reflexivity|]. split; [reflexivity|].
  eapply (saved_ok_report_same_data py_str_example (fun _ => JObj [])
    (mkClock (of_ascii "2024-01-01_00-00-00") (of_ascii "2024-01-01T00:00:00")
             (of_ascii "2024-01-01 00:00:00") (of_ascii "01.01.2024 00:00:00"))
    true [(of_ascii "data", JObj [(of_ascii "x", JInt 1)])]); reflexivity.
Defined.

Lemma economy_file_name_bounded_witness :
  exists fname doc,
    save_economy_list_to_file py_str_example
      (mkClock (of_ascii "2024-01-01_00-00-00") (of_ascii "2024-01-01T00:00:00")
               (of_ascii "2024-01-01 00:00:00") (of_ascii "01.01.2024 00:00:00"))
      true (JObj [(of_ascii "data", JArr [JObj [(of_ascii "name", JStr (of_ascii "Kyiv"))]])]) =
      Some (fname, doc) /\
    (exists mid, fname = of_ascii "hromada_economy_" ++ mid ++ of_ascii "_" ++
                         of_ascii "2024-01-01_00-00-00" ++ of_ascii ".json") /\
    ((List.length (of_ascii "2024-01-01_00-00-00") <= 174)%nat -> (List.length fname <= 200)%nat).
Proof.
  do 2 eexists. split; [reflexivity|].
  eapply (economy_file_name_bounded py_str_example
    (mkClock (of_ascii "2024-01-01_00-00-00") (of_ascii "2024-01-01T00:00:00")
             (of_ascii "2024-01-01 00:00:00") (of_ascii "01.01.2024 00:00:00"))
    true (JObj [(of_ascii "data", JArr [JObj [(of_ascii "name", JStr (of_ascii "Kyiv"))]])])).
  reflexivity.
Defined.

Lemma economy_doc_fields_witness :
  exists fname doc,
    save_economy_list_to_file py_str_example
      (mkClock (of_ascii "2024-01-01_00-00-00") (of_ascii "2024-01-01T00:00:00")
               (of_ascii "2024-01-01 00:00:00") (of_ascii "01.01.2024 00:00:00"))
      true (JObj [(of_ascii "data", JArr [JObj [(of_ascii "id", JInt 1)]; JObj [(of_ascii "id", JInt 2)]]); (of_ascii "success", JBool true)]) =
      Some (fname, doc) /\
    exists kvs n,
      JObj [(of_ascii "data", JArr [JObj [(of_ascii "id", JInt 1)]; JObj [(of_ascii "id", JInt 2)]]); (of_ascii "success", JBool true)] = JObj kvs /\
      py_len (dict_get_or (of_ascii "data") (JArr []) kvs) = Some n /\
      py_get doc (of_ascii "data") JNull = Some (dict_get_or (of_ascii "data") (JArr []) kvs) /\
      (exists meta, py_get doc (of_ascii "metadata") JNull = Some (JObj meta) /\
         dict_get (of_ascii "total_records") meta = Some (JInt (Z.of_nat n))) /\
      (exists info, py_get doc (of_ascii "response_info") JNull = Some (JObj info) /\
         forall k, dict_get k info =
                   if pystr_eqb k (of_ascii "data") then None else dict_get k kvs).
Proof.
  do 2 eexists. split; [reflexivity|].
  eapply (economy_doc_fields py_str_example
    (mkClock (of_ascii "2024-01-01_00-00-00") (of_ascii "2024-01-01T00:00:00")
             (of_ascii "2024-01-01 00:00:00") (of_ascii "01.01.2024 00:00:00"))
    true (JObj [(of_ascii "data", JArr [JObj [(of_ascii "id", JInt 1)]; JObj [(of_ascii "id", JInt 2)]]); (of_ascii "success", JBool true)])).
  reflexivity.
Defined.

Lemma economy_data_without_length_not_saved_witness :
  py_len (dict_get_or (of_ascii "data") (JArr []) [(of_ascii "data", JNull)]) = None /\
  save_economy_list_to_file py_str_example
    (mkClock (of_ascii "2024-01-01_00-00-00") (of_ascii "2024-01-01T00:00:00")
             (of_ascii "2024-01-01 00:00:00") (of_ascii "01.01.2024 00:00:00"))
    true (JObj [(of_ascii "data", JNull)]) = None.
Proof.
  split; [reflexivity|]. apply economy_data_without_length_not_saved. reflexivity.
Defined.

Lemma save_token_appends_when_missing_witness :
  cfg_file (mkConfig (Some (of_ascii "A=1" ++ [carriage_return; newline])) None None None) =
    Some (of_ascii "A=1" ++ [carriage_return; newline]) /\
  forallb (fun l => negb (is_prefix (token_env_key ++ of_ascii "=") l))
    (readlines (of_ascii "A=1" ++ [carriage_return; newline])) = true /\
  utf8_encodable (of_ascii "A=1" ++ [carriage_return; newline]) = true /\
  utf8_encodable (py_str_example (JStr (of_ascii "tok"))) = true /\
  ~ In 0%N (of_ascii "tok") /\
  save_token py_str_example true
    (mkConfig (Some (of_ascii "A=1" ++ [carriage_return; newline])) None None None)
    (JStr (of_ascii "tok")) =
    (true, mkConfig (Some (translate_newlines (of_ascii "A=1" ++ [carriage_return; newline]) ++
                           env_line token_env_key (py_str_example (JStr (of_ascii "tok")))))
                    (Some (of_ascii "tok")) None None).
Proof.
  split; [reflexivity|]. split; [vm_compute; reflexivity|].
  split; [vm_compute; reflexivity|]. split; [vm_compute; reflexivity|].
  split; [simpl; intuition discriminate|].
  eapply save_token_appends_when_missing;
    [reflexivity|vm_compute; reflexivity|vm_compute; reflexivity|vm_compute; reflexivity|
     simpl; intuition discriminate].
Defined.

Lemma save_token_glues_unterminated_line_witness :
  cfg_file (mkConfig (Some (of_ascii "A=1" ++ [newline] ++ of_ascii "B=2")) None None None) =
    Some ((of_ascii "A=1" ++ [newline]) ++ of_ascii "B=2") /\
  (of_ascii "A=1" ++ [newline] = [] \/ last (of_ascii "A=1" ++ [newline]) 0%N = newline) /\
  of_ascii "B=2" <> [] /\ ~ In newline (of_ascii "B=2") /\
  ~ In carriage_return ((of_ascii "A=1" ++ [newline]) ++ of_ascii "B=2") /\
  ~ In newline (py_str_example (JStr (of_ascii "tok"))) /\
  ~ In carriage_return (py_str_example (JStr (of_ascii "tok"))) /\
  utf8_encodable ((of_ascii "A=1" ++ [newline]) ++ of_ascii "B=2") = true /\
  utf8_encodable (py_str_example (JStr (of_ascii "tok"))) = true /\
  forallb (fun l => negb (is_prefix (token_env_key ++ of_ascii "=") l))
    (readlines ((of_ascii "A=1" ++ [newline]) ++ of_ascii "B=2")) = true /\
  let line := env_line token_env_key (py_str_example (JStr (of_ascii "tok"))) in
  cfg_file (snd (save_token py_str_example true
    (mkConfig (Some (of_ascii "A=1" ++ [newline] ++ of_ascii "B=2")) None None None)
    (JStr (of_ascii "tok")))) =
    Some ((of_ascii "A=1" ++ [newline]) ++ of_ascii "B=2" ++ line) /\
  readlines ((of_ascii "A=1" ++ [newline]) ++ of_ascii "B=2") =
    readlines (of_ascii "A=1" ++ [newline]) ++ [of_ascii "B=2"] /\
  readlines ((of_ascii "A=1" ++ [newline]) ++ of_ascii "B=2" ++ line) =
    readlines (of_ascii "A=1" ++ [newline]) ++ [of_ascii "B=2" ++ line].
Proof.
  split; [reflexivity|]. split; [right; reflexivity|]. split; [discriminate|].
  split; [simpl; intuition discriminate|]. split; [simpl; intuition discriminate|].
  split; [simpl; intuition discriminate|]. split; [simpl; intuition discriminate|].
  split; [vm_compute; reflexivity|]. split; [vm_compute; reflexivity|].
  split; [vm_compute; reflexivity|].
  apply save_token_glues_unterminated_line.
  - reflexivity.
  - right. reflexivity.
  - discriminate.
  - simpl. intuition discriminate.
  - simpl. intuition discriminate.
  - simpl. intuition discriminate.
  - simpl. intuition discriminate.
  - vm_compute. reflexivity.
  - vm_compute. reflexivity.
  - vm_compute. reflexivity.
Defined.

Lemma save_token_replaces_first_line_witness :
  cfg_file (mkConfig (Some (of_ascii "A=1" ++ [newline] ++ token_env_key ++ of_ascii "=old"))
                     None None None) =
    Some (of_ascii "A=1" ++ [newline] ++ token_env_key ++ of_ascii "=old") /\
  readlines (of_ascii "A=1" ++ [newline] ++ token_env_key ++ of_ascii "=old") =
    [of_ascii "A=1" ++ [newline]] ++ (token_env_key ++ of_ascii "=old") :: [] /\
  forallb (fun l => negb (is_prefix (token_env_key ++ of_ascii "=") l))
    [of_ascii "A=1" ++ [newline]] = true /\
  is_prefix (token_env_key ++ of_ascii "=") (token_env_key ++ of_ascii "=old") = true /\
  utf8_encodable (of_ascii "A=1" ++ [newline] ++ token_env_key ++ of_ascii "=old") = true /\
  utf8_encodable (py_str_example (JStr (of_ascii "new"))) = true /\
  cfg_file (snd (save_token py_str_example true
    (mkConfig (Some (of_ascii "A=1" ++ [newline] ++ token_env_key ++ of_ascii "=old"))
              None None None) (JStr (of_ascii "new")))) =
    Some (writelines ([of_ascii "A=1" ++ [newline]] ++
      env_line token_env_key (py_str_example (JStr (of_ascii "new"))) :: [])).
Proof.
  split; [reflexivity|]. split; [vm_compute; reflexivity|].
  split; [vm_compute; reflexivity|]. split; [vm_compute; reflexivity|].
  split; [vm_compute; reflexivity|]. split; [vm_compute; reflexivity|].
  eapply save_token_replaces_first_line; [reflexivity|vm_compute; reflexivity|
    vm_compute; reflexivity|vm_compute; reflexivity|vm_compute; reflexivity|
    vm_compute; reflexivity].
Defined.

Lemma authorize_token_round_trip_witness :
  (forall s, cfg_file (mkConfig None None (Some (of_ascii "e@x")) (Some (of_ascii "pw"))) = Some s ->
             utf8_encodable s = true) /\
  utf8_encodable (py_str_example (JStr (of_ascii "abc"))) = true /\
  ~ In 0%N (of_ascii "abc") /\
  authorize py_str_example true
    (fun _ _ => Some (200%Z, Some (JObj [(of_ascii "Token", JStr (of_ascii "abc"))])))
    (mkConfig None None (Some (of_ascii "e@x")) (Some (of_ascii "pw"))) None None =
    (Some (JStr (of_ascii "abc")),
     snd (save_token py_str_example true
            (mkConfig None None (Some (of_ascii "e@x")) (Some (of_ascii "pw")))
            (JStr (of_ascii "abc")))) /\
  config_get_token (snd (save_token py_str_example true
            (mkConfig None None (Some (of_ascii "e@x")) (Some (of_ascii "pw")))
            (JStr (of_ascii "abc")))) = of_ascii "abc" /\
  of_ascii "abc" <> [] /\
  (exists s, cfg_file (snd (save_token py_str_example true
            (mkConfig None None (Some (of_ascii "e@x")) (Some (of_ascii "pw")))
            (JStr (of_ascii "abc")))) = Some s).
Proof.
  split; [intros s H; discriminate H|]. split; [vm_compute; reflexivity|].
  split; [simpl; intuition discriminate|].
  split; [reflexivity|].
  apply (authorize_token_round_trip py_str_example
    (fun _ _ => Some (200%Z, Some (JObj [(of_ascii "Token", JStr (of_ascii "abc"))])))
    (mkConfig None None (Some (of_ascii "e@x")) (Some (of_ascii "pw"))) None None).
  - intros s H; discriminate H.
  - vm_compute. reflexivity.
  - simpl. intuition discriminate.
  - reflexivity.
Defined.

Lemma save_credentials_lines_witness :
  (forall s, cfg_file (mkConfig (Some (of_ascii "A=1" ++ [newline] ++ email_env_key ++
                                       of_ascii "=old" ++ [newline])) None None None) = Some s ->
             utf8_encodable s = true) /\
  utf8_encodable (of_ascii "e@x") = true /\ utf8_encodable (of_ascii "pw") = true /\
  ~ In 0%N (of_ascii "e@x") /\ ~ In 0%N (of_ascii "pw") /\
  let cs := mkConfig (Some (of_ascii "A=1" ++ [newline] ++ email_env_key ++
                            of_ascii "=old" ++ [newline])) None None None in
  let env_content := match cfg_file cs with Some s => readlines s | None => [] end in
  exists lines,
    save_credentials true cs (of_ascii "e@x") (of_ascii "pw") =
      (true, mkConfig (Some (writelines lines)) (cfg_token cs)
                      (Some (of_ascii "e@x")) (Some (of_ascii "pw"))) /\
    In (env_line email_env_key (of_ascii "e@x")) lines /\
    In (env_line password_env_key (of_ascii "pw")) lines /\
    (forall l, In l lines -> is_prefix (email_env_key ++ of_ascii "=") l = true ->
               l = env_line email_env_key (of_ascii "e@x")) /\
    (forall l, In l lines -> is_prefix (password_env_key ++ of_ascii "=") l = true ->
               l = env_line password_env_key (of_ascii "pw")) /\
    filter other_line lines = filter other_line env_content.
Proof.
  split; [intros s H; injection H as <-; vm_compute; reflexivity|].
  split; [vm_compute; reflexivity|]. split; [vm_compute; reflexivity|].
  split; [simpl; intuition discriminate|]. split; [simpl; intuition discriminate|].
  apply (save_credentials_lines
    (mkConfig (Some (of_ascii "A=1" ++ [newline] ++ email_env_key ++
                     of_ascii "=old" ++ [newline])) None None None)
    (of_ascii "e@x") (of_ascii "pw")).
  - intros s H; injection H as <-; vm_compute; reflexivity.
  - vm_compute. reflexivity.
  - vm_compute. reflexivity.
  - simpl. intuition discriminate.
  - simpl. intuition discriminate.
Defined.

Lemma authorize_error_escapes_get_swot_report_witness :
  truthy JNull = false /\ truthy (JStr (strip (of_ascii "UA123"))) = true /\
  getenv (cfg_email (mkConfig None None (Some (of_ascii "e@x")) (Some (of_ascii "pw")))) <> [] /\
  getenv (cfg_password (mkConfig None None (Some (of_ascii "e@x")) (Some (of_ascii "pw")))) <> [] /\
  (fun _ _ : pystr => Some (200%Z, Some (JArr []))) (of_ascii "e@x") (of_ascii "pw") =
    Some (200%Z, Some (JArr [])) /\
  (forall kvs, JArr [] <> JObj kvs) /\
  fst (get_swot_report
         (mkSwotApi JNull
            (fst (authorize py_str_example true (fun _ _ => Some (200%Z, Some (JArr [])))
                    (mkConfig None None (Some (of_ascii "e@x")) (Some (of_ascii "pw"))) None None))
            (fun _ => None))
         (of_ascii "UA123")) = None.
Proof.
  split; [reflexivity|]. split; [reflexivity|]. split; [discriminate|]. split; [discriminate|].
  split; [reflexivity|]. split; [intros kvs H; discriminate H|].
  apply (authorize_error_escapes_get_swot_report py_str_example true
           (fun _ _ => Some (200%Z, Some (JArr [])))
           (mkConfig None None (Some (of_ascii "e@x")) (Some (of_ascii "pw")))
           JNull (fun _ => None) (of_ascii "UA123") (JArr [])).
  - reflexivity.
  - reflexivity.
  - discriminate.
  - discriminate.
  - reflexivity.
  - intros kvs H; discriminate H.
Defined.
